(** * kvstore-benchmarker: a shallow embedding of the metrics collector,
      the connection pool and the benchmark runner, with the properties
      its specification states about them.

    Layout: the Go primitives the code relies on ([Go]), the packages
    [collector], [kvclient] and [runner] as they are written, and then the
    theorems.

    Numbers are the machine's numbers: [int]/[int64] are [Z] with the
    two's-complement wrap written out, [float64] is Rocq's primitive
    IEEE-754 binary64 type, so that every latency computed here is the bit
    pattern the Go program computes. *)

From Stdlib Require Import Floats.
From Stdlib Require Import ZArith List String Bool Lia DecimalString Sorted.
From stdpp Require Import base option list gmap strings.

Local Open Scope Z_scope.

(* ================================================================== *)
(** * Go primitives *)
(* ================================================================== *)

Module Go.

Abbreviation float64 := PrimFloat.float.

(** Go's [error]: [nil] or a value carrying a message. *)
Abbreviation error := (option string).

(** Two's-complement wrap of a 64-bit signed integer. *)
Definition wrap64 (z : Z) : Z := (z + 2 ^ 63) mod 2 ^ 64 - 2 ^ 63.

Definition add64 (a b : Z) : Z := wrap64 (a + b).
Definition sub64 (a b : Z) : Z := wrap64 (a - b).

Definition min_int64 : Z := - 2 ^ 63.
Definition max_int64 : Z := 2 ^ 63 - 1.

(** [len(s)]. *)
Definition len {A : Type} (s : list A) : Z := Z.of_nat (length s).

(** [s[i]]: [None] stands for the run-time panic on an index out of range. *)
Definition index {A : Type} (s : list A) (i : Z) : option A :=
  if i <? 0 then None else s !! Z.to_nat i.

(** [s[low:]]: panics unless [0 <= low <= len(s)]. *)
Definition slice_from {A : Type} (s : list A) (low : Z) : option (list A) :=
  if (low <? 0) || (len s <? low) then None else Some (drop (Z.to_nat low) s).

(** [make([]float64, n)]: [n] zeroes; panics on a negative length. *)
Definition make_float64s (n : Z) : option (list float64) :=
  if n <? 0 then None else Some (replicate (Z.to_nat n) PrimFloat.zero).

(** [copy(dst, src)]: overwrites the first [min(len dst, len src)] cells. *)
Definition copy {A : Type} (dst src : list A) : list A :=
  take (length dst) src ++ drop (length src) dst.

(** [float64(z)] for an integer [z]: round to nearest, ties to even. *)
Definition float64_of_int (z : Z) : float64 :=
  FloatOps.SF2Prim (SpecFloat.binary_normalize 53 1024 z 0 false).

(** [int(f)] for a float [f]: truncation toward zero.  For NaN, the
    infinities and values outside [int64] the Go specification leaves the
    result to the implementation; amd64 yields the smallest integer. *)
Definition int_of_float64 (f : float64) : Z :=
  match FloatOps.Prim2SF f with
  | SpecFloat.S754_zero _ => 0
  | SpecFloat.S754_finite s m e =>
      let mag := Z.shiftl (Z.pos m) e in
      let z := if s then - mag else mag in
      if (min_int64 <=? z) && (z <=? max_int64) then z else min_int64
  | _ => min_int64
  end.

(** [math.IsNaN]. *)
Definition isNaN (f : float64) : bool := PrimFloat.is_nan f.

(** ** package time: instants and durations are nanosecond counts. *)

Abbreviation Time := Z (only parsing).
Abbreviation Duration := Z (only parsing).

Definition Second : Z := 1000000000.
Definition Millisecond : Z := 1000000.

(** [t.Sub(u)], saturating at the ends of [int64] as the library does. *)
Definition Sub (t u : Z) : Z := Z.max min_int64 (Z.min max_int64 (t - u)).

(** [time.Since(t)], read when the clock shows [now]. *)
Definition Since (now t : Z) : Z := Sub now t.

(** [d.Milliseconds()]: an [int64], the integer quotient. *)
Definition Milliseconds (d : Z) : Z := Z.quot d Millisecond.

(** [d.Seconds()]. *)
Definition Seconds (d : Z) : float64 :=
  let sec := Z.quot d Second in
  let nsec := Z.rem d Second in
  (float64_of_int sec + float64_of_int nsec / 1e9)%float.

(** [sort.Float64s]: increasing order, NaN first.  The order among values
    that compare equal (only [+0] and [-0]) is not specified by the
    library; insertion keeps them in their original order. *)
Definition less_float64 (x y : float64) : bool :=
  (x <? y)%float || (isNaN x && negb (isNaN y)).

Fixpoint insert_float64 (x : float64) (s : list float64) : list float64 :=
  match s with
  | [] => [x]
  | y :: s' => if less_float64 y x || negb (less_float64 x y)
               then y :: insert_float64 x s' else x :: s
  end.

Definition Float64s (s : list float64) : list float64 :=
  foldr insert_float64 [] (reverse s).

(** Two neighbours of a sorted slice: the second is not less than the first. *)
Definition in_order (x y : float64) : Prop := less_float64 y x = false.

(** [fmt.Sprintf("%d", z)]: the decimal numeral of an integer. *)
Definition Sprintf_d (z : Z) : string :=
  DecimalString.NilZero.string_of_int (Z.to_int z).

(** ** package fmt, as far as the text is looked at.

    Error messages are built from strings and integers and are computed.
    Lines for the log and fields for the CSV file also format floats and
    instants; they are kept as the format and the arguments handed to
    [Sprintf]/[Printf], which is the whole of what the program decides. *)
Inductive Value :=
| VString (s : string)
| VInt (z : Z)
| VFloat (f : float64)
| VBytes (b : string)
| VError (e : error)
| VTime (layout : string) (t : Z).

Inductive Text :=
| Lit (s : string)
| Sprintf (format : string) (args : list Value)
| TimeFormat (layout : string) (t : Z).

Definition RFC3339Nano : string := "2006-01-02T15:04:05.999999999Z07:00".

End Go.

(* ================================================================== *)
(** * package collector *)
(* ================================================================== *)

Module collector.
Import Go.

(** A single benchmark operation result. *)
Module BenchmarkResult.
Record t := {
  Method : string;
  LatencyMs : float64;
  Error : error;
  Timestamp : Time;
}.
End BenchmarkResult.

(** Computed statistics. *)
Module Stats.
Record t := {
  Method : string;
  Count : Z;
  ErrorCount : Z;
  ErrorRate : float64;
  AvgLatency : float64;
  MinLatency : float64;
  MaxLatency : float64;
  P50Latency : float64;
  P95Latency : float64;
  P99Latency : float64;
  TotalLatency : float64;
}.

(** The zero value [Stats{}] with its [Method] set. *)
Definition named (method : string) : t := {|
  Method := method; Count := 0; ErrorCount := 0;
  ErrorRate := PrimFloat.zero; AvgLatency := PrimFloat.zero;
  MinLatency := PrimFloat.zero; MaxLatency := PrimFloat.zero;
  P50Latency := PrimFloat.zero; P95Latency := PrimFloat.zero;
  P99Latency := PrimFloat.zero; TotalLatency := PrimFloat.zero;
|}.
End Stats.

(** [percentile] calculates the nth percentile from sorted values.  Each
    operation is rounded on its own, as on amd64. *)
Definition percentile (values : list float64) (n : Z) : option float64 :=
  if len values =? 0 then Some PrimFloat.zero
  else
    let index :=
      (float64_of_int n / 100 * float64_of_int (len values - 1))%float in
    if (index =? float64_of_int (int_of_float64 index))%float then
      Go.index values (int_of_float64 index)
    else
      let lowerIndex := int_of_float64 index in
      let upperIndex := add64 lowerIndex 1 in
      if len values <=? upperIndex then Go.index values lowerIndex
      else
        let fraction := (index - float64_of_int lowerIndex)%float in
        lower ← Go.index values lowerIndex;
        upper ← Go.index values upperIndex;
        Some (lower + fraction * (upper - lower))%float.

(** The rank [p/100 * (n-1)] of the [p]-th percentile in a sample of [n]. *)
Definition rank (n p : Z) : float64 :=
  (float64_of_int p / 100 * float64_of_int (n - 1))%float.

(** The specification's percentile, in its own words: the value at
    linear-interpolated rank [p/100 * (n-1)] of the sorted sample.  At a
    whole rank it is the entry of that rank; between two ranks it is the
    lower entry plus the fractional part of the rank times the step to the
    upper entry; past the last entry it is the last entry. *)
Definition interpolated_at_rank (sorted : list float64) (p : Z) : option float64 :=
  let r := rank (len sorted) p in
  let below := int_of_float64 r in
  if (r =? float64_of_int below)%float then Go.index sorted below
  else
    match Go.index sorted below, Go.index sorted (below + 1) with
    | Some lower, Some upper =>
        Some (lower + (r - float64_of_int below) * (upper - lower))%float
    | Some lower, None => Some lower
    | None, _ => None
    end.

(** Whether the rank of the [p]-th percentile falls inside a sample of [n]. *)
Definition rank_in_range (n p : Z) : bool :=
  let below := int_of_float64 (rank n p) in
  (0 <=? below) && (below <? n).

(** The ranks of p50, p95 and p99 fall inside the samples of [n], [n+1],
    ... ([count] sizes in all); decided by evaluation. *)
Fixpoint ranks_in_range_from (count : nat) (n : Z) : bool :=
  match count with
  | O => true
  | S count' =>
      rank_in_range n 50 && rank_in_range n 95 && rank_in_range n 99
      && ranks_in_range_from count' (n + 1)
  end.

(** The largest merged sample three kinds at the default capacity make. *)
Definition sample_limit : Z := 30000.

(** Aggregated metrics for a method (the mutex carries no data). *)
Module Metrics.
Record t := {
  Method : string;
  Count : Z;
  ErrorCount : Z;
  TotalLatency : float64;
  MinLatency : float64;
  MaxLatency : float64;
  Latencies : list float64;
  maxLatencies : Z;
}.

Definition NewMetrics (method : string) : t := {|
  Method := method;
  Count := 0;
  ErrorCount := 0;
  TotalLatency := PrimFloat.zero;
  MinLatency := float64_of_int max_int64;
  MaxLatency := PrimFloat.zero;
  Latencies := [];
  maxLatencies := 10000;
|}.

Definition SetMaxLatencies (m : t) (max : Z) : t := {|
  Method := Method m;
  Count := Count m;
  ErrorCount := ErrorCount m;
  TotalLatency := TotalLatency m;
  MinLatency := MinLatency m;
  MaxLatency := MaxLatency m;
  Latencies := Latencies m;
  maxLatencies := max;
|}.

(** [AddResult]: [None] is the slice-bounds panic of the eviction step.
    The low bound [len - maxLatencies] is taken only when [maxLatencies <
    len]; it is positive, and where the machine subtraction would overflow
    (a very negative [maxLatencies]) the wrapped bound is negative and the
    slice expression panics exactly as it does for the unwrapped one. *)
Definition AddResult (m : t) (result : BenchmarkResult.t) : option t :=
  let count := add64 (Count m) 1 in
  match BenchmarkResult.Error result with
  | Some _ =>
      Some {| Method := Method m;
              Count := count;
              ErrorCount := add64 (ErrorCount m) 1;
              TotalLatency := TotalLatency m;
              MinLatency := MinLatency m;
              MaxLatency := MaxLatency m;
              Latencies := Latencies m;
              maxLatencies := maxLatencies m |}
  | None =>
      let latency := BenchmarkResult.LatencyMs result in
      let total := (TotalLatency m + latency)%float in
      let appended := Latencies m ++ [latency] in
      kept ← (if maxLatencies m <? len appended
              then slice_from appended (len appended - maxLatencies m)
              else Some appended);
      Some {| Method := Method m;
              Count := count;
              ErrorCount := ErrorCount m;
              TotalLatency := total;
              MinLatency := if (latency <? MinLatency m)%float
                            then latency else MinLatency m;
              MaxLatency := if (MaxLatency m <? latency)%float
                            then latency else MaxLatency m;
              Latencies := kept;
              maxLatencies := maxLatencies m |}
  end.

(** [GetStats] has a pointer receiver: it returns the statistics together
    with the receiver as the call leaves it.  The sort works on
    [sortedLatencies], a fresh array filled by [copy]. *)
Definition GetStats (m : t) : option (Stats.t * t) :=
  if Count m =? 0 then Some (Stats.named EmptyString, m)
  else
    let successCount := sub64 (Count m) (ErrorCount m) in
    if successCount =? 0 then
      Some ({| Stats.Method := Method m;
               Stats.Count := Count m;
               Stats.ErrorCount := ErrorCount m;
               Stats.ErrorRate := 100;
               Stats.AvgLatency := PrimFloat.zero;
               Stats.MinLatency := PrimFloat.zero;
               Stats.MaxLatency := PrimFloat.zero;
               Stats.P50Latency := PrimFloat.zero;
               Stats.P95Latency := PrimFloat.zero;
               Stats.P99Latency := PrimFloat.zero;
               Stats.TotalLatency := PrimFloat.zero |}, m)
    else
      let avgLatency := (TotalLatency m / float64_of_int successCount)%float in
      let errorRate :=
        (float64_of_int (ErrorCount m) / float64_of_int (Count m) * 100)%float in
      sortedLatencies ← make_float64s (len (Latencies m));
      let sortedLatencies := copy sortedLatencies (Latencies m) in
      let sortedLatencies := Float64s sortedLatencies in
      p50 ← percentile sortedLatencies 50;
      p95 ← percentile sortedLatencies 95;
      p99 ← percentile sortedLatencies 99;
      Some ({| Stats.Method := Method m;
               Stats.Count := Count m;
               Stats.ErrorCount := ErrorCount m;
               Stats.ErrorRate := errorRate;
               Stats.AvgLatency := avgLatency;
               Stats.MinLatency := MinLatency m;
               Stats.MaxLatency := MaxLatency m;
               Stats.P50Latency := p50;
               Stats.P95Latency := p95;
               Stats.P99Latency := p99;
               Stats.TotalLatency := PrimFloat.zero |}, m).

(** Ingesting a sequence of results, one [AddResult] after the other. *)
Fixpoint AddResults (m : t) (results : list BenchmarkResult.t) : option t :=
  match results with
  | [] => Some m
  | r :: rest => m' ← AddResult m r; AddResults m' rest
  end.

(** Two calls of [GetStats] in a row: both answers, and the receiver
    after the second. *)
Definition GetStats_twice (m : t) : option (Stats.t * Stats.t * t) :=
  '(s1, m1) ← GetStats m;
  '(s2, m2) ← GetStats m1;
  Some (s1, s2, m2).

End Metrics.

(** The results channel is buffered. *)
Definition results_capacity : Z := 10000.

(** The header of the aggregated CSV. *)
Definition csv_header : list Text :=
  List.map Lit
    ["timestamp"; "method"; "total_ops"; "success_ops"; "error_ops";
     "error_rate_pct"; "avg_latency_ms"; "p50_latency_ms"; "p95_latency_ms";
     "p99_latency_ms"; "min_latency_ms"; "max_latency_ms";
     "throughput_ops_per_sec"]%string.

(** One data record of the aggregated CSV, as the thirteen arguments of
    [csvWriter.Write]. *)
Definition csv_record (timestamp : Text) (method : Text) (stats : Stats.t)
    (throughput : float64) : list Text :=
  [ timestamp;
    method;
    Sprintf "%d" [VInt (Stats.Count stats)];
    Sprintf "%d" [VInt (sub64 (Stats.Count stats) (Stats.ErrorCount stats))];
    Sprintf "%d" [VInt (Stats.ErrorCount stats)];
    Sprintf "%.2f" [VFloat (Stats.ErrorRate stats)];
    Sprintf "%.3f" [VFloat (Stats.AvgLatency stats)];
    Sprintf "%.3f" [VFloat (Stats.P50Latency stats)];
    Sprintf "%.3f" [VFloat (Stats.P95Latency stats)];
    Sprintf "%.3f" [VFloat (Stats.P99Latency stats)];
    Sprintf "%.3f" [VFloat (Stats.MinLatency stats)];
    Sprintf "%.3f" [VFloat (Stats.MaxLatency stats)];
    Sprintf "%.0f" [VFloat throughput] ]%string.

(** Collector manages result collection and reporting. *)
Module Collector.
Record t := {
  metrics : gmap string Metrics.t;
  results : list BenchmarkResult.t;  (* the channel's buffer, oldest first *)
  done : bool;                       (* [true] once the channel is closed *)
  csvWriter : option (list (list Text)); (* [nil], or the records written *)
  csvClosed : bool;                  (* [csvFile.Close()] has run *)
}.

Definition with_metrics (c : t) (ms : gmap string Metrics.t) : t :=
  {| metrics := ms; results := results c; done := done c;
     csvWriter := csvWriter c; csvClosed := csvClosed c |}.

Definition with_results (c : t) (rs : list BenchmarkResult.t) : t :=
  {| metrics := metrics c; results := rs; done := done c;
     csvWriter := csvWriter c; csvClosed := csvClosed c |}.

Definition with_csvWriter (c : t) (w : option (list (list Text))) : t :=
  {| metrics := metrics c; results := results c; done := done c;
     csvWriter := w; csvClosed := csvClosed c |}.

(** [NewCollector]; [created] is what [os.Create] answers. *)
Definition NewCollector (csvPath : string) (created : error) : t + string :=
  if String.eqb csvPath EmptyString then
    inl {| metrics := ∅; results := []; done := false;
           csvWriter := None; csvClosed := false |}
  else
    match created with
    | Some err => inr ("failed to create CSV file: " ++ err)%string
    | None =>
        inl {| metrics := ∅; results := []; done := false;
               csvWriter := Some [csv_header]; csvClosed := false |}
    end.

(** [AddResult]: a send that never blocks.  With the buffer full the
    result is dropped and a warning is logged. *)
Definition AddResult (c : t) (result : BenchmarkResult.t) : t * list Text :=
  if len (results c) <? results_capacity
  then (with_results c (results c ++ [result]), [])
  else (c, [Sprintf "Warning: results channel is full, dropping result" []]).

(** [processResult] processes a single result. *)
Definition processResult (c : t) (result : BenchmarkResult.t) : option t :=
  let method := BenchmarkResult.Method result in
  let m := match metrics c !! method with
           | Some m => m
           | None => Metrics.NewMetrics method
           end in
  m' ← Metrics.AddResult m result;
  Some (with_metrics c (<[method := m']> (metrics c))).

(** One turn of the [run] loop while the collector runs: receive a
    result, if the channel holds one, and process it. *)
Definition run_step (c : t) : option t :=
  match results c with
  | [] => Some c
  | result :: rest => processResult (with_results c rest) result
  end.

(** The metrics a [range] over [c.metrics] visits; [order] is the order
    of the keys the run-time system picks for this loop. *)
Definition range (c : t) (order : list string) : list Metrics.t :=
  omap (fun method => metrics c !! method) order.

Definition iteration_order (c : t) (order : list string) : Prop :=
  order ≡ₚ (map_to_list (metrics c)).*1.

(** The four accumulators of the loop in [GetAggregatedStats]. *)
Record totals := {
  allLatencies : list float64;
  totalCount : Z;
  totalErrorCount : Z;
  totalLatency : float64;
}.

Definition collect (acc : totals) (m : Metrics.t) : totals :=
  {| allLatencies := allLatencies acc ++ Metrics.Latencies m;
     totalCount := add64 (totalCount acc) (Metrics.Count m);
     totalErrorCount := add64 (totalErrorCount acc) (Metrics.ErrorCount m);
     totalLatency := (totalLatency acc + Metrics.TotalLatency m)%float |}.

Definition collect_all (c : t) (order : list string) : totals :=
  fold_left collect (range c order)
    {| allLatencies := []; totalCount := 0; totalErrorCount := 0;
       totalLatency := PrimFloat.zero |}.

(** [GetAggregatedStats] returns aggregated statistics across all methods. *)
Definition GetAggregatedStats (c : t) (order : list string) : option Stats.t :=
  let acc := collect_all c order in
  if totalCount acc =? 0 then Some (Stats.named "AGGREGATED")
  else
    let successCount := sub64 (totalCount acc) (totalErrorCount acc) in
    let errorRate :=
      (float64_of_int (totalErrorCount acc) / float64_of_int (totalCount acc)
       * 100)%float in
    let avgLatency := (totalLatency acc / float64_of_int successCount)%float in
    '(minLatency, maxLatency, p50, p95, p99) ←
      (if 0 <? len (allLatencies acc) then
         let sorted := Float64s (allLatencies acc) in
         minLatency ← Go.index sorted 0;
         maxLatency ← Go.index sorted (len sorted - 1);
         p50 ← percentile sorted 50;
         p95 ← percentile sorted 95;
         p99 ← percentile sorted 99;
         Some (minLatency, maxLatency, p50, p95, p99)
       else Some (PrimFloat.zero, PrimFloat.zero, PrimFloat.zero,
                  PrimFloat.zero, PrimFloat.zero));
    Some {| Stats.Method := "AGGREGATED";
            Stats.Count := totalCount acc;
            Stats.ErrorCount := totalErrorCount acc;
            Stats.ErrorRate := errorRate;
            Stats.AvgLatency := avgLatency;
            Stats.MinLatency := minLatency;
            Stats.MaxLatency := maxLatency;
            Stats.P50Latency := p50;
            Stats.P95Latency := p95;
            Stats.P99Latency := p99;
            Stats.TotalLatency := totalLatency acc |}.

(** ** Per-kind statistics.

    [GetStats] returns statistics for all methods.  The loop over
    [c.metrics], in the order [order], fills the map it returns. *)
Definition entries (c : t) (order : list string) : list (string * Metrics.t) :=
  omap (fun method => m ← metrics c !! method; Some (method, m)) order.

Fixpoint get_stats (kinds : list (string * Metrics.t)) (stats : gmap string Stats.t)
    : option (gmap string Stats.t) :=
  match kinds with
  | [] => Some stats
  | (method, m) :: rest =>
      '(s, _) ← Metrics.GetStats m;
      get_stats rest (<[method := s]> stats)
  end.

Definition GetStats (c : t) (order : list string) : option (gmap string Stats.t) :=
  get_stats (entries c order) ∅.

(** [GetTotalStats] returns combined statistics across all methods.
    [order] is the iteration order of the loop in [GetStats], [order'] that
    of the loop over the map [GetStats] returned.  The variables of the
    loop: [total], [allLatencies] (here [latencies]) and
    [totalSuccessCount]. *)
Record total_acc := {
  total : Stats.t;
  latencies : list float64;
  totalSuccessCount : Z;
}.

Definition add_stat (c : t) (acc : total_acc) (stat : Stats.t) : total_acc :=
  let t := total acc in
  let successCount := sub64 (Stats.Count stat) (Stats.ErrorCount stat) in
  {| total :=
       {| Stats.Method := Stats.Method t;
          Stats.Count := add64 (Stats.Count t) (Stats.Count stat);
          Stats.ErrorCount := add64 (Stats.ErrorCount t) (Stats.ErrorCount stat);
          Stats.ErrorRate := Stats.ErrorRate t;
          Stats.AvgLatency := Stats.AvgLatency t;
          Stats.MinLatency := Stats.MinLatency t;
          Stats.MaxLatency := Stats.MaxLatency t;
          Stats.P50Latency := Stats.P50Latency t;
          Stats.P95Latency := Stats.P95Latency t;
          Stats.P99Latency := Stats.P99Latency t;
          Stats.TotalLatency :=
            (Stats.TotalLatency t
             + Stats.AvgLatency stat * float64_of_int successCount)%float |};
     latencies :=
       latencies acc
       ++ match metrics c !! Stats.Method stat with
          | Some m => Metrics.Latencies m
          | None => []
          end;
     totalSuccessCount := add64 (totalSuccessCount acc) successCount |}.

Definition GetTotalStats (c : t) (order order' : list string) : option Stats.t :=
  stats ← GetStats c order;
  let acc :=
    fold_left (add_stat c) (omap (fun method => stats !! method) order')
      {| total := Stats.named "TOTAL"; latencies := []; totalSuccessCount := 0 |} in
  let t := total acc in
  if 0 <? Stats.Count t then
    let errorRate :=
      (float64_of_int (Stats.ErrorCount t) / float64_of_int (Stats.Count t)
       * 100)%float in
    let avgLatency :=
      (Stats.TotalLatency t / float64_of_int (totalSuccessCount acc))%float in
    '(minLatency, maxLatency, p50, p95, p99) ←
      (if 0 <? len (latencies acc) then
         let sorted := Float64s (latencies acc) in
         minLatency ← Go.index sorted 0;
         maxLatency ← Go.index sorted (len sorted - 1);
         p50 ← percentile sorted 50;
         p95 ← percentile sorted 95;
         p99 ← percentile sorted 99;
         Some (minLatency, maxLatency, p50, p95, p99)
       else Some (Stats.MinLatency t, Stats.MaxLatency t, Stats.P50Latency t,
                  Stats.P95Latency t, Stats.P99Latency t));
    Some {| Stats.Method := Stats.Method t;
            Stats.Count := Stats.Count t;
            Stats.ErrorCount := Stats.ErrorCount t;
            Stats.ErrorRate := errorRate;
            Stats.AvgLatency := avgLatency;
            Stats.MinLatency := minLatency;
            Stats.MaxLatency := maxLatency;
            Stats.P50Latency := p50;
            Stats.P95Latency := p95;
            Stats.P99Latency := p99;
            Stats.TotalLatency := Stats.TotalLatency t |}
  else Some t.

(** ** Export to CSV.

    [WriteAggregatedMetricsToCSV] reads [metrics.StartTime], a field the
    declaration of [Metrics] does not have; it is taken as a parameter.
    One reading [now] of the clock serves the whole call. *)
Section CsvExport.
Variable StartTime : Metrics.t -> Time.

(** The body of the loop over [c.metrics]. *)
Definition write_method_record (timestamp : Text) (now : Time)
    (rows : list (list Text)) (m : Metrics.t) : option (list (list Text)) :=
  '(stats, _) ← Metrics.GetStats m;
  if Stats.Count stats =? 0 then Some rows
  else
    let elapsedTime := Seconds (Since now (StartTime m)) in
    let throughput :=
      if (0 <? elapsedTime)%float
      then (float64_of_int (sub64 (Stats.Count stats) (Stats.ErrorCount stats))
            / elapsedTime)%float
      else PrimFloat.zero in
    Some (rows ++ [csv_record timestamp (Lit (Stats.Method stats)) stats throughput]).

Fixpoint write_method_records (timestamp : Text) (now : Time)
    (rows : list (list Text)) (ms : list Metrics.t) : option (list (list Text)) :=
  match ms with
  | [] => Some rows
  | m :: rest =>
      rows' ← write_method_record timestamp now rows m;
      write_method_records timestamp now rows' rest
  end.

(** [WriteAggregatedMetricsToCSV]; [order] and [order'] are the iteration
    orders of its own loop and of the loop in [GetAggregatedStats]. *)
Definition WriteAggregatedMetricsToCSV (c : t) (now : Time)
    (order order' : list string) : option t :=
  match csvWriter c with
  | None => Some c
  | Some rows =>
      let timestamp := TimeFormat RFC3339Nano now in
      rows ← write_method_records timestamp now rows (range c order);
      aggregated ← GetAggregatedStats c order';
      let rows :=
        if 0 <? Stats.Count aggregated then
          let throughput :=
            float64_of_int
              (sub64 (Stats.Count aggregated) (Stats.ErrorCount aggregated)) in
          rows ++ [csv_record timestamp (Lit "AGGREGATED") aggregated throughput]
        else rows in
      Some (with_csvWriter c (Some rows))
  end.

(** [Stop] stops the collector and writes the final aggregated metrics.
    Closing a channel that is already closed panics. *)
Definition Stop (c : t) (now : Time) (order order' : list string)
    : option t :=
  if done c then None
  else
    let c := {| metrics := metrics c;
                results := results c;
                done := true;
                csvWriter := csvWriter c;
                csvClosed := csvClosed c |} in
    c ← WriteAggregatedMetricsToCSV c now order order';
    Some (match csvWriter c with
          | Some _ => {| metrics := metrics c;
                         results := results c;
                         done := done c;
                         csvWriter := csvWriter c;
                         csvClosed := true |}
          | None => c
          end).

End CsvExport.

End Collector.

(** Ingesting a sequence of results into the collector, one
    [processResult] after the other. *)
Fixpoint processResults (c : Collector.t) (rs : list BenchmarkResult.t)
    : option Collector.t :=
  match rs with
  | [] => Some c
  | r :: rest => c' ← Collector.processResult c r; processResults c' rest
  end.

(** The data records a collector has written: all but the header. *)
Definition data_records (c : Collector.t) : list (list Text) :=
  match Collector.csvWriter c with
  | Some rows => drop 1 rows
  | None => []
  end.

(** The last field of a record: [throughput_ops_per_sec]. *)
Definition throughput_field (record : list Text) : option Text := last record.

(** What a sequence of results contains: its failures, its successes and
    the latencies of its successes, in ingestion order. *)
Definition failed (r : BenchmarkResult.t) : bool :=
  match BenchmarkResult.Error r with Some _ => true | None => false end.

Definition failures (results : list BenchmarkResult.t) : list BenchmarkResult.t :=
  List.filter failed results.

Definition successes (results : list BenchmarkResult.t) : list BenchmarkResult.t :=
  List.filter (fun r => negb (failed r)) results.

Definition success_latencies (results : list BenchmarkResult.t) : list float64 :=
  List.map BenchmarkResult.LatencyMs (successes results).

(** The floating-point sum the accumulator holds after adding [ls] in order. *)
Definition float_sum (acc : float64) (ls : list float64) : float64 :=
  fold_left PrimFloat.add ls acc.

(** The [n] most recent entries of a sequence. *)
Definition most_recent {A : Type} (n : Z) (s : list A) : list A :=
  drop (length s - Z.to_nat n) s.

(** The per-kind invariant of the data model. *)
Definition counts_ok (m : Metrics.t) : Prop :=
  0 <= Metrics.ErrorCount m <= Metrics.Count m.

(** Two results to run the definitions on. *)
Definition succeeded (method : string) (ms : float64) : BenchmarkResult.t :=
  {| BenchmarkResult.Method := method; BenchmarkResult.LatencyMs := ms;
     BenchmarkResult.Error := None; BenchmarkResult.Timestamp := 0 |}.

Definition refused (method : string) (ms : float64) : BenchmarkResult.t :=
  {| BenchmarkResult.Method := method; BenchmarkResult.LatencyMs := ms;
     BenchmarkResult.Error := Some "connection refused"%string;
     BenchmarkResult.Timestamp := 0 |}.

(** A rate in operations per second: a count over the seconds elapsed,
    and 0 when no time has elapsed. *)
Definition rate (count : Z) (elapsed : float64) : float64 :=
  if (0 <? elapsed)%float then (float64_of_int count / elapsed)%float
  else PrimFloat.zero.

(** The record of one kind: its statistics, and as throughput the rate of
    its successes since its start time. *)
Definition method_record (StartTime : Metrics.t -> Z) (timestamp : Text)
    (now : Z) (m : Metrics.t) (stats : Stats.t) : list Text :=
  csv_record timestamp (Lit (Metrics.Method m)) stats
    (rate (sub64 (Metrics.Count m) (Metrics.ErrorCount m))
       (Seconds (Since now (StartTime m)))).

(** "One row per observed operation kind plus one AGGREGATED row", as a
    count of the data records a finalize leaves. *)
Definition one_record_per_kind_plus_one (c c' : Collector.t) : Prop :=
  length (data_records c') = (size (Collector.metrics c) + 1)%nat.

(** A collector with a CSV file, as [NewCollector] makes it. *)
Definition csv_collector : Collector.t := {|
  Collector.metrics := ∅;
  Collector.results := [];
  Collector.done := false;
  Collector.csvWriter := Some [csv_header];
  Collector.csvClosed := false;
|}.

(** A kind with one success of [ms] milliseconds, and a collector with a
    CSV file that has ingested one such Get and one such Put. *)
Definition one_success (method : string) (ms : float64) : Metrics.t := {|
  Metrics.Method := method;
  Metrics.Count := 1;
  Metrics.ErrorCount := 0;
  Metrics.TotalLatency := ms;
  Metrics.MinLatency := ms;
  Metrics.MaxLatency := ms;
  Metrics.Latencies := [ms];
  Metrics.maxLatencies := 10000;
|}.

Definition two_kinds_collector : Collector.t :=
  Collector.with_metrics csv_collector
    (<["Put"%string := one_success "Put" 1]>
       (<["Get"%string := one_success "Get" 3]> ∅)).

(** What the per-kind [GetStats] returns when every operation failed. *)
Definition all_failed_stats (m : Metrics.t) : Stats.t := {|
  Stats.Method := Metrics.Method m;
  Stats.Count := Metrics.Count m;
  Stats.ErrorCount := Metrics.ErrorCount m;
  Stats.ErrorRate := 100;
  Stats.AvgLatency := PrimFloat.zero;
  Stats.MinLatency := PrimFloat.zero;
  Stats.MaxLatency := PrimFloat.zero;
  Stats.P50Latency := PrimFloat.zero;
  Stats.P95Latency := PrimFloat.zero;
  Stats.P99Latency := PrimFloat.zero;
  Stats.TotalLatency := PrimFloat.zero;
|}.

(** A collector without a CSV file, as [NewCollector] makes it. *)
Definition fresh_collector : Collector.t := {|
  Collector.metrics := ∅;
  Collector.results := [];
  Collector.done := false;
  Collector.csvWriter := None;
  Collector.csvClosed := false;
|}.

(** A kind of which [n] operations were ingested and all failed, and a
    collector holding one failed Get and one failed Put. *)
Definition failed_only (method : string) (n : Z) : Metrics.t := {|
  Metrics.Method := method;
  Metrics.Count := n;
  Metrics.ErrorCount := n;
  Metrics.TotalLatency := PrimFloat.zero;
  Metrics.MinLatency := float64_of_int max_int64;
  Metrics.MaxLatency := PrimFloat.zero;
  Metrics.Latencies := [];
  Metrics.maxLatencies := 10000;
|}.

Definition all_failed_collector : Collector.t :=
  Collector.with_metrics fresh_collector
    (<["Put"%string := failed_only "Put" 1]>
       (<["Get"%string := failed_only "Get" 1]> ∅)).

(** A per-kind state to run the definitions on: two successes of 3 ms and
    1 ms around one failure. *)
Definition sample_metrics : Metrics.t := {|
  Metrics.Method := "Get";
  Metrics.Count := 3;
  Metrics.ErrorCount := 1;
  Metrics.TotalLatency := 4;
  Metrics.MinLatency := 1;
  Metrics.MaxLatency := 3;
  Metrics.Latencies := [3; 1]%float;
  Metrics.maxLatencies := 10000;
|}.

(** ** Further observations on the per-kind metrics. *)

(** Two states that hold the same latency data: they may differ in their
    counters and in their name only. *)
Definition same_latency_data (a b : Metrics.t) : Prop :=
  Metrics.TotalLatency a = Metrics.TotalLatency b
  /\ Metrics.MinLatency a = Metrics.MinLatency b
  /\ Metrics.MaxLatency a = Metrics.MaxLatency b
  /\ Metrics.Latencies a = Metrics.Latencies b
  /\ Metrics.maxLatencies a = Metrics.maxLatencies b.

(** Whether rank 0 is the first and rank 100 the last entry of a sample
    of [n], and whether the ranks of a sample of one all fall on its only
    entry; decided by evaluation. *)
Definition whole_rank (n p k : Z) : bool :=
  (rank n p =? float64_of_int (int_of_float64 (rank n p)))%float
  && (int_of_float64 (rank n p) =? k).

Fixpoint endpoints_from (count : nat) (n : Z) : bool :=
  match count with
  | O => true
  | S count' =>
      whole_rank n 0 0 && whole_rank n 100 (n - 1) && endpoints_from count' (n + 1)
  end.

Fixpoint single_from (count : nat) (p : Z) : bool :=
  match count with
  | O => true
  | S count' => whole_rank 1 p 0 && single_from count' (p + 1)
  end.

(** The minimum and maximum of a state bound a latency [x]: [x] is not
    below the one and not above the other. *)
Definition within_extremes (m : Metrics.t) (x : float64) : Prop :=
  (x <? Metrics.MinLatency m)%float = false
  /\ (Metrics.MaxLatency m <? x)%float = false.

(** ** Further observations on the collector. *)

(** Submitting a sequence of results, one [AddResult] after the other;
    the warnings logged on the way. *)
Fixpoint submit_all (c : Collector.t) (rs : list BenchmarkResult.t)
    : Collector.t * list Text :=
  match rs with
  | [] => (c, [])
  | r :: rest =>
      let '(c1, warned) := Collector.AddResult c r in
      let '(c2, warned') := submit_all c1 rest in
      (c2, warned ++ warned')
  end.

(** [n] turns of the [run] loop. *)
Fixpoint run_steps (n : nat) (c : Collector.t) : option Collector.t :=
  match n with
  | O => Some c
  | S n' => c' ← Collector.run_step c; run_steps n' c'
  end.

(** The line logged for a dropped result. *)
Definition dropped : Text :=
  Sprintf "Warning: results channel is full, dropping result" [].

(** A CSV record with as many fields as the header has columns. *)
Definition full_record (record : list Text) : Prop :=
  length record = length csv_header.

(** The results of one kind, in the order of the stream. *)
Definition of_kind (method : string) (rs : list BenchmarkResult.t)
    : list BenchmarkResult.t :=
  List.filter (fun r => String.eqb (BenchmarkResult.Method r) method) rs.

(** The state of a kind that goes on from [start] with the results [rs]
    of the stream: untouched when none is of its kind, and otherwise what
    its own ingestion makes of them, from a new state when there was
    none. *)
Definition resume (start : option Metrics.t) (method : string)
    (rs : list BenchmarkResult.t) : option Metrics.t :=
  match of_kind method rs with
  | [] => start
  | mine => Metrics.AddResults (default (Metrics.NewMetrics method) start) mine
  end.

(** No per-kind state has a negative capacity. *)
Definition capacities_ok (ms : gmap string Metrics.t) : Prop :=
  map_Forall (fun _ m => 0 <= Metrics.maxLatencies m) ms.

(** ** Further observations on the aggregate. *)

(** The per-kind states a collector holds, and the sum of a counter over
    them, taken in the integers. *)
Definition per_kind (ms : gmap string Metrics.t) : list Metrics.t :=
  (map_to_list ms).*2.

Definition total (f : Metrics.t -> Z) (ms : list Metrics.t) : Z :=
  foldr (fun m acc => f m + acc) 0 ms.

Definition retained (m : Metrics.t) : Z := len (Metrics.Latencies m).

(** A per-kind state as ingestion leaves it: the failures are among the
    results counted, and the sample holds no more than the successes. *)
Definition sound (m : Metrics.t) : Prop :=
  0 <= Metrics.ErrorCount m <= Metrics.Count m
  /\ 0 <= Metrics.maxLatencies m
  /\ retained m <= Metrics.Count m - Metrics.ErrorCount m.

(** A map of per-kind states that has ingested [n] results, [e] of them
    failed. *)
Definition ingested (ms : gmap string Metrics.t) (n e : Z) : Prop :=
  Forall sound (per_kind ms)
  /\ total Metrics.Count (per_kind ms) = n
  /\ total Metrics.ErrorCount (per_kind ms) = e.

(** Successful and failed results of three kinds, in one stream. *)
Definition mixed_results : list BenchmarkResult.t :=
  [succeeded "Get" 2; refused "Put" 7; succeeded "Delete" 1; succeeded "Get" 4;
   refused "Get" 9]%float.

(** What [GetStats] reports of the kind [m] of a collector: its counters,
    under a name that leads back to it. *)
Definition reported (c : Collector.t) (m : Metrics.t) (s : Stats.t) : Prop :=
  Stats.Count s = Metrics.Count m
  /\ Stats.ErrorCount s = Metrics.ErrorCount m
  /\ Collector.metrics c !! Stats.Method s = Some m.

End collector.

(* ================================================================== *)
(** * package kvclient *)
(* ================================================================== *)

Module kvclient.
Import Go.

(** The network as the pool sees it: how often [grpc.Dial] has been
    called, and every connection made so far, open ([true]) or closed.  A
    connection is named by its position in [conns]. *)
Record Network := {
  dials : nat;
  conns : list bool;
}.

(** What [grpc.Dial] answers on each of its calls. *)
Abbreviation Dialer := (nat -> error) (only parsing).

Module Client.
Record t := {
  conn : option nat;   (* [*grpc.ClientConn], possibly [nil] *)
}.

(** [Close] closes the gRPC connection. *)
Definition Close (c : t) (net : Network) : error * Network :=
  match conn c with
  | Some id =>
      match conns net !! id with
      | Some true =>
          (None, {| dials := dials net; conns := <[id := false]> (conns net) |})
      | _ => (Some "grpc: the client connection is closing"%string, net)
      end
  | None => (None, net)
  end.
End Client.

(** [NewClient] creates a new KeyValueStore client. *)
Definition NewClient (dial : Dialer) (targetAddress : string) (net : Network)
    : (Client.t + string) * Network :=
  match dial (dials net) with
  | Some err =>
      (inr ("failed to connect to " ++ targetAddress ++ ": " ++ err)%string,
       {| dials := S (dials net); conns := conns net |})
  | None =>
      (inl {| Client.conn := Some (length (conns net)) |},
       {| dials := S (dials net); conns := conns net ++ [true] |})
  end.

Module ConnectionPool.
Record t := {
  clients : list (option Client.t);   (* [[]*Client]; [None] is [nil] *)
  index : Z;
}.

(** [GetClient] returns the next client in round-robin fashion. *)
Definition GetClient (p : t) : option (option Client.t * t) :=
  client ← Go.index (clients p) (index p);
  if len (clients p) =? 0 then None
  else Some (client,
             {| clients := clients p;
                index := Z.rem (add64 (index p) 1) (len (clients p)) |}).

(** [Close] closes all connections in the pool. *)
Fixpoint close_all (cs : list (option Client.t)) (lastErr : error)
    (net : Network) : option (error * Network) :=
  match cs with
  | [] => Some (lastErr, net)
  | pc :: rest =>
      c ← pc;
      let '(err, net') := Client.Close c net in
      close_all rest (match err with Some _ => err | None => lastErr end) net'
  end.

Definition Close (p : t) (net : Network) : option (error * Network) :=
  close_all (clients p) None net.
End ConnectionPool.

(** The inner loop of [NewConnectionPool]:
    [for j := 0; j < i; j++ { clients[j].Close() }], with [todo = i - j]. *)
Fixpoint close_created (clients : list (option Client.t)) (todo : nat) (j : Z)
    (net : Network) : option Network :=
  match todo with
  | O => Some net
  | S todo' =>
      pc ← Go.index clients j;
      c ← pc;
      close_created clients todo' (j + 1) (Client.Close c net).2
  end.

(** The outer loop, [for i := 0; i < numConnections; i++], with
    [todo = numConnections - i]. *)
Fixpoint connect (dial : Dialer) (targetAddress : string) (todo : nat) (i : Z)
    (clients : list (option Client.t)) (net : Network)
    : option ((list (option Client.t) + string) * Network) :=
  match todo with
  | O => Some (inl clients, net)
  | S todo' =>
      match NewClient dial targetAddress net with
      | (inr err, net') =>
          net'' ← close_created clients (Z.to_nat i) 0 net';
          Some (inr ("failed to create client " ++ Sprintf_d i ++ ": " ++ err)%string,
                net'')
      | (inl client, net') =>
          if (i <? 0) || (len clients <=? i) then None
          else connect dial targetAddress todo' (i + 1)
                 (<[Z.to_nat i := Some client]> clients) net'
      end
  end.

(** [NewConnectionPool] creates a pool of KV store clients.  [None] is a
    panic ([make] with a negative length). *)
Definition NewConnectionPool (dial : Dialer) (targetAddress : string)
    (numConnections : Z) (net : Network)
    : option ((ConnectionPool.t + string) * Network) :=
  if numConnections <? 0 then None
  else
    '(made, net') ← connect dial targetAddress (Z.to_nat numConnections) 0
                      (replicate (Z.to_nat numConnections) None) net;
    Some (match made with
          | inl clients =>
              inl {| ConnectionPool.clients := clients; ConnectionPool.index := 0 |}
          | inr err => inr err
          end, net').

(** The connections that are open. *)
Definition open_connections (net : Network) : nat :=
  length (List.filter (fun b : bool => b) (conns net)).

(** The client made by the [j]-th successful dial of a construction that
    started with [base] connections on the network. *)
Definition made (base j : nat) : option Client.t :=
  Some {| Client.conn := Some (base + j)%nat |}.

(** The slice [clients] when the outer loop is at index [i] of [n]. *)
Definition clients_at (base n i : nat) : list (option Client.t) :=
  List.map (made base) (seq 0 i) ++ replicate (n - i) None.

(** The message of the error construction surfaces when the dial for
    connection [k] fails with [cause]. *)
Definition create_error (targetAddress : string) (k : Z) (cause : string) : string :=
  ("failed to create client " ++ Sprintf_d k ++ ": "
   ++ ("failed to connect to " ++ targetAddress ++ ": " ++ cause))%string.

(** ** The rest of the pool. *)

(** [n] calls of [GetClient] in a row: the clients handed out, in order,
    and the pool afterwards. *)
Fixpoint acquire (n : nat) (p : ConnectionPool.t)
    : option (list (option Client.t) * ConnectionPool.t) :=
  match n with
  | O => Some ([], p)
  | S n' =>
      '(client, p') ← ConnectionPool.GetClient p;
      '(rest, p'') ← acquire n' p';
      Some (client :: rest, p'')
  end.

(** [HealthCheck] performs a health check on all connections; [probe i] is
    what the Get on client [i] answers.  A [nil] client panics. *)
Fixpoint health_loop (probe : Z -> error) (cs : list (option Client.t)) (i : Z)
    (lastErr : error) : option error :=
  match cs with
  | [] => Some lastErr
  | pc :: rest =>
      _ ← pc;
      let lastErr :=
        match probe i with
        | Some err =>
            Some ("client " ++ Sprintf_d i ++ " health check failed: " ++ err)%string
        | None => lastErr
        end in
      health_loop probe rest (i + 1) lastErr
  end.

Definition HealthCheck (probe : Z -> error) (p : ConnectionPool.t) : option error :=
  health_loop probe (ConnectionPool.clients p) 0 None.

(** The message [HealthCheck] wraps the error of client [i] in. *)
Definition health_error (i : Z) (cause : string) : string :=
  ("client " ++ Sprintf_d i ++ " health check failed: " ++ cause)%string.

(** Probes of a pool of three: the first two clients fail. *)
Definition two_unhealthy (i : Z) : error :=
  if i =? 0 then Some "unavailable"%string
  else if i =? 1 then Some "deadline exceeded"%string
  else None.

End kvclient.

(* ================================================================== *)
(** * package config *)
(* ================================================================== *)

Module config.
Import Go.

Record BenchmarkConfig := {
  TargetAddress : string;
  NumConnections : Z;
  NumWorkers : Z;
  Duration : Z;
  WarmupDuration : Z;
  KeySpace : Z;
  ValueSize : Z;
  ReadRatio : Z;
  WriteRatio : Z;
  DeleteRatio : Z;
  ReportInterval : Z;
  OutputCSV : string;
  LogRequests : bool;
  LogErrors : bool;
}.

Definition DefaultConfig : BenchmarkConfig := {|
  TargetAddress := "localhost:50051";
  NumConnections := 8;
  NumWorkers := 100;
  Duration := 30 * Second;
  WarmupDuration := 5 * Second;
  KeySpace := 50000;
  ValueSize := 1024;
  ReadRatio := 70;
  WriteRatio := 25;
  DeleteRatio := 5;
  ReportInterval := 5 * Second;
  OutputCSV := EmptyString;
  LogRequests := false;
  LogErrors := false;
|}.

(** [Validate] checks if the configuration is valid. *)
Definition Validate (c : BenchmarkConfig) : error :=
  if String.eqb (TargetAddress c) EmptyString then Some "target address cannot be empty"%string
  else if NumConnections c <=? 0 then Some "number of connections must be positive"%string
  else if NumWorkers c <=? 0 then Some "number of workers must be positive"%string
  else if Duration c <=? 0 then Some "duration must be positive"%string
  else if KeySpace c <=? 0 then Some "key space must be positive"%string
  else if ValueSize c <=? 0 then Some "value size must be positive"%string
  else if (ReadRatio c <? 0) || (WriteRatio c <? 0) || (DeleteRatio c <? 0)
       then Some "operation ratios cannot be negative"%string
  else if negb (add64 (add64 (ReadRatio c) (WriteRatio c)) (DeleteRatio c) =? 100)
       then Some "operation ratios must sum to 100"%string
  else None.

End config.

(* ================================================================== *)
(** * package runner *)
(* ================================================================== *)

Module runner.
Import Go collector kvclient config.

(** KeyGenerator: the pre-generated keys. *)
Record KeyGenerator := {
  keys : list string;
  keyIndex : Z;
}.

(** BenchmarkRunner orchestrates the benchmark execution.  The pool and
    the collector are held by pointer: their state travels with the
    runner. *)
Record BenchmarkRunner := {
  cfg : BenchmarkConfig;
  pool : ConnectionPool.t;
  collector : Collector.t;
  keyGen : KeyGenerator;
  startTime : Time;
}.

Definition with_collector (r : BenchmarkRunner) (c : Collector.t) : BenchmarkRunner :=
  {| cfg := cfg r; pool := pool r; collector := c; keyGen := keyGen r;
     startTime := startTime r |}.

Definition with_pool (r : BenchmarkRunner) (p : ConnectionPool.t) : BenchmarkRunner :=
  {| cfg := cfg r; pool := p; collector := collector r; keyGen := keyGen r;
     startTime := startTime r |}.

(** ** The key generator. *)

(** [crypto/rand] as the generator sees it: whether the [k]-th call of
    [rand.Read] fails, and the bytes it fills in otherwise. *)
Record Entropy := {
  read_error : nat -> error;
  read_byte : nat -> nat -> Ascii.ascii;
}.

(** [generateRandomBytes] generates a random byte slice of the specified
    length; [call] numbers the calls of [rand.Read].  [None] is the panic
    of [make] on a negative length. *)
Definition generateRandomBytes (e : Entropy) (call : nat) (length : Z)
    : option (string + string) :=
  if length <? 0 then None
  else
    match read_error e call with
    | Some err => Some (inr ("failed to generate random bytes: " ++ err)%string)
    | None =>
        Some (inl (string_of_list_ascii
                     (List.map (read_byte e call) (seq 0 (Z.to_nat length)))))
    end.

(** [GenerateValue] generates a random value of the specified size. *)
Definition GenerateValue (e : Entropy) (call : nat) (size : Z)
    : option (string + string) :=
  generateRandomBytes e call size.

(** The loop of [NewKeyGenerator], [for i := 0; i < keySpace; i++], with
    [todo = keySpace - i]. *)
Fixpoint generate (e : Entropy) (todo : nat) (i : Z) (keys : list string)
    (call : nat) : option (list string + string) :=
  match todo with
  | O => Some (inl keys)
  | S todo' =>
      let keyLen := add64 8 (Z.rem i 9) in
      made ← generateRandomBytes e call keyLen;
      match made with
      | inr err =>
          Some (inr ("failed to generate key " ++ Sprintf_d i ++ ": " ++ err)%string)
      | inl key =>
          if (i <? 0) || (len keys <=? i) then None
          else generate e todo' (i + 1) (<[Z.to_nat i := key]> keys) (S call)
      end
  end.

(** [NewKeyGenerator] creates a new key generator with pre-generated
    keys. *)
Definition NewKeyGenerator (e : Entropy) (call : nat) (keySpace : Z)
    : option (KeyGenerator + string) :=
  if keySpace <? 0 then None
  else
    made ← generate e (Z.to_nat keySpace) 0
              (replicate (Z.to_nat keySpace) EmptyString) call;
    Some (match made with
          | inl keys => inl {| keys := keys; keyIndex := 0 |}
          | inr err => inr err
          end).

(** [GetNextKey] returns the next key in round-robin fashion. *)
Definition GetNextKey (kg : KeyGenerator) : option (string * KeyGenerator) :=
  key ← Go.index (keys kg) (keyIndex kg);
  if len (keys kg) =? 0 then None
  else Some (key,
             {| keys := keys kg;
                keyIndex := Z.rem (add64 (keyIndex kg) 1) (len (keys kg)) |}).

(** [GetRandomKey] returns a random key from the pool; [drawn] is what
    [rand.Int] answers, [None] for its error.  [rand.Int] panics on a
    bound that is not positive. *)
Definition GetRandomKey (kg : KeyGenerator) (drawn : option Z) : option string :=
  if len (keys kg) <=? 0 then None
  else
    let n := match drawn with
             | Some n => n
             | None => keyIndex kg
             end in
    Go.index (keys kg) n.

(** [n] calls of [GetNextKey] in a row. *)
Fixpoint next_keys (n : nat) (kg : KeyGenerator)
    : option (list string * KeyGenerator) :=
  match n with
  | O => Some ([], kg)
  | S n' =>
      '(key, kg') ← GetNextKey kg;
      '(rest, kg'') ← next_keys n' kg';
      Some (key :: rest, kg'')
  end.

(** The message of the error [NewKeyGenerator] surfaces when the read for
    key [k] fails with [cause]. *)
Definition key_error (k : Z) (cause : string) : string :=
  ("failed to generate key " ++ Sprintf_d k ++ ": "
   ++ ("failed to generate random bytes: " ++ cause))%string.

(** The length [NewKeyGenerator] gives key [i]. *)
Definition key_length (i : Z) : Z := 8 + i mod 9.

(** The keys generated when the loop is at index [i]: each key made so
    far has its length. *)
Definition keys_made (keys : list string) (i : Z) : Prop :=
  forall (j : nat) (key : string),
    Z.of_nat j < i -> keys !! j = Some key ->
    Z.of_nat (String.length key) = key_length (Z.of_nat j).

(** [NewBenchmarkRunner] creates a new benchmark runner.  [created] is the
    answer of [os.Create], [e] the entropy [NewKeyGenerator] reads, [call]
    the number of reads made before, and [now] the clock when the runner
    is put together.  A panic of [NewKeyGenerator] (a negative key space)
    goes through: the pool is not closed on that path. *)
Definition NewBenchmarkRunner (c : BenchmarkConfig) (dial : Dialer)
    (created : error) (e : Entropy) (call : nat) (now : Time)
    (net : Network) : option ((BenchmarkRunner + string) * Network) :=
  '(made, net) ← NewConnectionPool dial (TargetAddress c) (NumConnections c) net;
  match made with
  | inr err => Some (inr ("failed to create connection pool: " ++ err)%string, net)
  | inl pool =>
      match Collector.NewCollector (OutputCSV c) created with
      | inr err =>
          '(_, net) ← ConnectionPool.Close pool net;
          Some (inr ("failed to create collector: " ++ err)%string, net)
      | inl collector =>
          generated ← NewKeyGenerator e call (KeySpace c);
          match generated with
          | inr err =>
              '(_, net) ← ConnectionPool.Close pool net;
              Some (inr ("failed to create key generator: " ++ err)%string, net)
          | inl keyGen =>
              Some (inl {| cfg := c;
                           pool := pool;
                           collector := collector;
                           keyGen := keyGen;
                           startTime := now |}, net)
          end
      end
  end.

(** [selectOperation] selects an operation based on configured ratios;
    [draw] is the number [rand.Intn(len(dist))] hands back. *)
Definition selectOperation (c : BenchmarkConfig) (draw : Z) : option string :=
  if add64 (add64 (ReadRatio c) (WriteRatio c)) (DeleteRatio c) <? 0 then None
  else
    let dist :=
      replicate (Z.to_nat (ReadRatio c)) "Get"%string
      ++ replicate (Z.to_nat (WriteRatio c)) "Put"%string
      ++ replicate (Z.to_nat (DeleteRatio c)) "Delete"%string in
    if len dist <=? 0 then None else Go.index dist draw.

(** What the world contributes to one call of [performOperation]. *)
Record Operation := {
  draw : Z;            (* the random index into the weighted distribution *)
  keyDraw : option Z;  (* what [rand.Int] answers in [GetRandomKey] *)
  generated : error;   (* the error of [GenerateValue], for a Put *)
  rpc : error;         (* the error of the remote call *)
  start : Time;        (* [time.Now()] before the call *)
  finish : Time;       (* the clock when [time.Since(start)] is read *)
  stamp : Time;        (* [time.Now()] for the [Timestamp] *)
}.

(** The error the [switch] over the operation leaves in [err]. *)
Definition outcome (op : string) (o : Operation) : error :=
  if String.eqb op "Get" then rpc o
  else if String.eqb op "Put" then
    match generated o with
    | Some err => Some err
    | None => rpc o
    end
  else if String.eqb op "Delete" then rpc o
  else None.

(** [latency := time.Since(start).Milliseconds()]. *)
Definition latency (o : Operation) : Z := Milliseconds (Since (finish o) (start o)).

(** The result [performOperation] creates. *)
Definition result (op : string) (o : Operation) : BenchmarkResult.t :=
  {| BenchmarkResult.Method := op;
     BenchmarkResult.LatencyMs := float64_of_int (latency o);
     BenchmarkResult.Error := outcome op o;
     BenchmarkResult.Timestamp := stamp o |}.

(** Whether the [switch] reaches a call on the client: a Put whose value
    could not be generated does not. *)
Definition calls_client (op : string) (o : Operation) : bool :=
  String.eqb op "Get"
  || (String.eqb op "Put" && match generated o with
                             | Some _ => false
                             | None => true
                             end)
  || String.eqb op "Delete".

(** [performOperation] performs a single operation based on configured
    ratios.  It yields the runner as the call leaves it and the lines it
    logs.  [GetRandomKey] panics on an empty pool of keys, [GenerateValue]
    makes a slice of [ValueSize] bytes, which panics for a negative size,
    and a call on a [nil] client panics. *)
Definition performOperation (r : BenchmarkRunner) (client : option Client.t)
    (o : Operation) (isWarmup : bool) (workerID : Z)
    : option (BenchmarkRunner * list Text) :=
  op ← selectOperation (cfg r) (draw o);
  key ← GetRandomKey (keyGen r) (keyDraw o);
  _ ← (if String.eqb op "Put" && (ValueSize (cfg r) <? 0)
       then None else Some tt);
  _ ← (if calls_client op o then _ ← client; Some tt else Some tt);
  let err := outcome op o in
  let result := result op o in
  let '(r, warned) :=
    if negb isWarmup then
      let '(c, warned) := Collector.AddResult (collector r) result in
      (with_collector r c, warned)
    else (r, []) in
  let logged :=
    if LogRequests (cfg r) || (LogErrors (cfg r) && bool_decide (err ≠ None)) then
      match err with
      | Some _ =>
          [Sprintf "Worker %d: %s failed for key %x: %v"
             [VInt workerID; VString op; VBytes key; VError err]]
      | None =>
          if LogRequests (cfg r) then
            [Sprintf "Worker %d: %s succeeded for key %x in %dms"
               [VInt workerID; VString op; VBytes key; VInt (latency o)]]
          else []
      end
    else [] in
  Some (r, warned ++ logged).

(** The RPS of a progress line: the count over the seconds since
    [r.startTime]. *)
Definition progressRPS (r : BenchmarkRunner) (stats : Stats.t) (now : Time) : float64 :=
  let elapsed := Seconds (Since now (startTime r)) in
  (float64_of_int (Stats.Count stats) / elapsed)%float.

(** [printProgress] prints current progress with aggregated percentiles. *)
Definition printProgress (r : BenchmarkRunner) (now : Time) (order : list string)
    : option (list Text) :=
  stats ← Collector.GetAggregatedStats (collector r) order;
  if Stats.Count stats =? 0 then Some []
  else
    let rps := progressRPS r stats now in
    Some [Sprintf
            "[%s] Total: %d | RPS: %.0f | Avg: %.1fms | P50: %.1fms | P95: %.1fms | P99: %.1fms | Errors: %d (%.1f%%)"
            [VTime "15:04:05" now;
             VInt (Stats.Count stats);
             VFloat rps;
             VFloat (Stats.AvgLatency stats);
             VFloat (Stats.P50Latency stats);
             VFloat (Stats.P95Latency stats);
             VFloat (Stats.P99Latency stats);
             VInt (Stats.ErrorCount stats);
             VFloat (Stats.ErrorRate stats)]].

(** ** The worker loop.

    A phase is one call of [runWorkers].  Its goroutines (the workers, the
    progress reporter, and the collector's [run] loop started before) take
    turns; a schedule lists the turns in the order they happen, each with
    the clock at which its [select] is evaluated. *)
Inductive Turn :=
| Work (at_ : Time) (workerID : Z) (o : Operation)
| Report (at_ : Time) (order : list string)
| Collect.

(** Every worker takes its client from the pool when it starts: the pool
    as the [NumWorkers] calls of [GetClient] leave it.  The clients they
    hand out are those of [acquire]. *)
Fixpoint startWorkers (n : nat) (p : ConnectionPool.t) : option ConnectionPool.t :=
  match n with
  | O => Some p
  | S n' => '(_, p') ← ConnectionPool.GetClient p; startWorkers n' p'
  end.

(** One turn.  [deadline] is that of the phase's context: once it has
    passed, workers and reporter return.  The reporter runs only outside
    warm-up.  [handed] lists the clients of the workers, worker [i]
    holding the [i]-th: the workers are taken to reach [GetClient] in the
    order of their numbers (the goroutines may reach it in any order; the
    clients of a pool differ in nothing the runner looks at).  A turn of a
    worker the phase has not started does nothing. *)
Definition turn (deadline : Time) (isWarmup : bool)
    (handed : list (option Client.t)) (t : Turn)
    (st : BenchmarkRunner * list Text) : option (BenchmarkRunner * list Text) :=
  let '(r, log) := st in
  match t with
  | Work at_ workerID o =>
      match Go.index handed workerID with
      | None => Some st
      | Some client =>
          if deadline <=? at_ then Some st
          else '(r', lines) ← performOperation r client o isWarmup workerID;
               Some (r', log ++ lines)
      end
  | Report at_ order =>
      if isWarmup || (deadline <=? at_) then Some st
      else lines ← printProgress r at_ order; Some (r, log ++ lines)
  | Collect =>
      c ← Collector.run_step (collector r);
      Some (with_collector r c, log)
  end.

Fixpoint turns (deadline : Time) (isWarmup : bool)
    (handed : list (option Client.t)) (schedule : list Turn)
    (st : BenchmarkRunner * list Text) : option (BenchmarkRunner * list Text) :=
  match schedule with
  | [] => Some st
  | t :: rest =>
      st' ← turn deadline isWarmup handed t st;
      turns deadline isWarmup handed rest st'
  end.

(** [runWorkers] starts the worker goroutines for the specified duration;
    [entered] is the clock when it is called. *)
Definition runWorkers (r : BenchmarkRunner) (duration : Z) (isWarmup : bool)
    (entered : Time) (schedule : list Turn) (log : list Text)
    : option (BenchmarkRunner * list Text) :=
  '(handed, p) ← acquire (Z.to_nat (NumWorkers (cfg r))) (pool r);
  turns (entered + duration) isWarmup handed schedule (with_pool r p, log).

(** A turn whose random draw picks an operation: [rand.Intn] answers
    inside the weighted distribution. *)
Definition drawn (c : BenchmarkConfig) (t : Turn) : Prop :=
  match t with
  | Work _ _ o => is_Some (selectOperation c (draw o))
  | _ => True
  end.

(** A key draw that picks a key: [rand.Int] answers inside the pool, or
    fails and the index the code falls back on is inside it. *)
Definition in_pool (kg : KeyGenerator) (keyDraw : option Z) : Prop :=
  0 <= match keyDraw with
       | Some n => n
       | None => keyIndex kg
       end < len (keys kg).

Definition picked (kg : KeyGenerator) (t : Turn) : Prop :=
  match t with
  | Work _ _ o => in_pool kg (keyDraw o)
  | _ => True
  end.

(** ** A run to evaluate the definitions on.

    The default configuration (5 s of warm-up, a report every 5 s) with a
    key space of one key, every dial succeeding, no CSV file, the entropy
    spelling the key; the runner is put together when the clock shows 0. *)

(** A configuration with its key space replaced. *)
Definition with_KeySpace (c : BenchmarkConfig) (keySpace : Z) : BenchmarkConfig := {|
  TargetAddress := TargetAddress c;
  NumConnections := NumConnections c;
  NumWorkers := NumWorkers c;
  Duration := Duration c;
  WarmupDuration := WarmupDuration c;
  KeySpace := keySpace;
  ValueSize := ValueSize c;
  ReadRatio := ReadRatio c;
  WriteRatio := WriteRatio c;
  DeleteRatio := DeleteRatio c;
  ReportInterval := ReportInterval c;
  OutputCSV := OutputCSV c;
  LogRequests := LogRequests c;
  LogErrors := LogErrors c;
|}.

Definition sample_config : BenchmarkConfig := with_KeySpace DefaultConfig 1.

Definition sample_entropy : Entropy := {|
  read_error := fun _ => None;
  read_byte := fun _ j => nth j (list_ascii_of_string "key-0001") Ascii.zero;
|}.

Definition sample_pool : ConnectionPool.t := {|
  ConnectionPool.clients := clients_at 0 8 8;
  ConnectionPool.index := 0;
|}.

Definition sample_runner : BenchmarkRunner := {|
  cfg := sample_config;
  pool := sample_pool;
  collector := fresh_collector;
  keyGen := {| keys := ["key-0001"%string]; keyIndex := 0 |};
  startTime := 0;
|}.

(** A Get by worker 0 that starts at [at_], takes [elapsed] nanoseconds and
    succeeds. *)
Definition get (at_ elapsed : Z) : Operation := {|
  draw := 0;
  keyDraw := Some 0;
  generated := None;
  rpc := None;
  start := at_;
  finish := at_ + elapsed;
  stamp := at_ + elapsed;
|}.

(** A Delete that is refused. *)
Definition refused_delete (at_ elapsed : Z) : Operation := {|
  draw := 99;
  keyDraw := Some 0;
  generated := None;
  rpc := Some "connection refused"%string;
  start := at_;
  finish := at_ + elapsed;
  stamp := at_ + elapsed;
|}.

(** Warm-up, entered at 0: two operations, the collector's loop and the
    reporter take turns. *)
Definition warmup_sample : list Turn :=
  [ Work Second 0 (get Second 1500000);
    Collect;
    Report (2 * Second) ["Get"%string];
    Work (2 * Second) 1 (refused_delete (2 * Second) 700000);
    Collect ].

(** Measurement, entered when the clock shows 5 s: ten Gets of 1.5 ms,
    each taken up by the collector, and the first report at 10 s. *)
Definition measuring_sample : list Turn :=
  flat_map (fun i => [Work (5 * Second + i * 100 * Millisecond) 0
                        (get (5 * Second + i * 100 * Millisecond) 1500000);
                      Collect])
    [0; 1; 2; 3; 4; 5; 6; 7; 8; 9]
  ++ [Report (10 * Second) ["Get"%string]].

(** The default configuration with a negative key space, and with a key
    space of zero; the runner construction makes of the latter at clock 0
    when every dial succeeds. *)
Definition negative_key_space : BenchmarkConfig := with_KeySpace DefaultConfig (-1).

Definition zero_key_space : BenchmarkConfig := with_KeySpace DefaultConfig 0.

Definition keyless_runner : BenchmarkRunner := {|
  cfg := zero_key_space;
  pool := sample_pool;
  collector := fresh_collector;
  keyGen := {| keys := []; keyIndex := 0 |};
  startTime := 0;
|}.

(** An entropy source whose fourth read fails. *)
Definition fourth_read_fails : Entropy := {|
  read_error := fun k => if Nat.eqb k 3 then Some "EOF"%string else None;
  read_byte := fun k j => Ascii.ascii_of_nat (97 + k + j);
|}.

(** The operation the weighted distribution holds at position [draw]. *)
Definition selected (c : BenchmarkConfig) (draw : Z) : string :=
  if draw <? ReadRatio c then "Get"
  else if draw <? ReadRatio c + WriteRatio c then "Put"
  else "Delete".

End runner.

(* ================================================================== *)
(** * Theorems *)
(* ================================================================== *)

Example Float64s_ex :
  Go.Float64s [3; 1; 2; 5; 4]%float = [1; 2; 3; 4; 5]%float.
Proof. reflexivity. Qed.

Example Sprintf_d_ex :
  Go.Sprintf_d 120 = "120"%string /\ Go.Sprintf_d 0 = "0"%string /\ Go.Sprintf_d (-7) = "-7"%string.
Proof. repeat split; reflexivity. Qed.

(* ------------------------------------------------------------------ *)
(** ** Metrics.AddResult *)
(* ------------------------------------------------------------------ *)

Section AddResultFacts.
Import Go collector.

Lemma wrap64_id (z : Z) : min_int64 <= z <= max_int64 -> wrap64 z = z.
Proof.
  unfold wrap64, min_int64, max_int64. intros Hz.
  rewrite Z.mod_small; lia.
Qed.

Lemma most_recent_all {A : Type} (n : Z) (s : list A) :
  len s <= n -> most_recent n s = s.
Proof.
  unfold most_recent, len. intros Hn.
  replace (length s - Z.to_nat n)%nat with 0%nat by lia. reflexivity.
Qed.

Lemma most_recent_length {A : Type} (n : Z) (s : list A) :
  0 <= n <= len s -> len (most_recent n s) = n.
Proof.
  unfold most_recent, len. intros Hn. rewrite length_drop. lia.
Qed.

Lemma most_recent_app_absorb {A : Type} (n : Z) (a b : list A) :
  most_recent n (most_recent n a ++ b) = most_recent n (a ++ b).
Proof.
  unfold most_recent.
  destruct (decide (length a <= Z.to_nat n)%nat) as [Hle | Hgt].
  - replace (length a - Z.to_nat n)%nat with 0%nat by lia. reflexivity.
  - rewrite !length_app, length_drop.
    replace (length a - (length a - Z.to_nat n) + length b - Z.to_nat n)%nat
      with (length b) by lia.
    destruct (decide (length b <= Z.to_nat n)%nat) as [Hb | Hb].
    + rewrite drop_app_le by (rewrite length_drop; lia).
      rewrite drop_drop.
      rewrite (drop_app_le a) by lia.
      f_equal. f_equal. lia.
    + rewrite drop_app_ge by (rewrite length_drop; lia).
      rewrite (drop_app_ge a) by lia.
      rewrite length_drop. f_equal. lia.
Qed.

Lemma most_recent_app_enough {A : Type} (n : Z) (a b : list A) :
  n <= len b -> most_recent n (a ++ b) = most_recent n b.
Proof.
  unfold most_recent, len. intros Hn.
  rewrite length_app, drop_app_ge by lia. f_equal. lia.
Qed.

(** A failed result touches the two counters and nothing else. *)
Lemma AddResult_failure (m : Metrics.t) (r : BenchmarkResult.t) :
  failed r = true ->
  exists m', Metrics.AddResult m r = Some m'
    /\ Metrics.Count m' = add64 (Metrics.Count m) 1
    /\ Metrics.ErrorCount m' = add64 (Metrics.ErrorCount m) 1
    /\ Metrics.TotalLatency m' = Metrics.TotalLatency m
    /\ Metrics.Latencies m' = Metrics.Latencies m
    /\ Metrics.maxLatencies m' = Metrics.maxLatencies m.
Proof.
  unfold failed, Metrics.AddResult. destruct (BenchmarkResult.Error r); [| discriminate].
  intros _. eexists. split; [reflexivity |]. simpl. tauto.
Qed.

(** A successful result is counted, summed and appended; the sample is cut
    back to its [maxLatencies] most recent entries. *)
Lemma AddResult_success (m : Metrics.t) (r : BenchmarkResult.t) :
  failed r = false -> 0 <= Metrics.maxLatencies m ->
  exists m', Metrics.AddResult m r = Some m'
    /\ Metrics.Count m' = add64 (Metrics.Count m) 1
    /\ Metrics.ErrorCount m' = Metrics.ErrorCount m
    /\ Metrics.TotalLatency m' = (Metrics.TotalLatency m + BenchmarkResult.LatencyMs r)%float
    /\ Metrics.Latencies m' = most_recent (Metrics.maxLatencies m) (Metrics.Latencies m ++ [BenchmarkResult.LatencyMs r])
    /\ Metrics.maxLatencies m' = Metrics.maxLatencies m.
Proof.
  unfold failed, Metrics.AddResult. destruct (BenchmarkResult.Error r); [discriminate |].
  intros _ Hcap.
  set (appended := Metrics.Latencies m ++ [BenchmarkResult.LatencyMs r]).
  destruct (Metrics.maxLatencies m <? len appended) eqn:Hfull.
  - apply Z.ltb_lt in Hfull.
    unfold slice_from.
    replace ((len appended - Metrics.maxLatencies m <? 0)
             || (len appended <? len appended - Metrics.maxLatencies m)) with false.
    2:{ symmetry. apply orb_false_iff. split; apply Z.ltb_ge; lia. }
    simpl. eexists. split; [reflexivity |]. simpl.
    repeat split. unfold most_recent. f_equal. unfold len in *. lia.
  - apply Z.ltb_ge in Hfull.
    simpl. eexists. split; [reflexivity |]. simpl.
    repeat split. symmetry. apply most_recent_all. exact Hfull.
Qed.

End AddResultFacts.

Section Ingestion.
Import Go collector.

Lemma success_latencies_failure (r : BenchmarkResult.t) (rs : list BenchmarkResult.t) :
  failed r = true -> success_latencies (r :: rs) = success_latencies rs.
Proof. unfold success_latencies, successes. simpl. intros ->. reflexivity. Qed.

Lemma success_latencies_success (r : BenchmarkResult.t) (rs : list BenchmarkResult.t) :
  failed r = false ->
  success_latencies (r :: rs) = BenchmarkResult.LatencyMs r :: success_latencies rs.
Proof. unfold success_latencies, successes. simpl. intros ->. reflexivity. Qed.

Lemma successes_failures_len (rs : list BenchmarkResult.t) :
  len (successes rs) + len (failures rs) = len rs.
Proof.
  unfold len, successes, failures.
  induction rs as [| r rs IH]; simpl; [reflexivity |].
  destruct (failed r); simpl; lia.
Qed.

Lemma failures_cons_len (r : BenchmarkResult.t) (rs : list BenchmarkResult.t) :
  len (failures (r :: rs)) = (if failed r then 1 else 0) + len (failures rs).
Proof. unfold len, failures. simpl. destruct (failed r); simpl; lia. Qed.

Lemma AddResults_cons (m0 m1 : Metrics.t) (r : BenchmarkResult.t) (rs : list BenchmarkResult.t) :
  Metrics.AddResult m0 r = Some m1 -> Metrics.AddResults m0 (r :: rs) = Metrics.AddResults m1 rs.
Proof. intros H. simpl. rewrite H. reflexivity. Qed.

(** The counters and the latency sum after a whole run of [AddResult]. *)
Lemma AddResults_totals (rs : list BenchmarkResult.t) :
  forall m0 : Metrics.t,
    counts_ok m0 -> 0 <= Metrics.maxLatencies m0 -> Metrics.Count m0 + len rs <= max_int64 ->
    exists m, Metrics.AddResults m0 rs = Some m
      /\ Metrics.Count m = Metrics.Count m0 + len rs
      /\ Metrics.ErrorCount m = Metrics.ErrorCount m0 + len (failures rs)
      /\ Metrics.TotalLatency m = float_sum (Metrics.TotalLatency m0) (success_latencies rs).
Proof.
  induction rs as [| r rs IH]; intros m0 Hok Hcap Hfit.
  - exists m0. unfold len. simpl. repeat split; lia.
  - assert (Hlen : len (r :: rs) = 1 + len rs) by (unfold len; simpl; lia).
    assert (Hlenrs : 0 <= len rs) by (unfold len; lia).
    assert (Hfail : 0 <= len (failures rs) <= len rs).
    { pose proof (successes_failures_len rs). unfold len in *. lia. }
    destruct Hok as [Hge Hle].
    assert (Hc : add64 (Metrics.Count m0) 1 = Metrics.Count m0 + 1).
    { apply wrap64_id. unfold min_int64, max_int64 in *. lia. }
    assert (He : add64 (Metrics.ErrorCount m0) 1 = Metrics.ErrorCount m0 + 1).
    { apply wrap64_id. unfold min_int64, max_int64 in *. lia. }
    destruct (failed r) eqn:Hf.
    + destruct (AddResult_failure m0 r Hf) as (m1 & Hstep & H1 & H2 & H3 & _ & H5).
      destruct (IH m1) as (m & Hrun & Hn & Hk & Hs).
      { unfold counts_ok. lia. } { lia. } { lia. }
      exists m. rewrite (AddResults_cons _ _ _ _ Hstep). split; [exact Hrun |].
      rewrite failures_cons_len, Hf, (success_latencies_failure r rs Hf).
      rewrite Hn, Hk, Hs, H1, H2, H3, Hc, He. repeat split; lia.
    + destruct (AddResult_success m0 r Hf Hcap) as (m1 & Hstep & H1 & H2 & H3 & _ & H5).
      destruct (IH m1) as (m & Hrun & Hn & Hk & Hs).
      { unfold counts_ok. lia. } { lia. } { lia. }
      exists m. rewrite (AddResults_cons _ _ _ _ Hstep). split; [exact Hrun |].
      rewrite failures_cons_len, Hf, (success_latencies_success r rs Hf).
      rewrite Hn, Hk, Hs, H1, H2, H3, Hc. simpl. repeat split; lia.
Qed.

(** The retained sample after a whole run of [AddResult]. *)
Lemma AddResults_sample (rs : list BenchmarkResult.t) :
  forall m0 : Metrics.t,
    0 <= Metrics.maxLatencies m0 ->
    exists m, Metrics.AddResults m0 rs = Some m
      /\ Metrics.maxLatencies m = Metrics.maxLatencies m0
      /\ Metrics.Latencies m =
           match success_latencies rs with
           | [] => Metrics.Latencies m0
           | _ :: _ => most_recent (Metrics.maxLatencies m0)
                         (Metrics.Latencies m0 ++ success_latencies rs)
           end.
Proof.
  induction rs as [| r rs IH]; intros m0 Hcap.
  - exists m0. simpl. auto.
  - destruct (failed r) eqn:Hf.
    + destruct (AddResult_failure m0 r Hf) as (m1 & Hstep & _ & _ & _ & H4 & H5).
      destruct (IH m1) as (m & Hrun & Hmax & Hs); [lia |].
      exists m. rewrite (AddResults_cons _ _ _ _ Hstep). split; [exact Hrun |].
      rewrite (success_latencies_failure r rs Hf), Hmax, Hs, H4, H5. auto.
    + destruct (AddResult_success m0 r Hf Hcap) as (m1 & Hstep & _ & _ & _ & H4 & H5).
      destruct (IH m1) as (m & Hrun & Hmax & Hs); [lia |].
      exists m. rewrite (AddResults_cons _ _ _ _ Hstep). split; [exact Hrun |].
      rewrite (success_latencies_success r rs Hf), Hmax, Hs, H4, H5.
      split; [reflexivity |].
      destruct (success_latencies rs) as [| x xs]; [reflexivity |].
      rewrite most_recent_app_absorb, <- app_assoc. reflexivity.
Qed.

(** C1.  Starting from a fresh per-kind [Metrics], after ingesting any
    sequence of results with k successes and e failures, [Count = k + e],
    [ErrorCount = e] and [TotalLatency] is the floating-point sum, in
    ingestion order, of the k successful latencies alone; and a single
    [AddResult] on any state with [0 <= ErrorCount <= Count] leaves a state
    with [0 <= ErrorCount <= Count].  The counters are [int64]: the number
    of results is taken to fit in one. *)
Theorem AddResult_count_invariant
    (method : string) (rs : list BenchmarkResult.t)
    (m0 : Metrics.t) (r : BenchmarkResult.t) :
  len rs <= max_int64 ->
  counts_ok m0 -> Metrics.Count m0 < max_int64 -> 0 <= Metrics.maxLatencies m0 ->
  (exists m, Metrics.AddResults (Metrics.NewMetrics method) rs = Some m
     /\ Metrics.Count m = len (successes rs) + len (failures rs)
     /\ Metrics.ErrorCount m = len (failures rs)
     /\ Metrics.TotalLatency m = float_sum PrimFloat.zero (success_latencies rs)
     /\ counts_ok m)
  /\ (exists m1, Metrics.AddResult m0 r = Some m1 /\ counts_ok m1).
Proof.
  intros Hfit Hok Hroom Hcap. split.
  - destruct (AddResults_totals rs (Metrics.NewMetrics method)) as (m & Hrun & Hn & Hk & Hs).
    { unfold counts_ok. simpl. lia. } { simpl. lia. } { simpl. lia. }
    simpl in Hn, Hk, Hs. exists m.
    pose proof (successes_failures_len rs) as Hsplit.
    assert (0 <= len (successes rs)) by (unfold len; lia).
    assert (0 <= len (failures rs)) by (unfold len; lia).
    unfold counts_ok. repeat split; try assumption; lia.
  - destruct (AddResults_totals [r] m0 Hok Hcap) as (m1 & Hrun & Hn & Hk & _).
    { unfold len. simpl. lia. }
    simpl in Hrun. destruct (Metrics.AddResult m0 r) as [m1' |] eqn:Hstep; [| discriminate].
    simpl in Hrun. injection Hrun as ->. exists m1. split; [reflexivity |].
    rewrite failures_cons_len in Hk. unfold counts_ok in *. unfold len in *.
    simpl in Hn, Hk. destruct (failed r); lia.
Qed.

(** C5.  With capacity [C >= 0], once more than [C] successful results have
    been ingested the sample is exactly the [C] most recent successful
    latencies, in ingestion order: what was evicted is the oldest prefix. *)
Theorem Latencies_fifo_eviction
    (m0 : Metrics.t) (rs : list BenchmarkResult.t) (C : Z) :
  Metrics.maxLatencies m0 = C -> 0 <= C -> C < len (success_latencies rs) ->
  exists m evicted, Metrics.AddResults m0 rs = Some m
    /\ Metrics.Latencies m = most_recent C (success_latencies rs)
    /\ len (Metrics.Latencies m) = C
    /\ success_latencies rs = evicted ++ Metrics.Latencies m.
Proof.
  intros HC Hpos Hmore.
  destruct (AddResults_sample rs m0) as (m & Hrun & _ & Hs); [lia |].
  assert (Hkept : Metrics.Latencies m = most_recent C (success_latencies rs)).
  { rewrite Hs, HC. destruct (success_latencies rs) as [| x xs] eqn:Hl.
    - unfold len in Hmore. simpl in Hmore. lia.
    - apply most_recent_app_enough. lia. }
  exists m, (take (length (success_latencies rs) - Z.to_nat C) (success_latencies rs)).
  split; [exact Hrun |]. split; [exact Hkept |]. split.
  - rewrite Hkept. apply most_recent_length. lia.
  - rewrite Hkept. unfold most_recent. symmetry. apply take_drop.
Qed.

Lemma AddResult_count_invariant_witness :
  (exists m,
      Metrics.AddResults (Metrics.NewMetrics "Get")
        [succeeded "Get" 1; refused "Get" 7; succeeded "Get" 2.5]%float = Some m
      /\ Metrics.Count m = 2 + 1 /\ Metrics.ErrorCount m = 1
      /\ Metrics.TotalLatency m = 3.5%float /\ counts_ok m)
  /\ (exists m1, Metrics.AddResult (Metrics.NewMetrics "Put") (refused "Put" 7) = Some m1
                 /\ counts_ok m1).
Proof.
  apply (AddResult_count_invariant "Get"
           [succeeded "Get" 1; refused "Get" 7; succeeded "Get" 2.5]%float
           (Metrics.NewMetrics "Put") (refused "Put" 7)).
  - vm_compute. discriminate.
  - unfold counts_ok. simpl. lia.
  - vm_compute. reflexivity.
  - simpl. lia.
Defined.

Lemma Latencies_fifo_eviction_witness :
  exists m evicted,
    Metrics.AddResults (Metrics.SetMaxLatencies (Metrics.NewMetrics "Get") 2)
      [succeeded "Get" 1; succeeded "Get" 2; refused "Get" 9;
       succeeded "Get" 3]%float = Some m
    /\ Metrics.Latencies m = [2; 3]%float
    /\ len (Metrics.Latencies m) = 2
    /\ [1; 2; 3]%float = evicted ++ Metrics.Latencies m.
Proof.
  apply (Latencies_fifo_eviction (Metrics.SetMaxLatencies (Metrics.NewMetrics "Get") 2)
           [succeeded "Get" 1; succeeded "Get" 2; refused "Get" 9;
            succeeded "Get" 3]%float 2).
  - reflexivity.
  - lia.
  - vm_compute. reflexivity.
Defined.

End Ingestion.

(* ------------------------------------------------------------------ *)
(** ** percentile *)
(* ------------------------------------------------------------------ *)

Section Percentile.
Import Go collector.

Lemma int_of_float64_range (f : float64) :
  min_int64 <= int_of_float64 f <= max_int64.
Proof.
  unfold int_of_float64.
  destruct (FloatOps.Prim2SF f) as [s | s | | s m e];
    try (unfold min_int64, max_int64; lia).
  destruct ((min_int64 <=? (if s then - Z.shiftl (Z.pos m) e else Z.shiftl (Z.pos m) e))
            && ((if s then - Z.shiftl (Z.pos m) e else Z.shiftl (Z.pos m) e) <=? max_int64))
    eqn:Hin.
  - apply andb_true_iff in Hin as [H1 H2].
    apply Z.leb_le in H1. apply Z.leb_le in H2. lia.
  - unfold min_int64, max_int64. lia.
Qed.

Lemma index_in_range {A : Type} (s : list A) (i : Z) :
  0 <= i < len s -> exists x, Go.index s i = Some x.
Proof.
  unfold Go.index, len. intros Hi.
  destruct (i <? 0) eqn:Hneg; [apply Z.ltb_lt in Hneg; lia |].
  destruct (lookup_lt_is_Some_2 s (Z.to_nat i)) as [x Hx]; [lia |].
  exists x. exact Hx.
Qed.

Lemma index_out_of_range {A : Type} (s : list A) (i : Z) :
  i < 0 \/ len s <= i -> Go.index s i = None.
Proof.
  unfold Go.index, len. intros Hi.
  destruct (i <? 0) eqn:Hneg; [reflexivity |].
  apply Z.ltb_ge in Hneg. apply lookup_ge_None. lia.
Qed.

Lemma index_cases {A : Type} (s : list A) (i : Z) :
  (0 <= i < len s /\ exists x, Go.index s i = Some x)
  \/ ((i < 0 \/ len s <= i) /\ Go.index s i = None).
Proof.
  destruct (decide (0 <= i < len s)) as [Hin | Hout].
  - left. split; [exact Hin | apply index_in_range; exact Hin].
  - right. assert (i < 0 \/ len s <= i) as H by lia.
    split; [exact H | apply index_out_of_range; exact H].
Qed.

(** The code and the specification's wording give the same percentile. *)
Lemma percentile_is_interpolated (values : list float64) (p : Z) :
  values <> [] -> len values <= max_int64 ->
  percentile values p = interpolated_at_rank values p.
Proof.
  intros Hne Hfit. unfold percentile, interpolated_at_rank, rank.
  assert (Hlen : (len values =? 0) = false).
  { apply Z.eqb_neq. unfold len. destruct values; [congruence | simpl; lia]. }
  rewrite Hlen.
  set (r := (float64_of_int p / 100 * float64_of_int (len values - 1))%float).
  set (below := int_of_float64 r).
  destruct (r =? float64_of_int below)%float; [reflexivity |].
  pose proof (int_of_float64_range r) as Hr. fold below in Hr.
  destruct (index_cases values below) as [[Hin [x Hx]] | [Hout Hx]].
  - assert (Hup : add64 below 1 = below + 1).
    { apply wrap64_id. unfold min_int64, max_int64 in *. lia. }
    rewrite Hup, Hx. simpl.
    destruct (len values <=? below + 1) eqn:Hlast.
    + apply Z.leb_le in Hlast.
      rewrite (index_out_of_range values (below + 1)) by lia. reflexivity.
    + apply Z.leb_gt in Hlast.
      destruct (index_in_range values (below + 1)) as [y Hy]; [lia |].
      rewrite Hy. reflexivity.
  - rewrite Hx. simpl. destruct (len values <=? add64 below 1); reflexivity.
Qed.

(** A rank inside the sample makes [percentile] return. *)
Lemma percentile_returns (values : list float64) (p : Z) :
  rank_in_range (len values) p = true -> len values <= max_int64 ->
  exists x, percentile values p = Some x.
Proof.
  unfold rank_in_range. intros Hin Hfit.
  apply andb_true_iff in Hin as [H0 H1].
  apply Z.leb_le in H0. apply Z.ltb_lt in H1.
  assert (Hne : values <> []).
  { intros ->. change (len (@nil float64)) with 0 in H0, H1. lia. }
  rewrite (percentile_is_interpolated values p Hne Hfit).
  unfold interpolated_at_rank.
  set (below := int_of_float64 (rank (len values) p)) in *.
  destruct (index_in_range values below) as [x Hx]; [lia |].
  rewrite Hx.
  destruct (rank (len values) p =? float64_of_int below)%float; [eauto |].
  destruct (Go.index values (below + 1)); eauto.
Qed.

Lemma ranks_in_range_from_sound (count : nat) :
  forall n0 n : Z,
    ranks_in_range_from count n0 = true ->
    n0 <= n < n0 + Z.of_nat count ->
    rank_in_range n 50 = true /\ rank_in_range n 95 = true
    /\ rank_in_range n 99 = true.
Proof.
  induction count as [| count IH]; intros n0 n Hall Hn; [lia |].
  simpl in Hall.
  apply andb_true_iff in Hall as [Hall Hrest].
  apply andb_true_iff in Hall as [Hall H99].
  apply andb_true_iff in Hall as [H50 H95].
  destruct (decide (n = n0)) as [-> | Hnext]; [auto |].
  apply (IH (n0 + 1) n Hrest). lia.
Qed.

Lemma ranks_in_range_checked :
  ranks_in_range_from (Z.to_nat sample_limit) 1 = true.
Proof. vm_compute. reflexivity. Qed.

(** p50, p95 and p99 of a sample of up to [sample_limit] entries. *)
Lemma percentiles_return (values : list float64) :
  0 < len values <= sample_limit ->
  exists p50 p95 p99,
    percentile values 50 = Some p50 /\ percentile values 95 = Some p95
    /\ percentile values 99 = Some p99.
Proof.
  intros Hn.
  destruct (ranks_in_range_from_sound (Z.to_nat sample_limit) 1 (len values)
              ranks_in_range_checked) as (H50 & H95 & H99).
  { rewrite Z2Nat.id by (unfold sample_limit; lia). lia. }
  assert (Hfit : len values <= max_int64).
  { unfold sample_limit, max_int64 in *. lia. }
  destruct (percentile_returns values 50 H50 Hfit) as [p50 E50].
  destruct (percentile_returns values 95 H95 Hfit) as [p95 E95].
  destruct (percentile_returns values 99 H99 Hfit) as [p99 E99].
  exists p50, p95, p99. auto.
Qed.

(** C6.  On a non-empty sample [percentile] is the value at
    linear-interpolated rank [p/100 * (n-1)]: the entry of that rank when the
    rank is whole, and otherwise the entry below plus the fractional part of
    the rank times the step to the entry above.  For the sample
    [1,2,3,4,5], p50 is 3, and p99 has rank 3.96 and is 4.96 (the binary64
    numbers so written: the results are exact to the last bit). *)
#[warnings="-inexact-float"] Theorem percentile_interpolated_rank (values : list float64) (p : Z) :
  values <> [] -> len values <= max_int64 ->
  percentile values p = interpolated_at_rank values p
  /\ percentile [1; 2; 3; 4; 5]%float 50 = Some 3%float
  /\ rank 5 99 = 3.96%float
  /\ percentile [1; 2; 3; 4; 5]%float 99 = Some 4.96%float.
Proof.
  intros Hne Hfit. split; [apply percentile_is_interpolated; assumption |].
  repeat split; vm_compute; reflexivity.
Qed.

#[warnings="-inexact-float"] Lemma percentile_interpolated_rank_witness :
  percentile [10; 20; 40]%float 75 = interpolated_at_rank [10; 20; 40]%float 75
  /\ percentile [1; 2; 3; 4; 5]%float 50 = Some 3%float
  /\ rank 5 99 = 3.96%float
  /\ percentile [1; 2; 3; 4; 5]%float 99 = Some 4.96%float.
Proof.
  apply (percentile_interpolated_rank [10; 20; 40]%float 75).
  - discriminate.
  - vm_compute. discriminate.
Defined.

End Percentile.

(* ------------------------------------------------------------------ *)
(** ** sort.Float64s *)
(* ------------------------------------------------------------------ *)

Section Sorting.
Import Go.

Lemma SFcompare_antisym (a b : SpecFloat.spec_float) :
  SpecFloat.SFcompare b a = option_map CompOpp (SpecFloat.SFcompare a b).
Proof.
  destruct a as [sa | sa | | sa ma ea], b as [sb | sb | | sb mb eb];
    try (destruct sa); try (destruct sb); try reflexivity; simpl;
    rewrite (Z.compare_antisym ea eb);
    change (Pos.compare_cont Eq mb ma) with (Pos.compare mb ma);
    change (Pos.compare_cont Eq ma mb) with (Pos.compare ma mb);
    rewrite (Pos.compare_antisym ma mb);
    destruct (ea ?= eb); simpl; try reflexivity;
    destruct (ma ?= mb)%positive; reflexivity.
Qed.

Lemma SFcompare_refl (a : SpecFloat.spec_float) :
  a <> SpecFloat.S754_nan -> SpecFloat.SFcompare a a = Some Eq.
Proof.
  destruct a as [s | s | | s m e]; try (destruct s); simpl; try congruence; intros _;
    rewrite Z.compare_refl; change (Pos.compare_cont Eq m m) with (Pos.compare m m);
    rewrite Pos.compare_refl; reflexivity.
Qed.

Lemma ltb_asym (a b : float64) : (a <? b)%float = true -> (b <? a)%float = false.
Proof.
  rewrite !FloatAxioms.ltb_spec. unfold SpecFloat.SFltb.
  rewrite (SFcompare_antisym (FloatOps.Prim2SF a) (FloatOps.Prim2SF b)).
  destruct (SpecFloat.SFcompare (FloatOps.Prim2SF a) (FloatOps.Prim2SF b)) as [[] |];
    simpl; congruence.
Qed.

Lemma isNaN_spec (a : float64) :
  isNaN a = true -> FloatOps.Prim2SF a = SpecFloat.S754_nan.
Proof.
  unfold isNaN, PrimFloat.is_nan. rewrite FloatAxioms.eqb_spec. unfold SpecFloat.SFeqb.
  intros H. destruct (FloatOps.Prim2SF a) as [s | s | | s m e] eqn:E; [| | reflexivity |];
    rewrite SFcompare_refl in H by discriminate; discriminate.
Qed.

(** Nothing compares with NaN. *)
Lemma ltb_NaN (a b : float64) :
  isNaN a = true \/ isNaN b = true -> (a <? b)%float = false.
Proof.
  rewrite FloatAxioms.ltb_spec. unfold SpecFloat.SFltb.
  intros [H | H]; apply isNaN_spec in H; rewrite H.
  - reflexivity.
  - destruct (FloatOps.Prim2SF a); reflexivity.
Qed.

Lemma less_float64_asym (a b : float64) :
  less_float64 a b = true -> less_float64 b a = false.
Proof.
  unfold less_float64. intros H. apply orb_true_iff in H as [Hlt | Hnan].
  - rewrite (ltb_asym a b Hlt). simpl.
    destruct (isNaN b) eqn:Hb; [| reflexivity].
    rewrite (ltb_NaN a b) in Hlt by auto. discriminate.
  - apply andb_true_iff in Hnan as [Ha Hb]. apply negb_true_iff in Hb.
    rewrite (ltb_NaN b a) by auto. rewrite Ha, Hb. reflexivity.
Qed.

Lemma insert_float64_HdRel (a x : float64) (s : list float64) :
  HdRel in_order a s -> in_order a x -> HdRel in_order a (insert_float64 x s).
Proof.
  intros Hhd Hax. destruct s as [| y s]; simpl; [constructor; exact Hax |].
  destruct (less_float64 y x || negb (less_float64 x y)); constructor.
  - inversion Hhd; assumption.
  - exact Hax.
Qed.

Lemma insert_float64_sorted (x : float64) (s : list float64) :
  Sorted in_order s -> Sorted in_order (insert_float64 x s).
Proof.
  induction 1 as [| y s Hs IH Hhd]; simpl; [repeat constructor |].
  destruct (less_float64 y x || negb (less_float64 x y)) eqn:Htest.
  - constructor; [exact IH |].
    apply insert_float64_HdRel; [exact Hhd |].
    unfold in_order. apply orb_true_iff in Htest as [Hyx | Hxy].
    + apply less_float64_asym. exact Hyx.
    + apply negb_true_iff. exact Hxy.
  - apply orb_false_iff in Htest as [Hyx _].
    constructor; [constructor; assumption |]. constructor. exact Hyx.
Qed.

Lemma insert_float64_perm (x : float64) (s : list float64) :
  insert_float64 x s ≡ₚ x :: s.
Proof.
  induction s as [| y s IH]; simpl; [reflexivity |].
  destruct (less_float64 y x || negb (less_float64 x y)); [| reflexivity].
  rewrite IH. apply perm_swap.
Qed.

(** [Float64s] puts the slice in order and keeps its entries. *)
Lemma Float64s_sorted (s : list float64) : Sorted in_order (Float64s s).
Proof.
  unfold Float64s. induction (reverse s) as [| x t IH]; simpl; [constructor |].
  apply insert_float64_sorted. exact IH.
Qed.

Lemma Float64s_perm (s : list float64) : Float64s s ≡ₚ s.
Proof.
  unfold Float64s. rewrite <- (reverse_Permutation s) at 2.
  induction (reverse s) as [| x t IH]; simpl; [reflexivity |].
  rewrite insert_float64_perm, IH. reflexivity.
Qed.

End Sorting.

(* ------------------------------------------------------------------ *)
(** ** Metrics.GetStats *)
(* ------------------------------------------------------------------ *)

Section Snapshot.
Import Go collector.

Lemma insert_float64_length (x : float64) (s : list float64) :
  length (insert_float64 x s) = S (length s).
Proof.
  induction s as [| y s IH]; simpl; [reflexivity |].
  destruct (less_float64 y x || negb (less_float64 x y)); simpl; congruence.
Qed.

Lemma Float64s_length (s : list float64) : length (Float64s s) = length s.
Proof.
  unfold Float64s. rewrite <- (length_reverse s).
  induction (reverse s) as [| x t IH]; simpl; [reflexivity |].
  rewrite insert_float64_length. congruence.
Qed.

(** [copy] into a fresh array of the same length yields the source. *)
Lemma copy_fresh (s : list float64) :
  exists fresh, make_float64s (len s) = Some fresh /\ copy fresh s = s.
Proof.
  unfold make_float64s, len.
  destruct (Z.of_nat (length s) <? 0) eqn:Hneg; [apply Z.ltb_lt in Hneg; lia |].
  eexists. split; [reflexivity |].
  unfold copy. rewrite length_replicate, Nat2Z.id.
  rewrite firstn_all, drop_replicate, Nat.sub_diag. apply app_nil_r.
Qed.

(** [GetStats] hands its receiver back untouched. *)
Lemma GetStats_receiver (m m' : Metrics.t) (s : Stats.t) :
  Metrics.GetStats m = Some (s, m') -> m' = m.
Proof.
  unfold Metrics.GetStats.
  destruct (Metrics.Count m =? 0); [congruence |].
  destruct (sub64 (Metrics.Count m) (Metrics.ErrorCount m) =? 0); [congruence |].
  destruct (make_float64s (len (Metrics.Latencies m))) as [fresh |]; simpl; [| discriminate].
  destruct (percentile _ 50); simpl; [| discriminate].
  destruct (percentile _ 95); simpl; [| discriminate].
  destruct (percentile _ 99); simpl; [| discriminate].
  congruence.
Qed.

(** [GetStats] returns on every state whose sample is within [sample_limit]. *)
Lemma GetStats_returns (m : Metrics.t) :
  len (Metrics.Latencies m) <= sample_limit ->
  exists s, Metrics.GetStats m = Some (s, m).
Proof.
  intros Hsmall. unfold Metrics.GetStats.
  destruct (Metrics.Count m =? 0); [eauto |].
  destruct (sub64 (Metrics.Count m) (Metrics.ErrorCount m) =? 0); [eauto |].
  destruct (copy_fresh (Metrics.Latencies m)) as (fresh & Hmake & Hcopy).
  rewrite Hmake. cbn [mbind option_bind]. rewrite Hcopy.
  set (sorted := Float64s (Metrics.Latencies m)).
  assert (Hlen : len sorted = len (Metrics.Latencies m)).
  { unfold len, sorted. rewrite Float64s_length. reflexivity. }
  destruct (decide (len sorted = 0)) as [Hempty | Hsome].
  - unfold percentile. rewrite Hempty. simpl. eauto.
  - destruct (percentiles_return sorted) as (p50 & p95 & p99 & -> & -> & ->).
    { unfold len in *. lia. }
    simpl. eauto.
Qed.

(** The percentiles of a snapshot are the interpolated ranks of the
    sorted sample. *)
Lemma GetStats_percentiles (m : Metrics.t) (s : Stats.t) :
  Metrics.GetStats m = Some (s, m) ->
  Metrics.Count m <> 0 -> sub64 (Metrics.Count m) (Metrics.ErrorCount m) <> 0 ->
  Metrics.Latencies m <> [] -> len (Metrics.Latencies m) <= max_int64 ->
  interpolated_at_rank (Float64s (Metrics.Latencies m)) 50 = Some (Stats.P50Latency s)
  /\ interpolated_at_rank (Float64s (Metrics.Latencies m)) 95 = Some (Stats.P95Latency s)
  /\ interpolated_at_rank (Float64s (Metrics.Latencies m)) 99 = Some (Stats.P99Latency s).
Proof.
  intros Hs Hcount Hsucc Hsome Hfit. unfold Metrics.GetStats in Hs.
  destruct (Metrics.Count m =? 0) eqn:Hz; [apply Z.eqb_eq in Hz; contradiction |].
  destruct (sub64 (Metrics.Count m) (Metrics.ErrorCount m) =? 0) eqn:Hz';
    [apply Z.eqb_eq in Hz'; contradiction |].
  destruct (copy_fresh (Metrics.Latencies m)) as (fresh & Hmake & Hcopy).
  rewrite Hmake in Hs. cbn [mbind option_bind] in Hs. rewrite Hcopy in Hs.
  set (sorted := Float64s (Metrics.Latencies m)) in *.
  assert (Hne : sorted <> []).
  { intros Hnil. apply (f_equal (@length float64)) in Hnil.
    unfold sorted in Hnil. rewrite Float64s_length in Hnil.
    destruct (Metrics.Latencies m); [congruence | discriminate]. }
  assert (Hlen : len sorted <= max_int64).
  { unfold len, sorted in *. rewrite Float64s_length. exact Hfit. }
  rewrite <- !(percentile_is_interpolated sorted) by assumption.
  destruct (percentile sorted 50); simpl in Hs; [| discriminate].
  destruct (percentile sorted 95); simpl in Hs; [| discriminate].
  destruct (percentile sorted 99); simpl in Hs; [| discriminate].
  injection Hs as <-. simpl. auto.
Qed.

(** C9.  A snapshot does not change the metrics it reads, and a second
    snapshot taken right after the first returns the same statistics.
    [GetStats] returns on every state whose sample holds at most
    [sample_limit] latencies. *)
Theorem GetStats_idempotent (m : Metrics.t) :
  (forall s m', Metrics.GetStats m = Some (s, m') ->
     m' = m /\ Metrics.GetStats m' = Some (s, m')
     /\ Metrics.GetStats_twice m = Some (s, s, m))
  /\ (len (Metrics.Latencies m) <= sample_limit ->
      exists s, Metrics.GetStats m = Some (s, m)
                /\ Metrics.GetStats_twice m = Some (s, s, m)).
Proof.
  assert (Htwice : forall s, Metrics.GetStats m = Some (s, m) ->
                             Metrics.GetStats_twice m = Some (s, s, m)).
  { intros s Hs. unfold Metrics.GetStats_twice. rewrite Hs. simpl.
    rewrite Hs. reflexivity. }
  split.
  - intros s m' Hs. pose proof (GetStats_receiver m m' s Hs) as ->. auto.
  - intros Hsmall. destruct (GetStats_returns m Hsmall) as [s Hs]. eauto.
Qed.

Lemma GetStats_idempotent_witness :
  exists s,
    Metrics.GetStats sample_metrics = Some (s, sample_metrics)
    /\ Metrics.GetStats_twice sample_metrics = Some (s, s, sample_metrics).
Proof.
  destruct (proj2 (GetStats_idempotent sample_metrics)) as (s & Hs & _).
  - vm_compute. discriminate.
  - exists s. split; [exact Hs |].
    exact (proj2 (proj2 (proj1 (GetStats_idempotent sample_metrics) s sample_metrics Hs))).
Defined.

End Snapshot.

(* ------------------------------------------------------------------ *)
(** ** Collector.GetAggregatedStats *)
(* ------------------------------------------------------------------ *)

Section Aggregate.
Import Go collector.

(** The aggregate path up to the percentiles: what it returns once the
    total count is not zero. *)
Lemma GetAggregatedStats_fields (c : Collector.t) (order : list string) (s : Stats.t) :
  Collector.totalCount (Collector.collect_all c order) <> 0 ->
  Collector.GetAggregatedStats c order = Some s ->
  Stats.Method s = "AGGREGATED"%string
  /\ Stats.Count s = Collector.totalCount (Collector.collect_all c order)
  /\ Stats.ErrorCount s = Collector.totalErrorCount (Collector.collect_all c order)
  /\ Stats.AvgLatency s =
       (Collector.totalLatency (Collector.collect_all c order)
        / float64_of_int
            (sub64 (Collector.totalCount (Collector.collect_all c order))
               (Collector.totalErrorCount (Collector.collect_all c order))))%float.
Proof.
  intros Hcount. unfold Collector.GetAggregatedStats.
  set (acc := Collector.collect_all c order) in *.
  destruct (Collector.totalCount acc =? 0) eqn:Hz; [apply Z.eqb_eq in Hz; contradiction |].
  destruct (if 0 <? len (Collector.allLatencies acc) then _ else _)
    as [[[[[mn mx] p50] p95] p99] |]; simpl; [| discriminate].
  intros [= <-]. simpl. auto.
Qed.

(** With no latency retained the aggregate path returns. *)
Lemma GetAggregatedStats_returns_empty (c : Collector.t) (order : list string) :
  Collector.allLatencies (Collector.collect_all c order) = [] ->
  exists s, Collector.GetAggregatedStats c order = Some s.
Proof.
  intros Hnone. unfold Collector.GetAggregatedStats. rewrite Hnone.
  destruct (Collector.totalCount _ =? 0); simpl; eauto.
Qed.

(** C10.  In a collector state with a positive total count and a success
    count of zero, [GetAggregatedStats] takes no early exit: its average
    latency is the latency sum divided by [float64(0)], which is NaN for
    the zero sum such a state holds, while the per-kind [GetStats] in the
    same situation returns the zero statistics with an error rate of 100. *)
Theorem GetAggregatedStats_divides_by_zero
    (c : Collector.t) (order : list string) (m : Metrics.t) :
  0 < Collector.totalCount (Collector.collect_all c order) ->
  sub64 (Collector.totalCount (Collector.collect_all c order))
        (Collector.totalErrorCount (Collector.collect_all c order)) = 0 ->
  Metrics.Count m <> 0 ->
  sub64 (Metrics.Count m) (Metrics.ErrorCount m) = 0 ->
  (forall s, Collector.GetAggregatedStats c order = Some s ->
     Stats.AvgLatency s =
       (Collector.totalLatency (Collector.collect_all c order)
        / float64_of_int 0)%float
     /\ (Collector.totalLatency (Collector.collect_all c order) = PrimFloat.zero ->
         Stats.AvgLatency s = PrimFloat.nan))
  /\ (Collector.allLatencies (Collector.collect_all c order) = [] ->
      exists s, Collector.GetAggregatedStats c order = Some s)
  /\ Metrics.GetStats m = Some (all_failed_stats m, m).
Proof.
  intros Hcount Hnone Hm Hmnone. split; [| split].
  - intros s Hs.
    destruct (GetAggregatedStats_fields c order s) as (_ & _ & _ & Havg);
      [lia | exact Hs |].
    rewrite Hnone in Havg. split; [exact Havg |].
    intros Hzero. rewrite Havg, Hzero. reflexivity.
  - apply GetAggregatedStats_returns_empty.
  - unfold Metrics.GetStats.
    destruct (Metrics.Count m =? 0) eqn:Hz; [apply Z.eqb_eq in Hz; contradiction |].
    rewrite Hmnone. reflexivity.
Qed.

Lemma GetAggregatedStats_divides_by_zero_witness :
  processResults fresh_collector [refused "Get" 3; refused "Put" 1]%float
    = Some all_failed_collector
  /\ (exists s,
        Collector.GetAggregatedStats all_failed_collector ["Get"; "Put"]%string = Some s
        /\ Stats.AvgLatency s = PrimFloat.nan)
  /\ Metrics.GetStats (failed_only "Get" 1)
     = Some (all_failed_stats (failed_only "Get" 1), failed_only "Get" 1).
Proof.
  split; [vm_compute; reflexivity |].
  destruct (GetAggregatedStats_divides_by_zero all_failed_collector
              ["Get"; "Put"]%string (failed_only "Get" 1))
    as (Havg & Hret & Hkind).
  - vm_compute. reflexivity.
  - vm_compute. reflexivity.
  - vm_compute. discriminate.
  - vm_compute. reflexivity.
  - split; [| exact Hkind].
    destruct Hret as [s Hs]; [vm_compute; reflexivity |].
    exists s. split; [exact Hs |].
    apply (Havg s Hs). vm_compute. reflexivity.
Defined.

End Aggregate.

(* ------------------------------------------------------------------ *)
(** ** kvclient.NewConnectionPool *)
(* ------------------------------------------------------------------ *)

Section Pool.
Import Go kvclient.

Lemma clients_at_length (base n i : nat) :
  (i <= n)%nat -> length (clients_at base n i) = n.
Proof.
  intros Hi. unfold clients_at.
  rewrite length_app, length_map, length_seq, length_replicate. lia.
Qed.

Lemma clients_at_lookup (base n i j : nat) :
  (j < i)%nat -> clients_at base n i !! j = Some (made base j).
Proof.
  intros Hj. unfold clients_at.
  rewrite lookup_app_l by (rewrite length_map, length_seq; lia).
  rewrite list_lookup_fmap, lookup_seq_lt by lia. reflexivity.
Qed.

Lemma clients_at_next (base n i : nat) :
  (i < n)%nat ->
  <[i := made base i]> (clients_at base n i) = clients_at base n (S i).
Proof.
  intros Hi. unfold clients_at.
  rewrite insert_app_r_alt by (rewrite length_map, length_seq; lia).
  rewrite length_map, length_seq, Nat.sub_diag.
  replace (n - i)%nat with (S (n - S i)) by lia.
  rewrite seq_S, map_app, <- app_assoc. reflexivity.
Qed.

Lemma replicate_snoc {A : Type} (x : A) (j : nat) (rest : list A) :
  replicate j x ++ x :: rest = replicate (S j) x ++ rest.
Proof. induction j as [| j IH]; simpl; [reflexivity | rewrite IH; reflexivity]. Qed.

(** Closing the [j]-th connection made, the earlier ones being closed. *)
Lemma Close_next (old : list bool) (d j more : nat) :
  Client.Close {| Client.conn := Some (length old + j)%nat |}
    {| dials := d;
       conns := old ++ replicate j false ++ true :: replicate more true |}
  = (None,
     {| dials := d;
        conns := old ++ replicate (S j) false ++ replicate more true |}).
Proof.
  unfold Client.Close. simpl.
  rewrite lookup_app_r by lia.
  replace (length old + j - length old)%nat with j by lia.
  rewrite lookup_app_r by (rewrite length_replicate; lia).
  rewrite length_replicate, Nat.sub_diag. simpl.
  rewrite insert_app_r_alt by lia.
  replace (length old + j - length old)%nat with j by lia.
  rewrite insert_app_r_alt by (rewrite length_replicate; lia).
  rewrite length_replicate, Nat.sub_diag. simpl.
  rewrite replicate_snoc. reflexivity.
Qed.

(** The inner loop closes every connection made so far. *)
Lemma close_created_closes (old : list bool) (d n i : nat) (todo : nat) :
  forall j : nat,
    (j + todo = i)%nat ->
    close_created (clients_at (length old) n i) todo (Z.of_nat j)
      {| dials := d; conns := old ++ replicate j false ++ replicate todo true |}
    = Some {| dials := d; conns := old ++ replicate i false |}.
Proof.
  induction todo as [| todo IH]; intros j Hj.
  - simpl. rewrite app_nil_r. replace j with i by lia. reflexivity.
  - simpl. unfold Go.index.
    destruct (Z.of_nat j <? 0) eqn:Hneg; [apply Z.ltb_lt in Hneg; lia |].
    rewrite Nat2Z.id, clients_at_lookup by lia. simpl.
    rewrite Close_next. simpl.
    replace (Z.of_nat j + 1) with (Z.of_nat (S j)) by lia.
    apply IH. lia.
Qed.

(** The outer loop, entered at index [i] with [k] more dials succeeding
    before one fails. *)
Lemma connect_fails (dial : nat -> error) (targetAddress cause : string)
    (old : list bool) (d n : nat) (k : nat) :
  forall i : nat,
    (i + k < n)%nat ->
    (forall j, (j < k)%nat -> dial (d + i + j)%nat = None) ->
    dial (d + i + k)%nat = Some cause ->
    connect dial targetAddress (n - i) (Z.of_nat i) (clients_at (length old) n i)
      {| dials := (d + i)%nat; conns := old ++ replicate i true |}
    = Some (inr (create_error targetAddress (Z.of_nat (i + k)) cause),
            {| dials := (d + i + k + 1)%nat;
               conns := old ++ replicate (i + k) false |}).
Proof.
  induction k as [| k IH]; intros i Hin Hok Hfail.
  - replace (n - i)%nat with (S (n - S i)) by lia. simpl.
    unfold NewClient. simpl.
    replace (d + i + 0)%nat with (d + i)%nat in Hfail by lia. rewrite Hfail.
    rewrite Nat2Z.id.
    pose proof (close_created_closes old (S (d + i)) n i i 0%nat) as Hclose.
    simpl in Hclose. change (Z.of_nat 0) with 0 in Hclose.
    rewrite Hclose by lia. simpl.
    replace (i + 0)%nat with i by lia.
    replace (d + i + 0 + 1)%nat with (S (d + i)) by lia.
    reflexivity.
  - replace (n - i)%nat with (S (n - S i)) by lia. simpl.
    unfold NewClient. simpl.
    pose proof (Hok 0%nat) as Hfirst.
    replace (d + i + 0)%nat with (d + i)%nat in Hfirst by lia.
    rewrite Hfirst by lia.
    destruct ((Z.of_nat i <? 0) || (len (clients_at (length old) n i) <=? Z.of_nat i))
      eqn:Hbound.
    { apply orb_true_iff in Hbound as [Hb | Hb].
      - apply Z.ltb_lt in Hb. lia.
      - apply Z.leb_le in Hb. unfold len in Hb.
        rewrite clients_at_length in Hb by lia. lia. }
    rewrite Nat2Z.id, length_app, length_replicate.
    change (Some {| Client.conn := Some (length old + i)%nat |})
      with (made (length old) i).
    rewrite clients_at_next by lia.
    replace (Z.of_nat i + 1) with (Z.of_nat (S i)) by lia.
    rewrite <- app_assoc.
    replace (replicate i true ++ [true]) with (replicate (S i) true)
      by (rewrite replicate_S_end; reflexivity).
    replace (S (d + i)) with (d + S i)%nat by lia.
    rewrite (IH (S i)).
    + replace (S i + k)%nat with (i + S k)%nat by lia.
      replace (d + S i + k + 1)%nat with (d + i + S k + 1)%nat by lia.
      reflexivity.
    + lia.
    + intros j Hj. replace (d + S i + j)%nat with (d + i + S j)%nat by lia.
      apply Hok. lia.
    + replace (d + S i + k)%nat with (d + i + S k)%nat by lia. exact Hfail.
Qed.

Lemma open_connections_closed (old : list bool) (k : nat) (d d' : nat) :
  open_connections {| dials := d; conns := old ++ replicate k false |}
  = open_connections {| dials := d'; conns := old |}.
Proof.
  unfold open_connections. simpl. rewrite List.filter_app, length_app.
  replace (List.filter (fun b : bool => b) (replicate k false)) with (@nil bool).
  - simpl. lia.
  - induction k as [| k IH]; simpl; [reflexivity | exact IH].
Qed.

(** C7.  Construction of the pool is all-or-nothing.  When the dials for
    connections [0 .. k-1] succeed and the dial for connection [k < N]
    fails, [NewConnectionPool] returns no pool but the error "failed to
    create client k: ...", and each of the [k] connections it had opened is
    closed again: the network holds as many open connections as before. *)
Theorem NewConnectionPool_all_or_nothing
    (dial : nat -> error) (targetAddress cause : string) (N k : Z)
    (net : Network) :
  0 <= k < N ->
  (forall j : nat, Z.of_nat j < k -> dial (dials net + j)%nat = None) ->
  dial (dials net + Z.to_nat k)%nat = Some cause ->
  exists net',
    NewConnectionPool dial targetAddress N net
      = Some (inr (create_error targetAddress k cause), net')
    /\ conns net' = conns net ++ replicate (Z.to_nat k) false
    /\ open_connections net' = open_connections net
    /\ dials net' = (dials net + Z.to_nat k + 1)%nat.
Proof.
  intros Hk Hok Hfail. destruct net as [d old]. simpl in *.
  pose proof (connect_fails dial targetAddress cause old d (Z.to_nat N)
                (Z.to_nat k) 0%nat) as Hrun.
  unfold clients_at in Hrun. simpl in Hrun.
  rewrite Nat.sub_0_r, Nat.add_0_r, app_nil_r, Z2Nat.id in Hrun by lia.
  change (Z.of_nat 0) with 0 in Hrun.
  eexists. split; [| split; [| split]].
  - unfold NewConnectionPool.
    destruct (N <? 0) eqn:Hneg; [apply Z.ltb_lt in Hneg; lia |].
    rewrite Hrun.
    + simpl. reflexivity.
    + lia.
    + intros j Hj. apply Hok. lia.
    + exact Hfail.
  - reflexivity.
  - apply open_connections_closed.
  - reflexivity.
Qed.

Lemma NewConnectionPool_all_or_nothing_witness :
  exists net',
    NewConnectionPool (fun i => if (i =? 2)%nat then Some "connection refused"%string else None)
      "localhost:50051" 4 {| dials := 0; conns := [] |}
      = Some (inr "failed to create client 2: failed to connect to localhost:50051: connection refused"%string,
              net')
    /\ conns net' = [false; false]
    /\ open_connections net' = 0%nat
    /\ dials net' = 3%nat.
Proof.
  apply (NewConnectionPool_all_or_nothing
           (fun i => if (i =? 2)%nat then Some "connection refused"%string else None)
           "localhost:50051" "connection refused" 4 2 {| dials := 0; conns := [] |}).
  - lia.
  - intros j Hj. simpl. destruct j as [| [| j]]; [reflexivity | reflexivity | lia].
  - reflexivity.
Defined.

End Pool.

(* ------------------------------------------------------------------ *)
(** ** The worker loop: warm-up and measurement *)
(* ------------------------------------------------------------------ *)

Section Phases.
Import Go collector kvclient config runner.

Lemma with_collector_same (r : BenchmarkRunner) : with_collector r (collector r) = r.
Proof. destruct r. reflexivity. Qed.

Lemma value_size_ok (c : BenchmarkConfig) (op : string) :
  0 <= ValueSize c ->
  (if String.eqb op "Put" && (ValueSize c <? 0) then None else Some tt) = Some tt.
Proof.
  intros Hsize. destruct (ValueSize c <? 0) eqn:Hneg.
  - apply Z.ltb_lt in Hneg. lia.
  - rewrite andb_false_r. reflexivity.
Qed.

(** A draw inside the pool picks a key. *)
Lemma GetRandomKey_in_pool (kg : KeyGenerator) (keyDraw : option Z) :
  in_pool kg keyDraw -> exists key, GetRandomKey kg keyDraw = Some key.
Proof.
  unfold in_pool, GetRandomKey. intros Hin.
  destruct (len (keys kg) <=? 0) eqn:Hempty; [apply Z.leb_le in Hempty; lia |].
  apply index_in_range. exact Hin.
Qed.

(** On an empty pool of keys every operation panics. *)
Lemma performOperation_no_keys (r : BenchmarkRunner) (client : option Client.t)
    (o : Operation) (isWarmup : bool) (workerID : Z) :
  keys (keyGen r) = [] -> performOperation r client o isWarmup workerID = None.
Proof.
  intros Hnone. unfold performOperation, GetRandomKey. rewrite Hnone.
  destruct (selectOperation (cfg r) (draw o)); reflexivity.
Qed.

(** A call on a [nil] client panics. *)
Lemma performOperation_nil_client (r : BenchmarkRunner) (o : Operation)
    (isWarmup : bool) (workerID : Z) (op : string) :
  selectOperation (cfg r) (draw o) = Some op -> calls_client op o = true ->
  performOperation r None o isWarmup workerID = None.
Proof.
  intros Hop Hcalls. unfold performOperation. rewrite Hop.
  cbn [mbind option_bind].
  destruct (GetRandomKey (keyGen r) (keyDraw o)); [| reflexivity].
  cbn [mbind option_bind].
  destruct (String.eqb op "Put" && (ValueSize (cfg r) <? 0)); [reflexivity |].
  cbn [mbind option_bind]. rewrite Hcalls. reflexivity.
Qed.

(** In warm-up [performOperation] leaves the runner, and with it the
    collector, as it found them. *)
Lemma performOperation_warmup (r : BenchmarkRunner) (client : Client.t)
    (o : Operation) (workerID : Z) :
  0 <= ValueSize (cfg r) ->
  is_Some (selectOperation (cfg r) (draw o)) ->
  in_pool (keyGen r) (keyDraw o) ->
  exists lines, performOperation r (Some client) o true workerID = Some (r, lines).
Proof.
  intros Hsize [op Hop] Hkey. unfold performOperation. rewrite Hop.
  destruct (GetRandomKey_in_pool _ _ Hkey) as [key ->].
  cbn [mbind option_bind]. rewrite (value_size_ok _ _ Hsize).
  destruct (calls_client op o); simpl; eauto.
Qed.

(** Outside warm-up the result goes to the collector's channel. *)
Lemma performOperation_measuring (r : BenchmarkRunner) (client : Client.t)
    (o : Operation) (workerID : Z) (op : string) :
  0 <= ValueSize (cfg r) ->
  selectOperation (cfg r) (draw o) = Some op ->
  in_pool (keyGen r) (keyDraw o) ->
  len (Collector.results (collector r)) < results_capacity ->
  exists r' lines,
    performOperation r (Some client) o false workerID = Some (r', lines)
    /\ Collector.results (collector r')
       = Collector.results (collector r) ++ [result op o]
    /\ Collector.metrics (collector r') = Collector.metrics (collector r).
Proof.
  intros Hsize Hop Hkey Hroom. unfold performOperation. rewrite Hop.
  destruct (GetRandomKey_in_pool _ _ Hkey) as [key ->].
  cbn [mbind option_bind]. rewrite (value_size_ok _ _ Hsize).
  assert (Hlt : (len (Collector.results (collector r)) <? results_capacity) = true)
    by (apply Z.ltb_lt; exact Hroom).
  destruct (calls_client op o); simpl; unfold Collector.AddResult; rewrite Hlt;
    (eexists; eexists; split; [reflexivity | simpl; auto]).
Qed.

Lemma run_step_idle (c : Collector.t) :
  Collector.results c = [] -> Collector.run_step c = Some c.
Proof. unfold Collector.run_step. intros ->. reflexivity. Qed.

(** The clients the starting workers are handed are clients of the pool,
    and the pool they leave is the one of [startWorkers]. *)
Lemma GetClient_of_pool (p p' : ConnectionPool.t) (client : option Client.t) :
  ConnectionPool.GetClient p = Some (client, p') ->
  client ∈ ConnectionPool.clients p
  /\ ConnectionPool.clients p' = ConnectionPool.clients p.
Proof.
  unfold ConnectionPool.GetClient, Go.index.
  destruct (ConnectionPool.index p <? 0); [discriminate |].
  destruct (ConnectionPool.clients p !! Z.to_nat (ConnectionPool.index p))
    as [c |] eqn:Hat; [| discriminate].
  cbn [mbind option_bind].
  destruct (len (ConnectionPool.clients p) =? 0); [discriminate |].
  intros [= <- <-]. split; [| reflexivity].
  eapply list_elem_of_lookup_2. exact Hat.
Qed.

Lemma acquire_startWorkers (n : nat) :
  forall p p' : ConnectionPool.t,
    startWorkers n p = Some p' ->
    exists handed,
      acquire n p = Some (handed, p')
      /\ Forall (fun client => client ∈ ConnectionPool.clients p) handed.
Proof.
  induction n as [| n IH]; intros p p' Hstart.
  - simpl in Hstart. injection Hstart as <-. exists []. split; [reflexivity | constructor].
  - cbn [startWorkers acquire] in *.
    destruct (ConnectionPool.GetClient p) as [[client p1] |] eqn:Hget;
      [| discriminate].
    cbn [mbind option_bind] in *.
    destruct (GetClient_of_pool _ _ _ Hget) as [Hin Hsame].
    destruct (IH p1 p' Hstart) as (handed & -> & Hall).
    cbn [mbind option_bind]. eexists. split; [reflexivity |].
    constructor; [exact Hin |]. rewrite Hsame in Hall. exact Hall.
Qed.

Lemma turn_warmup (deadline : Z) (handed : list (option Client.t)) (t : Turn)
    (r : BenchmarkRunner) (log : list Text) :
  Collector.results (collector r) = [] -> 0 <= ValueSize (cfg r) ->
  Forall is_Some handed ->
  drawn (cfg r) t -> picked (keyGen r) t ->
  exists log', turn deadline true handed t (r, log) = Some (r, log').
Proof.
  intros Hidle Hsize Hclients Hdrawn Hpicked.
  destruct t as [at_ workerID o | at_ order |]; simpl.
  - destruct (Go.index handed workerID) as [client |] eqn:Hat; [| eauto].
    destruct (deadline <=? at_); [eauto |].
    assert (Hclient : is_Some client).
    { unfold Go.index in Hat. destruct (workerID <? 0); [discriminate |].
      rewrite Forall_forall in Hclients. apply Hclients.
      eapply list_elem_of_lookup_2. exact Hat. }
    destruct Hclient as [c ->].
    destruct (performOperation_warmup r c o workerID Hsize Hdrawn Hpicked)
      as [lines ->].
    simpl. eauto.
  - eauto.
  - rewrite (run_step_idle _ Hidle). simpl. rewrite with_collector_same. eauto.
Qed.

Lemma turns_warmup (deadline : Z) (handed : list (option Client.t))
    (schedule : list Turn) (r : BenchmarkRunner) :
  Collector.results (collector r) = [] -> 0 <= ValueSize (cfg r) ->
  Forall is_Some handed ->
  Forall (drawn (cfg r)) schedule -> Forall (picked (keyGen r)) schedule ->
  forall log, exists log', turns deadline true handed schedule (r, log) = Some (r, log').
Proof.
  intros Hidle Hsize Hclients Hall Hkeys. revert Hkeys.
  induction Hall as [| t rest Ht _ IH]; intros Hkeys log.
  - simpl. eauto.
  - apply Forall_cons in Hkeys as [Hk Hkeys]. cbn [turns].
    destruct (turn_warmup deadline handed t r log Hidle Hsize Hclients Ht Hk)
      as [log1 ->].
    cbn [mbind option_bind]. apply IH. exact Hkeys.
Qed.

(** C8.  A warm-up phase submits nothing: whatever the workers do and
    however the turns interleave with the collector's loop, the collector
    (its per-kind metrics, its channel, its CSV rows) is after the phase
    what it was before.  Outside warm-up the same [performOperation] sends
    its result to the collector.  The phase runs on a pool without [nil]
    clients and on a pool of keys every key draw falls into; without them
    the workers panic. *)
Theorem warmup_never_submits
    (r : BenchmarkRunner) (duration entered : Z) (schedule : list Turn)
    (log : list Text) (client : Client.t) (o : Operation) (workerID : Z)
    (op : string) :
  Collector.results (collector r) = [] ->
  is_Some (startWorkers (Z.to_nat (NumWorkers (cfg r))) (pool r)) ->
  Forall is_Some (ConnectionPool.clients (pool r)) ->
  0 <= ValueSize (cfg r) ->
  Forall (drawn (cfg r)) schedule ->
  Forall (picked (keyGen r)) schedule ->
  selectOperation (cfg r) (draw o) = Some op ->
  in_pool (keyGen r) (keyDraw o) ->
  (exists r' log',
      runWorkers r duration true entered schedule log = Some (r', log')
      /\ collector r' = collector r)
  /\ (exists r' lines,
        performOperation r (Some client) o true workerID = Some (r', lines)
        /\ collector r' = collector r)
  /\ (exists r' lines,
        performOperation r (Some client) o false workerID = Some (r', lines)
        /\ Collector.results (collector r') = [result op o]).
Proof.
  intros Hidle [p Hp] Hclients Hsize Hall Hkeys Hop Hkey. split; [| split].
  - unfold runWorkers.
    destruct (acquire_startWorkers _ _ _ Hp) as (handed & -> & Hhanded).
    cbn [mbind option_bind].
    assert (Hsome : Forall is_Some handed).
    { eapply Forall_impl; [exact Hhanded |]. intros c Hc.
      rewrite Forall_forall in Hclients. apply Hclients. exact Hc. }
    destruct (turns_warmup (entered + duration) handed schedule (with_pool r p))
      with (log := log) as [log' Hrun];
      [exact Hidle | exact Hsize | exact Hsome | exact Hall | exact Hkeys |].
    exists (with_pool r p), log'. split; [exact Hrun | reflexivity].
  - destruct (performOperation_warmup r client o workerID Hsize
                (ex_intro _ op Hop) Hkey) as [lines Hrun].
    exists r, lines. split; [exact Hrun | reflexivity].
  - destruct (performOperation_measuring r client o workerID op Hsize Hop Hkey)
      as (r' & lines & Hrun & Hq & _).
    { rewrite Hidle. unfold len, results_capacity. simpl. lia. }
    exists r', lines. split; [exact Hrun |]. rewrite Hq, Hidle. reflexivity.
Qed.

Lemma warmup_never_submits_witness :
  (exists r' log',
      runWorkers sample_runner (5 * Second) true 0 warmup_sample [] = Some (r', log')
      /\ collector r' = collector sample_runner)
  /\ (exists r' lines,
        performOperation sample_runner (Some {| Client.conn := Some 0%nat |})
          (get Second 1500000) true 0 = Some (r', lines)
        /\ collector r' = collector sample_runner)
  /\ (exists r' lines,
        performOperation sample_runner (Some {| Client.conn := Some 0%nat |})
          (get Second 1500000) false 0 = Some (r', lines)
        /\ Collector.results (collector r') = [result "Get" (get Second 1500000)]).
Proof.
  apply (warmup_never_submits sample_runner (5 * Second) 0 warmup_sample []
           {| Client.conn := Some 0%nat |} (get Second 1500000) 0 "Get").
  - reflexivity.
  - vm_compute. eexists. reflexivity.
  - repeat constructor; eexists; reflexivity.
  - vm_compute. discriminate.
  - repeat constructor; vm_compute; eexists; reflexivity.
  - unfold warmup_sample.
    repeat (apply List.Forall_cons;
            [vm_compute; first [exact I | split; [discriminate | reflexivity]] |]).
    apply List.Forall_nil.
  - vm_compute. reflexivity.
  - vm_compute. split; [discriminate | reflexivity].
Defined.

End Phases.

(* ------------------------------------------------------------------ *)
(** ** What the runner measures and reports *)
(* ------------------------------------------------------------------ *)

Section Reporting.
Import Go collector kvclient config runner.

(** [sample_runner] is the runner [NewBenchmarkRunner] makes at clock 0. *)
Example NewBenchmarkRunner_sample :
  NewBenchmarkRunner sample_config (fun _ => None) None sample_entropy 0 0
    {| dials := 0; conns := [] |}
  = Some (inl sample_runner,
          {| dials := 8; conns := replicate 8 true |}).
Proof. vm_compute. reflexivity. Qed.

(** [startTime] is the clock at construction, whatever happens later. *)
Lemma NewBenchmarkRunner_startTime (c : BenchmarkConfig) (dial : nat -> error)
    (created : error) (e : Entropy) (call : nat) (now : Z)
    (net net' : Network) (r : BenchmarkRunner) :
  NewBenchmarkRunner c dial created e call now net = Some (inl r, net') ->
  startTime r = now.
Proof.
  unfold NewBenchmarkRunner.
  destruct (NewConnectionPool dial (TargetAddress c) (NumConnections c) net)
    as [[[p | err] net1] |]; simpl; try discriminate.
  destruct (Collector.NewCollector (OutputCSV c) created) as [col | err].
  - destruct (NewKeyGenerator e call (KeySpace c)) as [[kg | err] |]; simpl;
      [| | discriminate].
    + intros [= <- _]. reflexivity.
    + destruct (ConnectionPool.Close p net1) as [[e' n] |]; simpl; discriminate.
  - destruct (ConnectionPool.Close p net1) as [[e' n] |]; simpl; discriminate.
Qed.

(** C2, evaluated.  The latency a result carries is a whole number of
    milliseconds: the elapsed time goes through [Duration.Milliseconds],
    an integer, before it becomes a [float64].  An operation that takes
    1.5 ms is recorded with 1 ms, one that takes 0.7 ms with 0 ms. *)
Theorem performOperation_latency_whole_ms :
  (forall op o,
     BenchmarkResult.LatencyMs (result op o)
     = float64_of_int (Z.quot (Since (finish o) (start o)) 1000000))
  /\ Since (finish (get Second 1500000)) (start (get Second 1500000)) = 1500000
  /\ (float64_of_int 1500000 / 1e6)%float = 1.5%float
  /\ BenchmarkResult.LatencyMs (result "Get" (get Second 1500000)) = 1%float
  /\ BenchmarkResult.LatencyMs (result "Get" (get Second 700000)) = 0%float
  /\ (exists r' lines,
        performOperation sample_runner (Some {| Client.conn := Some 0%nat |})
          (get Second 1500000) false 0 = Some (r', lines)
        /\ List.map BenchmarkResult.LatencyMs (Collector.results (collector r'))
           = [1%float]).
Proof.
  split; [intros op o; reflexivity |].
  repeat split; try (vm_compute; reflexivity).
  eexists. eexists. split; vm_compute; reflexivity.
Qed.

(** The RPS of a progress line is the count over the seconds since the
    runner was constructed. *)
Lemma printProgress_RPS (r : BenchmarkRunner) (now : Z) (order : list string)
    (stats : Stats.t) :
  Collector.GetAggregatedStats (collector r) order = Some stats ->
  Stats.Count stats <> 0 ->
  exists line args,
    printProgress r now order = Some [Sprintf line args]
    /\ args !! 2%nat
       = Some (VFloat (float64_of_int (Stats.Count stats)
                       / Seconds (Since now (startTime r)))%float).
Proof.
  intros Hstats Hcount. unfold printProgress. rewrite Hstats. simpl.
  destruct (Stats.Count stats =? 0) eqn:Hz; [apply Z.eqb_eq in Hz; contradiction |].
  eexists. eexists. split; reflexivity.
Qed.

(** C3, evaluated.  The runner is constructed at clock 0, warms up for
    5 s, and enters measurement at 5 s.  Ten operations are measured by the
    first report at 10 s: over the 5 s of measurement that is 2 per second,
    and the progress line says 1, the count over the 10 s since
    construction. *)
Theorem printProgress_RPS_since_construction :
  (exists r',
      runWorkers sample_runner (30 * Second) false (5 * Second) measuring_sample []
      = Some (r',
              [Sprintf
                 "[%s] Total: %d | RPS: %.0f | Avg: %.1fms | P50: %.1fms | P95: %.1fms | P99: %.1fms | Errors: %d (%.1f%%)"
                 [VTime "15:04:05" (10 * Second); VInt 10; VFloat 1; VFloat 1;
                  VFloat 1; VFloat 1; VFloat 1; VInt 0; VFloat 0]]))
  /\ (float64_of_int 10 / Seconds (Since (10 * Second) (5 * Second)))%float = 2%float
  /\ (float64_of_int 10 / Seconds (Since (10 * Second) (startTime sample_runner)))%float
     = 1%float.
Proof.
  split; [eexists; vm_compute; reflexivity |].
  split; vm_compute; reflexivity.
Qed.

End Reporting.

(* ------------------------------------------------------------------ *)
(** ** Collector.Stop and the aggregated CSV *)
(* ------------------------------------------------------------------ *)

Section Finalize.
Import Go collector.

Lemma GetStats_counted (m : Metrics.t) (s : Stats.t) :
  Metrics.GetStats m = Some (s, m) -> Metrics.Count m <> 0 ->
  Stats.Count s = Metrics.Count m /\ Stats.Method s = Metrics.Method m
  /\ Stats.ErrorCount s = Metrics.ErrorCount m.
Proof.
  unfold Metrics.GetStats. intros Hs Hcount.
  destruct (Metrics.Count m =? 0) eqn:Hz; [apply Z.eqb_eq in Hz; contradiction |].
  destruct (sub64 (Metrics.Count m) (Metrics.ErrorCount m) =? 0).
  - injection Hs as <-. simpl. auto.
  - destruct (make_float64s (len (Metrics.Latencies m))) as [fresh |]; simpl in Hs; [| discriminate].
    destruct (percentile _ 50); simpl in Hs; [| discriminate].
    destruct (percentile _ 95); simpl in Hs; [| discriminate].
    destruct (percentile _ 99); simpl in Hs; [| discriminate].
    injection Hs as <-. simpl. auto.
Qed.

(** The body of the loop writes the record of its kind. *)
Lemma write_method_record_writes (StartTime : Metrics.t -> Z) (timestamp : Text)
    (now : Z) (rows : list (list Text)) (m : Metrics.t) :
  Metrics.Count m <> 0 -> len (Metrics.Latencies m) <= sample_limit ->
  exists stats,
    Metrics.GetStats m = Some (stats, m)
    /\ Collector.write_method_record StartTime timestamp now rows m
       = Some (rows ++ [method_record StartTime timestamp now m stats]).
Proof.
  intros Hcount Hsmall.
  destruct (GetStats_returns m Hsmall) as [stats Hs].
  destruct (GetStats_counted m stats Hs Hcount) as (Hc & Hm & He).
  exists stats. split; [exact Hs |].
  unfold Collector.write_method_record. rewrite Hs. cbn [mbind option_bind].
  rewrite Hc.
  destruct (Metrics.Count m =? 0) eqn:Hz; [apply Z.eqb_eq in Hz; contradiction |].
  unfold method_record, rate. rewrite Hm, He. reflexivity.
Qed.

Lemma write_method_records_write (StartTime : Metrics.t -> Z) (timestamp : Text)
    (now : Z) (ms : list Metrics.t) :
  Forall (fun m => Metrics.Count m <> 0
                   /\ len (Metrics.Latencies m) <= sample_limit) ms ->
  forall rows, exists records,
    Collector.write_method_records StartTime timestamp now rows ms = Some (rows ++ records)
    /\ Forall2 (fun m record =>
                  exists stats, Metrics.GetStats m = Some (stats, m)
                    /\ record = method_record StartTime timestamp now m stats)
         ms records.
Proof.
  induction 1 as [| m ms [Hcount Hsmall] _ IH]; intros rows.
  - exists []. simpl. rewrite app_nil_r. split; [reflexivity | constructor].
  - destruct (write_method_record_writes StartTime timestamp now rows m Hcount Hsmall)
      as (stats & Hs & Hw).
    destruct (IH (rows ++ [method_record StartTime timestamp now m stats]))
      as (records & Hrest & Hall).
    exists (method_record StartTime timestamp now m stats :: records).
    cbn [Collector.write_method_records]. rewrite Hw. cbn [mbind option_bind].
    rewrite Hrest, <- app_assoc. split; [reflexivity |].
    constructor; [eauto | exact Hall].
Qed.

(** The aggregate path returns on merged samples within [sample_limit]. *)
Lemma GetAggregatedStats_returns (c : Collector.t) (order : list string) :
  len (Collector.allLatencies (Collector.collect_all c order)) <= sample_limit ->
  exists s, Collector.GetAggregatedStats c order = Some s.
Proof.
  intros Hsmall. unfold Collector.GetAggregatedStats.
  set (acc := Collector.collect_all c order) in *.
  destruct (Collector.totalCount acc =? 0); [eauto |].
  destruct (0 <? len (Collector.allLatencies acc)) eqn:Hany.
  - apply Z.ltb_lt in Hany.
    set (sorted := Float64s (Collector.allLatencies acc)).
    assert (Hlen : len sorted = len (Collector.allLatencies acc)).
    { unfold len, sorted. rewrite Float64s_length. reflexivity. }
    destruct (index_in_range sorted 0) as [mn ->]; [lia |].
    destruct (index_in_range sorted (len sorted - 1)) as [mx ->]; [lia |].
    destruct (percentiles_return sorted) as (p50 & p95 & p99 & -> & -> & ->); [lia |].
    simpl. eauto.
  - simpl. eauto.
Qed.

(** A [range] in an iteration order of the map visits every kind once. *)
Lemma range_visits (c : Collector.t) (order : list string) :
  Collector.iteration_order c order ->
  length (Collector.range c order) = size (Collector.metrics c)
  /\ Forall (fun m => exists method, Collector.metrics c !! method = Some m)
       (Collector.range c order).
Proof.
  unfold Collector.iteration_order, Collector.range. intros Hperm. split.
  - rewrite <- length_map_to_list.
    rewrite <- (length_fmap fst (map_to_list (Collector.metrics c))).
    rewrite <- (Permutation_length Hperm).
    assert (Hin : Forall (fun k => is_Some (Collector.metrics c !! k)) order).
    { apply Forall_forall. intros k Hk. rewrite Hperm in Hk.
      apply list_elem_of_fmap in Hk as [[k' m] [-> Hkm]].
      apply elem_of_map_to_list in Hkm. simpl. eauto. }
    clear Hperm.
    induction Hin as [| k rest [m Hm] _ IH]; [reflexivity |].
    cbn [omap list_omap]. rewrite Hm. cbn [length fmap list_fmap].
    f_equal. exact IH.
  - apply Forall_forall. intros m Hm.
    apply list_elem_of_omap in Hm as (k & _ & Hk). eauto.
Qed.

Lemma Stop_marks_done (StartTime : Metrics.t -> Z) (c c' : Collector.t)
    (now : Z) (order order' : list string) :
  Collector.Stop StartTime c now order order' = Some c' -> Collector.done c' = true.
Proof.
  unfold Collector.Stop. destruct (Collector.done c); [discriminate |].
  unfold Collector.WriteAggregatedMetricsToCSV. simpl.
  destruct (Collector.csvWriter c) as [rows |]; simpl.
  - destruct (Collector.write_method_records _ _ _ _ _) as [rows' |]; simpl; [| discriminate].
    destruct (Collector.GetAggregatedStats _ _) as [agg |]; simpl; [| discriminate].
    intros [= <-]. reflexivity.
  - intros [= <-]. reflexivity.
Qed.

(** C4, as the code has it.  One [Collector.Stop] on a collector with a CSV file
    appends one record per kind of the map, in the order the map is
    iterated, each with the rate of its successes since its start time as
    throughput, and then one "AGGREGATED" record if the total count is
    positive and none if nothing was ingested.  A collector is stopped
    once: a second [Collector.Stop] panics. *)
Theorem Stop_writes_records
    (StartTime : Metrics.t -> Z) (c : Collector.t) (now : Z)
    (order order' : list string) (rows : list (list Text)) :
  Collector.csvWriter c = Some rows ->
  Collector.done c = false ->
  Collector.iteration_order c order ->
  (forall method m, Collector.metrics c !! method = Some m ->
     Metrics.Count m <> 0 /\ len (Metrics.Latencies m) <= sample_limit) ->
  len (Collector.allLatencies (Collector.collect_all c order')) <= sample_limit ->
  exists c' aggregated records,
    Collector.Stop StartTime c now order order' = Some c'
    /\ Collector.Stop StartTime c' now order order' = None
    /\ Collector.GetAggregatedStats c order' = Some aggregated
    /\ length records = size (Collector.metrics c)
    /\ Forall2 (fun m record =>
                  exists stats, Metrics.GetStats m = Some (stats, m)
                    /\ record = method_record StartTime
                                  (TimeFormat RFC3339Nano now) now m stats)
         (Collector.range c order) records
    /\ ((Stats.Count aggregated <= 0
         /\ Collector.csvWriter c' = Some (rows ++ records))
        \/ (0 < Stats.Count aggregated
            /\ exists throughput,
                 Collector.csvWriter c'
                 = Some (rows ++ records
                         ++ [csv_record (TimeFormat RFC3339Nano now)
                               (Lit "AGGREGATED") aggregated throughput]))).
Proof.
  intros Hcsv Hdone Horder Hkinds Hsmall.
  destruct (range_visits c order Horder) as [Hlen Hvisited].
  destruct (write_method_records_write StartTime (TimeFormat RFC3339Nano now) now
              (Collector.range c order)) with (rows := rows)
    as (records & Hwrite & Hall).
  { eapply Forall_impl; [exact Hvisited |].
    intros m [method Hm]. exact (Hkinds method m Hm). }
  destruct (GetAggregatedStats_returns c order' Hsmall) as [aggregated Hagg].
  assert (Hrecs : length records = size (Collector.metrics c)).
  { rewrite <- Hlen. symmetry. exact (Forall2_length _ _ _ Hall). }
  assert (Hstop : exists c',
             Collector.Stop StartTime c now order order' = Some c'
             /\ Collector.csvWriter c'
                = Some (if 0 <? Stats.Count aggregated
                        then (rows ++ records)
                             ++ [csv_record (TimeFormat RFC3339Nano now)
                                   (Lit "AGGREGATED") aggregated
                                   (float64_of_int
                                      (sub64 (Stats.Count aggregated)
                                         (Stats.ErrorCount aggregated)))]
                        else rows ++ records)).
  { unfold Collector.Stop. rewrite Hdone. unfold Collector.WriteAggregatedMetricsToCSV.
    cbn [Collector.csvWriter]. rewrite Hcsv.
    change (Collector.range {| Collector.metrics := Collector.metrics c;
                               Collector.results := Collector.results c;
                               Collector.done := true;
                               Collector.csvWriter := Some rows;
                               Collector.csvClosed := Collector.csvClosed c |} order)
      with (Collector.range c order).
    rewrite Hwrite. cbn [mbind option_bind].
    change (Collector.GetAggregatedStats
              {| Collector.metrics := Collector.metrics c;
                 Collector.results := Collector.results c;
                 Collector.done := true;
                 Collector.csvWriter := Some rows;
                 Collector.csvClosed := Collector.csvClosed c |} order')
      with (Collector.GetAggregatedStats c order').
    rewrite Hagg. cbn [mbind option_bind].
    eexists. split; [reflexivity |]. reflexivity. }
  destruct Hstop as (c' & Hstop & Hrows).
  exists c', aggregated, records.
  split; [exact Hstop |]. split.
  { unfold Collector.Stop. rewrite (Stop_marks_done _ _ _ _ _ _ Hstop). reflexivity. }
  split; [exact Hagg |]. split; [exact Hrecs |]. split; [exact Hall |].
  destruct (0 <? Stats.Count aggregated) eqn:Hpos.
  - right. apply Z.ltb_lt in Hpos. split; [exact Hpos |].
    eexists. rewrite Hrows, <- app_assoc. reflexivity.
  - left. apply Z.ltb_ge in Hpos. auto.
Qed.

Lemma Stop_writes_records_witness :
  exists c' aggregated records,
    Collector.Stop (fun _ => 0) two_kinds_collector (2 * Second)
      ["Get"; "Put"]%string ["Put"; "Get"]%string = Some c'
    /\ Collector.Stop (fun _ => 0) c' (2 * Second) ["Get"; "Put"]%string ["Put"; "Get"]%string
       = None
    /\ Collector.GetAggregatedStats two_kinds_collector ["Put"; "Get"]%string
       = Some aggregated
    /\ length records = size (Collector.metrics two_kinds_collector)
    /\ Forall2 (fun m record =>
                  exists stats, Metrics.GetStats m = Some (stats, m)
                    /\ record = method_record (fun _ => 0)
                                  (TimeFormat RFC3339Nano (2 * Second))
                                  (2 * Second) m stats)
         (Collector.range two_kinds_collector ["Get"; "Put"]%string) records
    /\ ((Stats.Count aggregated <= 0
         /\ Collector.csvWriter c' = Some ([csv_header] ++ records))
        \/ (0 < Stats.Count aggregated
            /\ exists throughput,
                 Collector.csvWriter c'
                 = Some ([csv_header] ++ records
                         ++ [csv_record (TimeFormat RFC3339Nano (2 * Second))
                               (Lit "AGGREGATED") aggregated throughput]))).
Proof.
  apply (Stop_writes_records (fun _ => 0) two_kinds_collector (2 * Second)
           ["Get"; "Put"]%string ["Put"; "Get"]%string [csv_header]).
  - reflexivity.
  - reflexivity.
  - unfold Collector.iteration_order. vm_compute. reflexivity.
  - intros method m Hm. unfold two_kinds_collector in Hm. simpl in Hm.
    apply lookup_insert_Some in Hm as [[_ <-] | [_ Hm]].
    + split; [discriminate | vm_compute; discriminate].
    + apply lookup_insert_Some in Hm as [[_ <-] | [_ Hm]].
      * split; [discriminate | vm_compute; discriminate].
      * rewrite lookup_empty in Hm. discriminate.
  - vm_compute. discriminate.
Defined.

(** [csv_collector] and [two_kinds_collector] are states of the program. *)
Example NewCollector_csv :
  Collector.NewCollector "results.csv" None = inl csv_collector.
Proof. reflexivity. Qed.

Example two_kinds_ingested :
  processResults csv_collector [succeeded "Get" 3; succeeded "Put" 1]%float
  = Some two_kinds_collector.
Proof. vm_compute. reflexivity. Qed.

(** C4 as stated fails where nothing was ingested: the finalize writes no
    record at all, the "AGGREGATED" one included. *)
Lemma Stop_nothing_ingested_no_record :
  exists c',
    Collector.Stop (fun _ => 0) csv_collector (2 * Second) [] [] = Some c'
    /\ Collector.csvWriter c' = Some [csv_header]
    /\ data_records c' = []
    /\ ~ one_record_per_kind_plus_one csv_collector c'.
Proof.
  eexists. split; [vm_compute; reflexivity |].
  split; [reflexivity |]. split; [reflexivity |].
  unfold one_record_per_kind_plus_one. vm_compute. discriminate.
Qed.

(** The throughput of the "AGGREGATED" record, evaluated: two successes
    in the 2 s since the start give it 2, the count of successes, where
    the records of the two kinds hold 0.5, one success over 2 s. *)
Example Stop_aggregated_throughput :
  exists c',
    Collector.Stop (fun _ => 0) two_kinds_collector (2 * Second)
      ["Get"; "Put"]%string ["Get"; "Put"]%string = Some c'
    /\ List.map throughput_field (data_records c')
       = [Some (Sprintf "%.0f" [VFloat 0.5]);
          Some (Sprintf "%.0f" [VFloat 0.5]);
          Some (Sprintf "%.0f" [VFloat 2])]
    /\ rate 2 (Seconds (Since (2 * Second) 0)) = 1%float.
Proof.
  eexists. split; [vm_compute; reflexivity |].
  split; vm_compute; reflexivity.
Qed.

End Finalize.

(* ------------------------------------------------------------------ *)
(** ** More on the per-kind metrics *)
(* ------------------------------------------------------------------ *)

Section MetricsMore.
Import Go collector.

Lemma most_recent_bound {A : Type} (n : Z) (s : list A) :
  0 <= n -> len (most_recent n s) <= n.
Proof. unfold most_recent, len. intros Hn. rewrite length_drop. lia. Qed.

(** The sample never outgrows its capacity: a state within its capacity
    stays within it under any run of [AddResult], which does not panic. *)
Theorem AddResults_sample_bounded (m0 : Metrics.t) (rs : list BenchmarkResult.t) :
  0 <= Metrics.maxLatencies m0 ->
  len (Metrics.Latencies m0) <= Metrics.maxLatencies m0 ->
  exists m, Metrics.AddResults m0 rs = Some m
    /\ Metrics.maxLatencies m = Metrics.maxLatencies m0
    /\ len (Metrics.Latencies m) <= Metrics.maxLatencies m0.
Proof.
  intros Hcap Hin.
  destruct (AddResults_sample rs m0 Hcap) as (m & Hrun & Hmax & Hs).
  exists m. split; [exact Hrun |]. split; [exact Hmax |].
  rewrite Hs. destruct (success_latencies rs); [exact Hin |].
  apply most_recent_bound. exact Hcap.
Qed.

Lemma AddResults_sample_bounded_witness :
  exists m,
    Metrics.AddResults (Metrics.SetMaxLatencies (Metrics.NewMetrics "Get") 1)
      [succeeded "Get" 1; succeeded "Get" 2]%float = Some m
    /\ Metrics.maxLatencies m = 1
    /\ len (Metrics.Latencies m) <= 1.
Proof.
  apply (AddResults_sample_bounded
           (Metrics.SetMaxLatencies (Metrics.NewMetrics "Get") 1)
           [succeeded "Get" 1; succeeded "Get" 2]%float).
  - simpl. lia.
  - vm_compute. discriminate.
Defined.

(** A capacity below zero: the first successful result panics in the
    eviction step, while failed results are still counted. *)
Theorem AddResult_negative_capacity (m : Metrics.t) (max : Z) (r : BenchmarkResult.t) :
  max < 0 ->
  (failed r = false -> Metrics.AddResult (Metrics.SetMaxLatencies m max) r = None)
  /\ (failed r = true ->
      exists m', Metrics.AddResult (Metrics.SetMaxLatencies m max) r = Some m'
                 /\ Metrics.Count m' = add64 (Metrics.Count m) 1).
Proof.
  intros Hneg. split; intros Hr.
  - unfold failed in Hr. unfold Metrics.AddResult.
    destruct (BenchmarkResult.Error r); [discriminate |]. simpl.
    set (appended := Metrics.Latencies m ++ [BenchmarkResult.LatencyMs r]).
    assert (Hlen : 0 <= len appended) by (unfold len; lia).
    destruct (max <? len appended) eqn:Hfull; [| apply Z.ltb_ge in Hfull; lia].
    unfold slice_from.
    destruct (len appended - max <? 0) eqn:H1; [reflexivity |].
    destruct (len appended <? len appended - max) eqn:H2; [reflexivity |].
    apply Z.ltb_ge in H2. lia.
  - destruct (AddResult_failure (Metrics.SetMaxLatencies m max) r Hr)
      as (m' & Hstep & Hc & _).
    exists m'. split; [exact Hstep | exact Hc].
Qed.

Lemma AddResult_negative_capacity_witness :
  Metrics.AddResult (Metrics.SetMaxLatencies (Metrics.NewMetrics "Get") (-1))
    (succeeded "Get" 1) = None
  /\ (exists m', Metrics.AddResult
                   (Metrics.SetMaxLatencies (Metrics.NewMetrics "Get") (-1))
                   (refused "Get" 1) = Some m'
                 /\ Metrics.Count m' = add64 (Metrics.Count (Metrics.NewMetrics "Get")) 1).
Proof.
  split.
  - apply (AddResult_negative_capacity (Metrics.NewMetrics "Get") (-1)
             (succeeded "Get" 1)); [lia | reflexivity].
  - apply (AddResult_negative_capacity (Metrics.NewMetrics "Get") (-1)
             (refused "Get" 1)); [lia | reflexivity].
Defined.

Lemma same_latency_data_refl (a : Metrics.t) : same_latency_data a a.
Proof. unfold same_latency_data. auto. Qed.

Lemma AddResult_same_latency_data (a b a' : Metrics.t) (r : BenchmarkResult.t) :
  same_latency_data a b -> Metrics.AddResult a r = Some a' ->
  exists b', Metrics.AddResult b r = Some b' /\ same_latency_data a' b'.
Proof.
  intros (Ht & Hmin & Hmax & Hl & Hcap). unfold Metrics.AddResult.
  destruct (BenchmarkResult.Error r).
  - intros [= <-]. eexists. split; [reflexivity |].
    unfold same_latency_data. simpl. auto.
  - rewrite <- Ht, <- Hmin, <- Hmax, <- Hl, <- Hcap.
    destruct (if Metrics.maxLatencies a <? _ then _ else _) as [kept |];
      simpl; [| discriminate].
    intros [= <-]. eexists. split; [reflexivity |].
    unfold same_latency_data. simpl. auto.
Qed.

Lemma AddResult_failure_same_latency_data (a a' : Metrics.t) (r : BenchmarkResult.t) :
  failed r = true -> Metrics.AddResult a r = Some a' -> same_latency_data a' a.
Proof.
  intros Hf Hstep.
  destruct (AddResult_failure a r Hf) as (a1 & Hstep1 & _ & _ & Ht & Hl & Hcap).
  rewrite Hstep in Hstep1. injection Hstep1 as <-.
  unfold Metrics.AddResult, failed in *.
  destruct (BenchmarkResult.Error r); [| discriminate].
  injection Hstep as <-. unfold same_latency_data. simpl. auto.
Qed.

Lemma successes_cons (r : BenchmarkResult.t) (rs : list BenchmarkResult.t) :
  successes (r :: rs) = if failed r then successes rs else r :: successes rs.
Proof. unfold successes. simpl. destruct (failed r); reflexivity. Qed.

Lemma AddResults_successes_only (rs : list BenchmarkResult.t) :
  forall a b a',
    same_latency_data a b -> Metrics.AddResults a rs = Some a' ->
    exists b', Metrics.AddResults b (successes rs) = Some b'
               /\ same_latency_data a' b'
               /\ Metrics.ErrorCount b' = Metrics.ErrorCount b.
Proof.
  induction rs as [| r rs IH]; intros a b a' Hab Hrun.
  - simpl in *. injection Hrun as <-. eauto.
  - simpl in Hrun. destruct (Metrics.AddResult a r) as [a1 |] eqn:Hstep;
      simpl in Hrun; [| discriminate].
    rewrite successes_cons. destruct (failed r) eqn:Hf.
    + apply (IH a1 b a'); [| exact Hrun].
      pose proof (AddResult_failure_same_latency_data a a1 r Hf Hstep)
        as (H1 & H2 & H3 & H4 & H5).
      destruct Hab as (G1 & G2 & G3 & G4 & G5).
      unfold same_latency_data. repeat split; congruence.
    + destruct (AddResult_same_latency_data a b a1 r Hab Hstep) as (b1 & Hb1 & Hab1).
      destruct (IH a1 b1 a' Hab1 Hrun) as (b' & Hrunb & Hsame & Herr).
      exists b'. rewrite (AddResults_cons _ _ _ _ Hb1).
      split; [exact Hrunb |]. split; [exact Hsame |].
      rewrite Herr. unfold Metrics.AddResult, failed in *.
      destruct (BenchmarkResult.Error r); [discriminate |].
      destruct (if Metrics.maxLatencies b <? _ then _ else _) as [kept |];
        simpl in Hb1; [| discriminate].
      injection Hb1 as <-. reflexivity.
Qed.

(** Failed operations leave no trace in the latency data: a run and the
    run of its successes alone end with the same latency sum, minimum,
    maximum and sample. *)
Theorem failures_leave_latency_data (m0 m : Metrics.t) (rs : list BenchmarkResult.t) :
  Metrics.AddResults m0 rs = Some m ->
  exists m', Metrics.AddResults m0 (successes rs) = Some m'
    /\ same_latency_data m m'
    /\ Metrics.ErrorCount m' = Metrics.ErrorCount m0.
Proof.
  intros Hrun.
  exact (AddResults_successes_only rs m0 m0 m (same_latency_data_refl m0) Hrun).
Qed.

Lemma failures_leave_latency_data_witness :
  exists m',
    Metrics.AddResults (Metrics.NewMetrics "Get")
      (successes [succeeded "Get" 3; refused "Get" 9; succeeded "Get" 1]%float)
    = Some m'
    /\ same_latency_data sample_metrics m'
    /\ Metrics.ErrorCount m' = Metrics.ErrorCount (Metrics.NewMetrics "Get").
Proof.
  apply (failures_leave_latency_data (Metrics.NewMetrics "Get") sample_metrics
           [succeeded "Get" 3; refused "Get" 9; succeeded "Get" 1]%float).
  vm_compute. reflexivity.
Defined.

End MetricsMore.

(* ------------------------------------------------------------------ *)
(** ** Minimum and maximum *)
(* ------------------------------------------------------------------ *)

Section Extremes.
Import Go collector.

Lemma lex_lt_trans (e1 e2 e3 : Z) (m1 m2 m3 : positive) :
  match e1 ?= e2 with Lt => Lt | Gt => Gt | Eq => Pos.compare_cont Eq m1 m2 end = Lt ->
  match e2 ?= e3 with Lt => Lt | Gt => Gt | Eq => Pos.compare_cont Eq m2 m3 end = Lt ->
  match e1 ?= e3 with Lt => Lt | Gt => Gt | Eq => Pos.compare_cont Eq m1 m3 end = Lt.
Proof.
  change (Pos.compare_cont Eq m1 m2) with (Pos.compare m1 m2).
  change (Pos.compare_cont Eq m2 m3) with (Pos.compare m2 m3).
  change (Pos.compare_cont Eq m1 m3) with (Pos.compare m1 m3).
  destruct (Z.compare_spec e1 e2), (Z.compare_spec e2 e3), (Z.compare_spec e1 e3);
    try discriminate; try lia; try reflexivity;
    destruct (Pos.compare_spec m1 m2), (Pos.compare_spec m2 m3), (Pos.compare_spec m1 m3);
    try discriminate; try lia; try reflexivity.
Qed.

Lemma lex_gt_trans (e1 e2 e3 : Z) (m1 m2 m3 : positive) :
  match e1 ?= e2 with Lt => Gt | Gt => Lt | Eq => CompOpp (Pos.compare_cont Eq m1 m2) end = Lt ->
  match e2 ?= e3 with Lt => Gt | Gt => Lt | Eq => CompOpp (Pos.compare_cont Eq m2 m3) end = Lt ->
  match e1 ?= e3 with Lt => Gt | Gt => Lt | Eq => CompOpp (Pos.compare_cont Eq m1 m3) end = Lt.
Proof.
  change (Pos.compare_cont Eq m1 m2) with (Pos.compare m1 m2).
  change (Pos.compare_cont Eq m2 m3) with (Pos.compare m2 m3).
  change (Pos.compare_cont Eq m1 m3) with (Pos.compare m1 m3).
  destruct (Z.compare_spec e1 e2), (Z.compare_spec e2 e3), (Z.compare_spec e1 e3);
    try discriminate; try lia; try reflexivity;
    destruct (Pos.compare_spec m1 m2), (Pos.compare_spec m2 m3), (Pos.compare_spec m1 m3);
    simpl; try discriminate; try lia; try reflexivity.
Qed.

Lemma SFcompare_Lt_trans (a b c : SpecFloat.spec_float) :
  SpecFloat.SFcompare a b = Some Lt -> SpecFloat.SFcompare b c = Some Lt ->
  SpecFloat.SFcompare a c = Some Lt.
Proof.
  destruct a as [sa | sa | | sa ma ea], b as [sb | sb | | sb mb eb],
           c as [sc | sc | | sc mc ec];
    try (destruct sa); try (destruct sb); try (destruct sc);
    simpl; try discriminate; try reflexivity;
    intros [= H1] [= H2]; f_equal.
  - exact (lex_gt_trans _ _ _ _ _ _ H1 H2).
  - exact (lex_lt_trans _ _ _ _ _ _ H1 H2).
Qed.

Lemma ltb_trans (a b c : float64) :
  (a <? b)%float = true -> (b <? c)%float = true -> (a <? c)%float = true.
Proof.
  rewrite !FloatAxioms.ltb_spec. unfold SpecFloat.SFltb.
  destruct (SpecFloat.SFcompare (FloatOps.Prim2SF a) (FloatOps.Prim2SF b))
    as [[] |] eqn:Hab; try discriminate.
  destruct (SpecFloat.SFcompare (FloatOps.Prim2SF b) (FloatOps.Prim2SF c))
    as [[] |] eqn:Hbc; try discriminate.
  rewrite (SFcompare_Lt_trans _ _ _ Hab Hbc). reflexivity.
Qed.

Lemma ltb_irrefl (a : float64) : (a <? a)%float = false.
Proof.
  destruct (a <? a)%float eqn:H; [| reflexivity].
  pose proof (ltb_asym a a H). congruence.
Qed.

(** A lower minimum and a higher maximum still bound what they bounded. *)
Lemma below_new_minimum (x l lo : float64) :
  (x <? lo)%float = false ->
  (x <? (if (l <? lo)%float then l else lo))%float = false.
Proof.
  intros Hx. destruct (l <? lo)%float eqn:Hl; [| exact Hx].
  destruct (x <? l)%float eqn:Hxl; [| reflexivity].
  rewrite (ltb_trans x l lo Hxl Hl) in Hx. discriminate.
Qed.

Lemma above_new_maximum (x l hi : float64) :
  (hi <? x)%float = false ->
  ((if (hi <? l)%float then l else hi) <? x)%float = false.
Proof.
  intros Hx. destruct (hi <? l)%float eqn:Hl; [| exact Hx].
  destruct (l <? x)%float eqn:Hlx; [| reflexivity].
  rewrite (ltb_trans hi l x Hl Hlx) in Hx. discriminate.
Qed.

Lemma AddResult_extremes (m m' : Metrics.t) (r : BenchmarkResult.t) :
  Metrics.AddResult m r = Some m' ->
  (forall x, within_extremes m x -> within_extremes m' x)
  /\ (failed r = false -> within_extremes m' (BenchmarkResult.LatencyMs r)).
Proof.
  unfold Metrics.AddResult, failed, within_extremes.
  destruct (BenchmarkResult.Error r).
  - intros [= <-]. simpl. split; [auto | discriminate].
  - destruct (if Metrics.maxLatencies m <? _ then _ else _) as [kept |];
      simpl; [| discriminate].
    intros [= <-]. simpl. split.
    + intros x [Hlo Hhi]. split;
        [apply below_new_minimum | apply above_new_maximum]; assumption.
    + intros _. set (l := BenchmarkResult.LatencyMs r). split.
      * destruct (l <? Metrics.MinLatency m)%float eqn:Hl;
          [apply ltb_irrefl | exact Hl].
      * destruct (Metrics.MaxLatency m <? l)%float eqn:Hl;
          [apply ltb_irrefl | exact Hl].
Qed.

Lemma AddResults_extremes_kept (rs : list BenchmarkResult.t) :
  forall m0 m x,
    Metrics.AddResults m0 rs = Some m -> within_extremes m0 x -> within_extremes m x.
Proof.
  induction rs as [| r rs IH]; intros m0 m x Hrun Hx.
  - simpl in Hrun. injection Hrun as <-. exact Hx.
  - simpl in Hrun. destruct (Metrics.AddResult m0 r) as [m1 |] eqn:Hstep;
      simpl in Hrun; [| discriminate].
    apply (IH m1 m x Hrun). apply (AddResult_extremes m0 m1 r Hstep). exact Hx.
Qed.

(** Whatever state a run starts from, no successful latency of the run is
    below the final [MinLatency] or above the final [MaxLatency]. *)
Theorem AddResults_within_extremes (m0 m : Metrics.t) (rs : list BenchmarkResult.t) :
  Metrics.AddResults m0 rs = Some m ->
  Forall (within_extremes m) (success_latencies rs).
Proof.
  revert m0. induction rs as [| r rs IH]; intros m0 Hrun; [constructor |].
  simpl in Hrun. destruct (Metrics.AddResult m0 r) as [m1 |] eqn:Hstep;
    simpl in Hrun; [| discriminate].
  destruct (failed r) eqn:Hf.
  - rewrite (success_latencies_failure r rs Hf). exact (IH m1 Hrun).
  - rewrite (success_latencies_success r rs Hf). constructor; [| exact (IH m1 Hrun)].
    apply (AddResults_extremes_kept rs m1 m _ Hrun).
    apply (AddResult_extremes m0 m1 r Hstep). exact Hf.
Qed.

Lemma AddResults_within_extremes_witness :
  Forall (within_extremes sample_metrics) [3; 1]%float.
Proof.
  apply (AddResults_within_extremes (Metrics.NewMetrics "Get") sample_metrics
           [succeeded "Get" 3; refused "Get" 9; succeeded "Get" 1]%float).
  vm_compute. reflexivity.
Defined.

End Extremes.

(* ------------------------------------------------------------------ *)
(** ** Snapshots of ingested runs; the ends of the percentile scale *)
(* ------------------------------------------------------------------ *)

Section SnapshotMore.
Import Go collector.

Lemma AddResult_Method (m m' : Metrics.t) (r : BenchmarkResult.t) :
  Metrics.AddResult m r = Some m' -> Metrics.Method m' = Metrics.Method m.
Proof.
  unfold Metrics.AddResult. destruct (BenchmarkResult.Error r).
  - intros [= <-]. reflexivity.
  - destruct (if Metrics.maxLatencies m <? _ then _ else _) as [kept |];
      simpl; [| discriminate].
    intros [= <-]. reflexivity.
Qed.

Lemma AddResults_Method (rs : list BenchmarkResult.t) :
  forall m0 m, Metrics.AddResults m0 rs = Some m ->
               Metrics.Method m = Metrics.Method m0.
Proof.
  induction rs as [| r rs IH]; intros m0 m Hrun.
  - simpl in Hrun. congruence.
  - simpl in Hrun. destruct (Metrics.AddResult m0 r) as [m1 |] eqn:Hstep;
      simpl in Hrun; [| discriminate].
    rewrite (IH m1 m Hrun). exact (AddResult_Method m0 m1 r Hstep).
Qed.

(** What [GetStats] computes when some operation succeeded. *)
Lemma GetStats_fields (m m' : Metrics.t) (s : Stats.t) :
  Metrics.GetStats m = Some (s, m') ->
  Metrics.Count m <> 0 -> sub64 (Metrics.Count m) (Metrics.ErrorCount m) <> 0 ->
  Stats.Method s = Metrics.Method m
  /\ Stats.Count s = Metrics.Count m
  /\ Stats.ErrorCount s = Metrics.ErrorCount m
  /\ Stats.AvgLatency s
     = (Metrics.TotalLatency m
        / float64_of_int (sub64 (Metrics.Count m) (Metrics.ErrorCount m)))%float
  /\ Stats.ErrorRate s
     = (float64_of_int (Metrics.ErrorCount m) / float64_of_int (Metrics.Count m)
        * 100)%float
  /\ Stats.MinLatency s = Metrics.MinLatency m
  /\ Stats.MaxLatency s = Metrics.MaxLatency m.
Proof.
  intros Hs Hcount Hsucc. unfold Metrics.GetStats in Hs.
  destruct (Metrics.Count m =? 0) eqn:Hz; [apply Z.eqb_eq in Hz; contradiction |].
  destruct (sub64 (Metrics.Count m) (Metrics.ErrorCount m) =? 0) eqn:Hz';
    [apply Z.eqb_eq in Hz'; contradiction |].
  destruct (make_float64s (len (Metrics.Latencies m))) as [fresh |];
    simpl in Hs; [| discriminate].
  destruct (percentile _ 50); simpl in Hs; [| discriminate].
  destruct (percentile _ 95); simpl in Hs; [| discriminate].
  destruct (percentile _ 99); simpl in Hs; [| discriminate].
  injection Hs as <- _. simpl. repeat split; reflexivity.
Qed.

(** A snapshot of an ingested run.  After a fresh per-kind state has
    ingested results of which at least one succeeded, [GetStats] returns,
    under the kind's name, the number of results, the number of failures,
    the latency sum over the number of successes as average, and the
    failures over the results times 100 as error rate. *)
Theorem GetStats_after_ingestion (method : string) (rs : list BenchmarkResult.t) :
  len rs <= max_int64 -> successes rs <> [] ->
  exists m s,
    Metrics.AddResults (Metrics.NewMetrics method) rs = Some m
    /\ Metrics.GetStats m = Some (s, m)
    /\ Stats.Method s = method
    /\ Stats.Count s = len rs
    /\ Stats.ErrorCount s = len (failures rs)
    /\ Stats.AvgLatency s
       = (float_sum PrimFloat.zero (success_latencies rs)
          / float64_of_int (len (successes rs)))%float
    /\ Stats.ErrorRate s
       = (float64_of_int (len (failures rs)) / float64_of_int (len rs) * 100)%float.
Proof.
  intros Hfit Hsome.
  destruct (AddResults_totals rs (Metrics.NewMetrics method)) as (m & Hrun & Hn & Hk & Hs).
  { unfold counts_ok. simpl. lia. } { simpl. lia. } { simpl. lia. }
  simpl in Hn, Hk, Hs.
  destruct (AddResults_sample rs (Metrics.NewMetrics method)) as (m1 & Hrun1 & Hmax & Hl).
  { simpl. lia. }
  rewrite Hrun in Hrun1. injection Hrun1 as <-. simpl in Hmax, Hl.
  pose proof (successes_failures_len rs) as Hsplit.
  assert (Hpos : 0 < len (successes rs)).
  { unfold len. destruct (successes rs); [congruence | simpl; lia]. }
  assert (H0 : 0 <= len (failures rs)) by (unfold len; lia).
  assert (Hsmall : len (Metrics.Latencies m) <= sample_limit).
  { rewrite Hl. destruct (success_latencies rs).
    - unfold len, sample_limit. simpl. lia.
    - apply Z.le_trans with 10000; [apply most_recent_bound; lia |].
      unfold sample_limit. lia. }
  destruct (GetStats_returns m Hsmall) as [s Hstats].
  assert (Hsub : sub64 (Metrics.Count m) (Metrics.ErrorCount m) = len (successes rs)).
  { rewrite Hn, Hk. unfold sub64.
    rewrite wrap64_id by (unfold min_int64, max_int64 in *; lia). lia. }
  destruct (GetStats_fields m m s Hstats) as (F1 & F2 & F3 & F4 & F5 & _).
  { lia. } { lia. }
  exists m, s. split; [exact Hrun |]. split; [exact Hstats |].
  rewrite F1, F2, F3, F4, F5, Hsub, Hn, Hk, Hs.
  rewrite (AddResults_Method rs _ m Hrun). simpl. repeat split; reflexivity.
Qed.

Lemma GetStats_after_ingestion_witness :
  exists m s,
    Metrics.AddResults (Metrics.NewMetrics "Get")
      [succeeded "Get" 3; refused "Get" 9; succeeded "Get" 1]%float = Some m
    /\ Metrics.GetStats m = Some (s, m)
    /\ Stats.Method s = "Get"%string
    /\ Stats.Count s = 3
    /\ Stats.ErrorCount s = 1
    /\ Stats.AvgLatency s = (4 / 2)%float
    /\ Stats.ErrorRate s = (1 / 3 * 100)%float.
Proof.
  apply (GetStats_after_ingestion "Get"
           [succeeded "Get" 3; refused "Get" 9; succeeded "Get" 1]%float).
  - vm_compute. discriminate.
  - vm_compute. discriminate.
Defined.

Lemma whole_rank_percentile (values : list float64) (p k : Z) :
  values <> [] -> whole_rank (len values) p k = true ->
  percentile values p = Go.index values k.
Proof.
  intros Hne Hw. unfold whole_rank in Hw. apply andb_true_iff in Hw as [Hwhole Hk].
  apply Z.eqb_eq in Hk. unfold percentile.
  assert (Hlen : (len values =? 0) = false).
  { apply Z.eqb_neq. unfold len. destruct values; [congruence | simpl; lia]. }
  rewrite Hlen. fold (rank (len values) p). rewrite Hwhole, Hk. reflexivity.
Qed.

Lemma endpoints_from_sound (count : nat) :
  forall n0 n : Z,
    endpoints_from count n0 = true -> n0 <= n < n0 + Z.of_nat count ->
    whole_rank n 0 0 = true /\ whole_rank n 100 (n - 1) = true.
Proof.
  induction count as [| count IH]; intros n0 n Hall Hn; [lia |].
  simpl in Hall.
  apply andb_true_iff in Hall as [Hall Hrest].
  apply andb_true_iff in Hall as [H0 H100].
  destruct (decide (n = n0)) as [-> | Hnext]; [auto |].
  apply (IH (n0 + 1) n Hrest). lia.
Qed.

Lemma single_from_sound (count : nat) :
  forall p0 p : Z,
    single_from count p0 = true -> p0 <= p < p0 + Z.of_nat count ->
    whole_rank 1 p 0 = true.
Proof.
  induction count as [| count IH]; intros p0 p Hall Hp; [lia |].
  simpl in Hall. apply andb_true_iff in Hall as [H Hrest].
  destruct (decide (p = p0)) as [-> | Hnext]; [auto |].
  apply (IH (p0 + 1) p Hrest). lia.
Qed.

Lemma endpoints_checked : endpoints_from (Z.to_nat sample_limit) 1 = true.
Proof. vm_compute. reflexivity. Qed.

Lemma single_checked : single_from 101 0 = true.
Proof. vm_compute. reflexivity. Qed.

(** The ends of the scale.  On a sample of up to [sample_limit] entries
    the 0th percentile is the first entry and the 100th the last one; on a
    sample of one entry every percentile from 0 to 100 is that entry. *)
Theorem percentile_endpoints (values : list float64) (x : float64) (p : Z) :
  values <> [] -> len values <= sample_limit -> 0 <= p <= 100 ->
  percentile values 0 = head values
  /\ percentile values 100 = last values
  /\ percentile [x] p = Some x.
Proof.
  intros Hne Hsmall Hp.
  assert (Hpos : 0 < len values).
  { unfold len. destruct values; [congruence | simpl; lia]. }
  destruct (endpoints_from_sound (Z.to_nat sample_limit) 1 (len values)
              endpoints_checked) as [H0 H100].
  { rewrite Z2Nat.id by (unfold sample_limit; lia). lia. }
  split; [| split].
  - rewrite (whole_rank_percentile values 0 0 Hne H0).
    unfold Go.index. simpl. destruct values; reflexivity.
  - rewrite (whole_rank_percentile values 100 (len values - 1) Hne H100).
    unfold Go.index.
    destruct (len values - 1 <? 0) eqn:Hneg; [apply Z.ltb_lt in Hneg; lia |].
    rewrite last_lookup. f_equal. unfold len. lia.
  - rewrite (whole_rank_percentile [x] p 0); [reflexivity | discriminate |].
    apply (single_from_sound 101 0 p single_checked). lia.
Qed.

Lemma percentile_endpoints_witness :
  percentile [1; 2; 3; 4; 5]%float 0 = head [1; 2; 3; 4; 5]%float
  /\ percentile [1; 2; 3; 4; 5]%float 100 = last [1; 2; 3; 4; 5]%float
  /\ percentile [7]%float 95 = Some 7%float.
Proof.
  apply (percentile_endpoints [1; 2; 3; 4; 5]%float 7%float 95).
  - discriminate.
  - vm_compute. discriminate.
  - lia.
Defined.

End SnapshotMore.

(* ------------------------------------------------------------------ *)
(** ** The results channel; stopping the collector *)
(* ------------------------------------------------------------------ *)

Section Channel.
Import Go collector.

Lemma with_results_same (c : Collector.t) :
  Collector.with_results c (Collector.results c) = c.
Proof. destruct c. reflexivity. Qed.

(** The channel keeps what it has room for and drops the rest.  With
    [room] free places, submitting [rs] appends the first [room] results
    in order, changes nothing else, and logs one warning for each of the
    others. *)
Theorem AddResult_drops_on_overflow (c : Collector.t) (rs : list BenchmarkResult.t) :
  len (Collector.results c) <= results_capacity ->
  submit_all c rs
  = (Collector.with_results c
       (Collector.results c
        ++ take (Z.to_nat (results_capacity - len (Collector.results c))) rs),
     replicate
       (length rs - Z.to_nat (results_capacity - len (Collector.results c)))
       dropped).
Proof.
  revert c. induction rs as [| r rs IH]; intros c Hroom.
  - simpl. rewrite take_nil, app_nil_r, with_results_same. reflexivity.
  - cbn [submit_all]. unfold Collector.AddResult.
    destruct (len (Collector.results c) <? results_capacity) eqn:Hlt.
    + apply Z.ltb_lt in Hlt.
      rewrite IH by (simpl; unfold len in *; rewrite length_app; simpl; lia).
      simpl. unfold len in *. rewrite length_app. simpl.
      replace (Z.to_nat (results_capacity - Z.of_nat (length (Collector.results c))))
        with (S (Z.to_nat (results_capacity
                           - Z.of_nat (length (Collector.results c) + 1))))
        by lia.
      simpl. rewrite <- app_assoc. reflexivity.
    + apply Z.ltb_ge in Hlt.
      rewrite IH by exact Hroom.
      replace (Z.to_nat (results_capacity - len (Collector.results c)))
        with 0%nat by lia.
      simpl. rewrite Nat.sub_0_r. reflexivity.
Qed.

Lemma AddResult_drops_on_overflow_witness :
  submit_all fresh_collector [succeeded "Get" 1; refused "Put" 2]%float
  = (Collector.with_results fresh_collector
       ([] ++ take (Z.to_nat (results_capacity - 0))
                [succeeded "Get" 1; refused "Put" 2]%float),
     replicate (2 - Z.to_nat (results_capacity - 0)) dropped).
Proof.
  apply (AddResult_drops_on_overflow fresh_collector
           [succeeded "Get" 1; refused "Put" 2]%float).
  vm_compute. discriminate.
Defined.

Lemma processResult_with_results (c : Collector.t) (q : list BenchmarkResult.t)
    (r : BenchmarkResult.t) :
  Collector.processResult (Collector.with_results c q) r
  = (fun c' => Collector.with_results c' q)
      <$> Collector.processResult (Collector.with_results c []) r.
Proof.
  unfold Collector.processResult. simpl.
  destruct (Metrics.AddResult _ r); reflexivity.
Qed.

(** [processResult] changes the per-kind metrics and nothing else. *)
Lemma processResult_frame (c c' : Collector.t) (r : BenchmarkResult.t) :
  Collector.processResult c r = Some c' ->
  Collector.results c' = Collector.results c
  /\ Collector.done c' = Collector.done c
  /\ Collector.csvWriter c' = Collector.csvWriter c
  /\ Collector.csvClosed c' = Collector.csvClosed c.
Proof.
  unfold Collector.processResult.
  destruct (Metrics.AddResult _ r); simpl; [| discriminate].
  intros [= <-]. simpl. auto.
Qed.

Lemma with_results_twice (c : Collector.t) (q q' : list BenchmarkResult.t) :
  Collector.with_results (Collector.with_results c q) q' = Collector.with_results c q'.
Proof. reflexivity. Qed.

Lemma run_steps_drain (q : list BenchmarkResult.t) :
  forall c, run_steps (length q) (Collector.with_results c q)
            = processResults (Collector.with_results c []) q.
Proof.
  induction q as [| r q IH]; intros c; [reflexivity |].
  cbn [length run_steps processResults]. unfold Collector.run_step.
  cbn [Collector.results Collector.with_results].
  change {| Collector.metrics := Collector.metrics c;
            Collector.results := q;
            Collector.done := Collector.done c;
            Collector.csvWriter := Collector.csvWriter c;
            Collector.csvClosed := Collector.csvClosed c |}
    with (Collector.with_results c q).
  rewrite (with_results_twice c (r :: q) q).
  rewrite (processResult_with_results c q r).
  destruct (Collector.processResult (Collector.with_results c []) r) as [c1 |] eqn:H1;
    [| reflexivity].
  cbn [fmap option_fmap option_map mbind option_bind].
  rewrite IH. f_equal.
  destruct (processResult_frame _ _ _ H1) as (Hres & _). simpl in Hres.
  rewrite <- Hres. apply with_results_same.
Qed.

(** The channel is a queue.  Results submitted to an idle collector, no
    more than the channel holds, are all accepted without a warning, and
    as many turns of the [run] loop ingest them in the order of
    submission: the outcome is that of processing them one by one. *)
Theorem submit_then_run (c : Collector.t) (rs : list BenchmarkResult.t) :
  Collector.results c = [] -> len rs <= results_capacity ->
  (submit_all c rs).2 = []
  /\ run_steps (length rs) (submit_all c rs).1 = processResults c rs.
Proof.
  intros Hidle Hfit.
  rewrite (AddResult_drops_on_overflow c rs)
    by (rewrite Hidle; unfold len, results_capacity; simpl; lia).
  rewrite Hidle. cbn [fst snd app]. unfold len in *. cbn [length].
  replace (results_capacity - Z.of_nat 0) with results_capacity by lia.
  rewrite take_ge by lia.
  replace (length rs - Z.to_nat results_capacity)%nat with 0%nat by lia.
  split; [reflexivity |].
  rewrite run_steps_drain. f_equal. rewrite <- Hidle. apply with_results_same.
Qed.

Lemma submit_then_run_witness :
  (submit_all fresh_collector [refused "Get" 3; refused "Put" 1]%float).2 = []
  /\ run_steps 2 (submit_all fresh_collector [refused "Get" 3; refused "Put" 1]%float).1
     = processResults fresh_collector [refused "Get" 3; refused "Put" 1]%float.
Proof.
  apply (submit_then_run fresh_collector [refused "Get" 3; refused "Put" 1]%float).
  - reflexivity.
  - vm_compute. discriminate.
Defined.

Lemma write_method_records_append (StartTime : Metrics.t -> Z) (timestamp : Text)
    (now : Z) (ms : list Metrics.t) :
  forall rows rows',
    Collector.write_method_records StartTime timestamp now rows ms = Some rows' ->
    exists added, rows' = rows ++ added /\ Forall full_record added.
Proof.
  induction ms as [| m ms IH]; intros rows rows' Hw.
  - simpl in Hw. injection Hw as <-. exists []. rewrite app_nil_r. auto.
  - cbn [Collector.write_method_records] in Hw.
    destruct (Collector.write_method_record StartTime timestamp now rows m)
      as [rows1 |] eqn:H1; simpl in Hw; [| discriminate].
    destruct (IH rows1 rows' Hw) as (added & -> & Hadded).
    unfold Collector.write_method_record in H1.
    destruct (Metrics.GetStats m) as [[stats m'] |]; simpl in H1; [| discriminate].
    destruct (Stats.Count stats =? 0).
    + injection H1 as <-. eauto.
    + injection H1 as <-. eexists. rewrite <- app_assoc. split; [reflexivity |].
      constructor; [reflexivity | exact Hadded].
Qed.

(** [Stop] does not take up what is still in the channel.  When it
    returns, the per-kind metrics and the pending results are what they
    were; without a CSV file nothing is written, and with one the records
    written before are kept and every record added has as many fields as
    the header. *)
Theorem Stop_leaves_pending (StartTime : Metrics.t -> Z) (c c' : Collector.t)
    (now : Z) (order order' : list string) :
  Collector.Stop StartTime c now order order' = Some c' ->
  Collector.metrics c' = Collector.metrics c
  /\ Collector.results c' = Collector.results c
  /\ Collector.done c' = true
  /\ match Collector.csvWriter c with
     | None => Collector.csvWriter c' = None
               /\ Collector.csvClosed c' = Collector.csvClosed c
     | Some rows =>
         Collector.csvClosed c' = true
         /\ exists added, Collector.csvWriter c' = Some (rows ++ added)
                          /\ Forall full_record added
     end.
Proof.
  unfold Collector.Stop. destruct (Collector.done c); [discriminate |].
  unfold Collector.WriteAggregatedMetricsToCSV. cbn [Collector.csvWriter].
  destruct (Collector.csvWriter c) as [rows |] eqn:Hcsv.
  - destruct (Collector.write_method_records _ _ _ _ _) as [rows1 |] eqn:Hw;
      simpl; [| discriminate].
    destruct (Collector.GetAggregatedStats _ order') as [agg |]; simpl; [| discriminate].
    intros [= <-]. simpl. repeat split.
    destruct (write_method_records_append _ _ _ _ _ _ Hw) as (added & -> & Hadded).
    destruct (0 <? Stats.Count agg).
    + eexists. rewrite <- app_assoc. split; [reflexivity |].
      apply Forall_app. split; [exact Hadded |]. constructor; [reflexivity | constructor].
    + eauto.
  - simpl. intros [= <-]. auto.
Qed.

Lemma Stop_leaves_pending_witness :
  exists c',
    Collector.Stop (fun _ => 0)
      (Collector.with_results two_kinds_collector [refused "Get" 5%float])
      (2 * Second) ["Get"; "Put"]%string ["Get"; "Put"]%string = Some c'
    /\ Collector.metrics c'
       = Collector.metrics
           (Collector.with_results two_kinds_collector [refused "Get" 5%float])
    /\ Collector.results c'
       = Collector.results
           (Collector.with_results two_kinds_collector [refused "Get" 5%float])
    /\ Collector.done c' = true
    /\ match Collector.csvWriter
               (Collector.with_results two_kinds_collector [refused "Get" 5%float])
       with
       | None => Collector.csvWriter c' = None
                 /\ Collector.csvClosed c'
                    = Collector.csvClosed
                        (Collector.with_results two_kinds_collector
                           [refused "Get" 5%float])
       | Some rows => Collector.csvClosed c' = true
                      /\ exists added,
                           Collector.csvWriter c' = Some (rows ++ added)
                           /\ Forall full_record added
       end.
Proof.
  eexists. split; [vm_compute; reflexivity |].
  apply (Stop_leaves_pending (fun _ => 0)
           (Collector.with_results two_kinds_collector [refused "Get" 5%float])
           _ (2 * Second) ["Get"; "Put"]%string ["Get"; "Put"]%string).
  vm_compute. reflexivity.
Defined.

End Channel.

(* ------------------------------------------------------------------ *)
(** ** More on the connection pool *)
(* ------------------------------------------------------------------ *)

Section PoolMore.
Import Go kvclient.

(** Every way the outer loop of [NewConnectionPool] can end: with an
    error and all the connections it made closed again, or with the whole
    slice filled and all of them open. *)
Lemma connect_outcome (dial : nat -> error) (targetAddress : string)
    (old : list bool) (d n : nat) (todo : nat) :
  forall i : nat,
    (i + todo = n)%nat ->
    exists out net',
      connect dial targetAddress todo (Z.of_nat i) (clients_at (length old) n i)
        {| dials := (d + i)%nat; conns := old ++ replicate i true |}
      = Some (out, net')
      /\ match out with
         | inr _ => exists k, (i <= k < n)%nat
                              /\ conns net' = old ++ replicate k false
         | inl clients => clients = clients_at (length old) n n
                          /\ net' = {| dials := (d + n)%nat;
                                       conns := old ++ replicate n true |}
         end.
Proof.
  induction todo as [| todo IH]; intros i Hi.
  - simpl. eexists. eexists. split; [reflexivity |].
    replace i with n by lia. auto.
  - simpl. unfold NewClient. simpl.
    destruct (dial (d + i)%nat) as [err |].
    + rewrite Nat2Z.id.
      pose proof (close_created_closes old (S (d + i)) n i i 0%nat) as Hclose.
      simpl in Hclose. change (Z.of_nat 0) with 0 in Hclose.
      rewrite Hclose by lia. simpl.
      eexists. eexists. split; [reflexivity |]. exists i. simpl. split; [lia | reflexivity].
    + destruct ((Z.of_nat i <? 0) || (len (clients_at (length old) n i) <=? Z.of_nat i))
        eqn:Hbound.
      { apply orb_true_iff in Hbound as [Hb | Hb].
        - apply Z.ltb_lt in Hb. lia.
        - apply Z.leb_le in Hb. unfold len in Hb.
          rewrite clients_at_length in Hb by lia. lia. }
      rewrite Nat2Z.id, length_app, length_replicate.
      change (Some {| Client.conn := Some (length old + i)%nat |})
        with (made (length old) i).
      rewrite clients_at_next by lia.
      replace (Z.of_nat i + 1) with (Z.of_nat (S i)) by lia.
      rewrite <- app_assoc.
      replace (replicate i true ++ [true]) with (replicate (S i) true)
        by (rewrite replicate_S_end; reflexivity).
      replace (S (d + i)) with (d + S i)%nat by lia.
      destruct (IH (S i)) as (out & net' & Hrun & Hout); [lia |].
      exists out, net'. split; [exact Hrun |].
      destruct out as [clients | err]; [exact Hout |].
      destruct Hout as (k & Hk & Hconns). exists k. split; [lia | exact Hconns].
Qed.

Lemma open_connections_opened (old : list bool) (k : nat) (d d' : nat) :
  open_connections {| dials := d; conns := old ++ replicate k true |}
  = (open_connections {| dials := d'; conns := old |} + k)%nat.
Proof.
  unfold open_connections. simpl. rewrite List.filter_app, length_app.
  replace (List.filter (fun b : bool => b) (replicate k true)) with (replicate k true).
  - rewrite length_replicate. reflexivity.
  - induction k as [| k IH]; simpl; [reflexivity | rewrite <- IH; reflexivity].
Qed.

(** Closing the clients made from the [j]-th on, the earlier ones being
    closed already. *)
Lemma close_all_closes (old : list bool) (d : nat) (todo : nat) :
  forall (j : nat) (lastErr : error),
    ConnectionPool.close_all (List.map (made (length old)) (seq j todo)) lastErr
      {| dials := d; conns := old ++ replicate j false ++ replicate todo true |}
    = Some (lastErr, {| dials := d; conns := old ++ replicate (j + todo) false |}).
Proof.
  induction todo as [| todo IH]; intros j lastErr.
  - simpl. rewrite app_nil_r, Nat.add_0_r. reflexivity.
  - simpl. rewrite Close_next. rewrite IH.
    replace (S j + todo)%nat with (j + S todo)%nat by lia. reflexivity.
Qed.

Lemma clients_at_full (base n : nat) :
  clients_at base n n = List.map (made base) (seq 0 n).
Proof. unfold clients_at. rewrite Nat.sub_diag. simpl. apply app_nil_r. Qed.

(** Construction on a network with connections [old], for a count that
    is not negative: an error, the connections made closed again, or the
    full pool. *)
Lemma NewConnectionPool_cases (dial : nat -> error) (targetAddress : string)
    (numConnections : Z) (d : nat) (old : list bool) :
  0 <= numConnections ->
  (exists err d' k,
     NewConnectionPool dial targetAddress numConnections {| dials := d; conns := old |}
     = Some (inr err, {| dials := d'; conns := old ++ replicate k false |}))
  \/ NewConnectionPool dial targetAddress numConnections {| dials := d; conns := old |}
     = Some (inl {| ConnectionPool.clients :=
                      clients_at (length old) (Z.to_nat numConnections)
                        (Z.to_nat numConnections);
                    ConnectionPool.index := 0 |},
             {| dials := (d + Z.to_nat numConnections)%nat;
                conns := old ++ replicate (Z.to_nat numConnections) true |}).
Proof.
  intros Hn.
  destruct (connect_outcome dial targetAddress old d (Z.to_nat numConnections)
              (Z.to_nat numConnections) 0%nat) as (out & net' & Hrun & Hout); [lia |].
  unfold clients_at in Hrun. simpl in Hrun.
  rewrite Nat.sub_0_r, Nat.add_0_r, app_nil_r in Hrun.
  change (Z.of_nat 0) with 0 in Hrun.
  unfold NewConnectionPool.
  destruct (numConnections <? 0) eqn:Hneg; [apply Z.ltb_lt in Hneg; lia |].
  rewrite Hrun. simpl.
  destruct out as [clients | err].
  - destruct Hout as [-> ->]. right. reflexivity.
  - destruct Hout as (k & _ & Hconns). left.
    destruct net' as [d' conns']. simpl in Hconns. subst conns'.
    exists err, d', k. reflexivity.
Qed.

(** [Close] on the full pool closes every connection of it. *)
Lemma Close_made (old : list bool) (d n : nat) (index : Z) :
  ConnectionPool.Close
    {| ConnectionPool.clients := clients_at (length old) n n;
       ConnectionPool.index := index |}
    {| dials := d; conns := old ++ replicate n true |}
  = Some (None, {| dials := d; conns := old ++ replicate n false |}).
Proof.
  unfold ConnectionPool.Close. simpl. rewrite clients_at_full.
  pose proof (close_all_closes old d n 0%nat None) as Hclose.
  simpl in Hclose. exact Hclose.
Qed.

(** Opening and closing.  For a count that is not negative, construction
    returns, with an error and not one more connection open than before,
    or with a pool of exactly [numConnections] clients, that many more
    connections open, and [Close] on that pool closes them all without an
    error. *)
Theorem NewConnectionPool_then_Close
    (dial : nat -> error) (targetAddress : string) (numConnections : Z)
    (net : Network) :
  0 <= numConnections ->
  exists out net',
    NewConnectionPool dial targetAddress numConnections net = Some (out, net')
    /\ match out with
       | inr _ => open_connections net' = open_connections net
       | inl p =>
           len (ConnectionPool.clients p) = numConnections
           /\ ConnectionPool.index p = 0
           /\ open_connections net'
              = (open_connections net + Z.to_nat numConnections)%nat
           /\ exists net'',
                ConnectionPool.Close p net' = Some (None, net'')
                /\ open_connections net'' = open_connections net
       end.
Proof.
  intros Hn. destruct net as [d old].
  destruct (NewConnectionPool_cases dial targetAddress numConnections d old Hn)
    as [(err & d' & k & ->) | ->].
  - eexists. eexists. split; [reflexivity |]. apply open_connections_closed.
  - eexists. eexists. split; [reflexivity |]. simpl.
    split; [unfold len; rewrite clients_at_length by lia; lia |].
    split; [reflexivity |].
    split; [apply open_connections_opened |].
    rewrite Close_made.
    eexists. split; [reflexivity |]. apply open_connections_closed.
Qed.

Lemma NewConnectionPool_then_Close_witness :
  exists out net',
    NewConnectionPool (fun _ => None) "localhost:50051" 3 {| dials := 0; conns := [] |}
    = Some (out, net')
    /\ match out with
       | inr _ => open_connections net' = open_connections {| dials := 0; conns := [] |}
       | inl p =>
           len (ConnectionPool.clients p) = 3
           /\ ConnectionPool.index p = 0
           /\ open_connections net'
              = (open_connections {| dials := 0; conns := [] |} + Z.to_nat 3)%nat
           /\ exists net'',
                ConnectionPool.Close p net' = Some (None, net'')
                /\ open_connections net''
                   = open_connections {| dials := 0; conns := [] |}
       end.
Proof.
  apply (NewConnectionPool_then_Close (fun _ => None) "localhost:50051" 3
           {| dials := 0; conns := [] |}).
  lia.
Defined.

Lemma GetClient_next (cs : list (option Client.t)) (i : Z) :
  0 <= i < len cs -> len cs <= max_int64 ->
  ConnectionPool.GetClient {| ConnectionPool.clients := cs; ConnectionPool.index := i |}
  = Some (default None (cs !! Z.to_nat i),
          {| ConnectionPool.clients := cs;
             ConnectionPool.index := (i + 1) mod len cs |}).
Proof.
  intros Hi Hmax. unfold ConnectionPool.GetClient, Go.index. simpl.
  destruct (i <? 0) eqn:Hneg; [apply Z.ltb_lt in Hneg; lia |].
  destruct (cs !! Z.to_nat i) as [client |] eqn:Hat.
  2: { apply lookup_ge_None in Hat. unfold len in Hi. lia. }
  simpl. destruct (len cs =? 0) eqn:Hempty; [apply Z.eqb_eq in Hempty; lia |].
  unfold add64. rewrite wrap64_id by (unfold min_int64, max_int64 in *; lia).
  rewrite Z.rem_mod_nonneg by lia. reflexivity.
Qed.

(** Round robin.  On a pool that is not empty, any number of calls of
    [GetClient] return; the [j]-th call hands out the client at position
    [(index + j) mod len], and the slice of clients is left as it was. *)
Theorem GetClient_round_robin (p : ConnectionPool.t) (k : nat) :
  0 <= ConnectionPool.index p < len (ConnectionPool.clients p) ->
  len (ConnectionPool.clients p) <= max_int64 ->
  exists handed p',
    acquire k p = Some (handed, p')
    /\ length handed = k
    /\ ConnectionPool.clients p' = ConnectionPool.clients p
    /\ ConnectionPool.index p'
       = (ConnectionPool.index p + Z.of_nat k) mod len (ConnectionPool.clients p)
    /\ forall j : nat, (j < k)%nat ->
         handed !! j
         = ConnectionPool.clients p
             !! Z.to_nat ((ConnectionPool.index p + Z.of_nat j)
                          mod len (ConnectionPool.clients p)).
Proof.
  destruct p as [cs i]. simpl. revert i.
  induction k as [| k IH]; intros i Hi Hmax.
  - simpl. exists [], {| ConnectionPool.clients := cs; ConnectionPool.index := i |}.
    split; [reflexivity |]. split; [reflexivity |]. split; [reflexivity |].
    split; [simpl; rewrite Z.add_0_r, Z.mod_small by lia; reflexivity |].
    intros j Hj. lia.
  - cbn [acquire]. rewrite GetClient_next by assumption. cbn [mbind option_bind].
    destruct (IH ((i + 1) mod len cs)) as (handed & p' & Hrun & Hlen & Hcs & Hidx & Hat);
      [apply Z.mod_pos_bound; lia | assumption |].
    rewrite Hrun. cbn [mbind option_bind].
    eexists. eexists. split; [reflexivity |].
    split; [simpl; rewrite Hlen; reflexivity |].
    split; [exact Hcs |].
    split.
    + rewrite Hidx. rewrite Zplus_mod_idemp_l. f_equal. lia.
    + intros [| j] Hj.
      * simpl. rewrite Z.add_0_r, Z.mod_small by lia.
        destruct (cs !! Z.to_nat i) eqn:Hat0; [reflexivity |].
        apply lookup_ge_None in Hat0. unfold len in Hi. lia.
      * simpl. rewrite Hat by lia. rewrite Zplus_mod_idemp_l.
        do 3 f_equal. lia.
Qed.

Lemma GetClient_round_robin_witness :
  exists handed p',
    acquire 5 {| ConnectionPool.clients := clients_at 0 3 3; ConnectionPool.index := 2 |}
    = Some (handed, p')
    /\ length handed = 5%nat
    /\ ConnectionPool.clients p' = clients_at 0 3 3
    /\ ConnectionPool.index p' = (2 + Z.of_nat 5) mod len (clients_at 0 3 3)
    /\ forall j : nat, (j < 5)%nat ->
         handed !! j
         = clients_at 0 3 3 !! Z.to_nat ((2 + Z.of_nat j) mod len (clients_at 0 3 3)).
Proof.
  apply (GetClient_round_robin
           {| ConnectionPool.clients := clients_at 0 3 3; ConnectionPool.index := 2 |} 5).
  - vm_compute. split; [discriminate | reflexivity].
  - vm_compute. discriminate.
Defined.

Lemma health_loop_healthy (probe : Z -> error) (cs : list (option Client.t)) :
  forall (i : Z) (lastErr : error),
    Forall is_Some cs ->
    (forall j, i <= j < i + len cs -> probe j = None) ->
    health_loop probe cs i lastErr = Some lastErr.
Proof.
  induction cs as [| pc cs IH]; intros i lastErr Hall Hok; [reflexivity |].
  inversion Hall as [| ? ? [c ->] Hrest]; subst. cbn [health_loop mbind option_bind].
  unfold len in *. simpl length in Hok.
  rewrite (Hok i) by lia. apply IH; [assumption |]. intros j Hj. apply Hok. lia.
Qed.

Lemma health_loop_last (probe : Z -> error) (cause : string) (k : Z)
    (cs : list (option Client.t)) :
  forall (i : Z) (lastErr : error),
    Forall is_Some cs ->
    i <= k < i + len cs ->
    probe k = Some cause ->
    (forall j, k < j < i + len cs -> probe j = None) ->
    health_loop probe cs i lastErr = Some (Some (health_error k cause)).
Proof.
  induction cs as [| pc cs IH]; intros i lastErr Hall Hk Hfail Hok.
  - unfold len in Hk. simpl in Hk. lia.
  - inversion Hall as [| ? ? [c ->] Hrest]; subst. cbn [health_loop mbind option_bind].
    unfold len in *. simpl length in Hk, Hok.
    destruct (Z.eq_dec i k) as [-> | Hne].
    + rewrite Hfail. apply health_loop_healthy; [assumption |].
      intros j Hj. apply Hok. unfold len in Hj. lia.
    + apply IH; [assumption | lia | assumption |]. intros j Hj. apply Hok. lia.
Qed.

(** [HealthCheck] probes every client and reports the last failure only.
    With no [nil] client in the pool it returns; the result is [nil] when
    every probe succeeds, and when client [k] is the last one whose probe
    fails, it is the error of client [k], whatever the clients before [k]
    answered. *)
Theorem HealthCheck_reports_last_failure (probe : Z -> error) (p : ConnectionPool.t) :
  Forall is_Some (ConnectionPool.clients p) ->
  ((forall j, 0 <= j < len (ConnectionPool.clients p) -> probe j = None) ->
   HealthCheck probe p = Some None)
  /\ (forall (k : Z) (cause : string),
        0 <= k < len (ConnectionPool.clients p) ->
        probe k = Some cause ->
        (forall j, k < j < len (ConnectionPool.clients p) -> probe j = None) ->
        HealthCheck probe p = Some (Some (health_error k cause))).
Proof.
  intros Hall. unfold HealthCheck. split.
  - intros Hok. apply health_loop_healthy; [assumption |]. intros j Hj. apply Hok. lia.
  - intros k cause Hk Hfail Hok.
    apply health_loop_last; [assumption | lia | assumption |].
    intros j Hj. apply Hok. lia.
Qed.

Lemma HealthCheck_reports_last_failure_witness :
  HealthCheck (fun _ => None)
    {| ConnectionPool.clients := clients_at 0 3 3; ConnectionPool.index := 0 |}
  = Some None
  /\ HealthCheck two_unhealthy
       {| ConnectionPool.clients := clients_at 0 3 3; ConnectionPool.index := 0 |}
     = Some (Some (health_error 1 "deadline exceeded")).
Proof.
  split.
  - apply (HealthCheck_reports_last_failure (fun _ => None)
             {| ConnectionPool.clients := clients_at 0 3 3; ConnectionPool.index := 0 |}).
    + repeat constructor; eexists; reflexivity.
    + reflexivity.
  - apply (HealthCheck_reports_last_failure two_unhealthy
             {| ConnectionPool.clients := clients_at 0 3 3; ConnectionPool.index := 0 |}).
    + repeat constructor; eexists; reflexivity.
    + vm_compute. split; [discriminate | reflexivity].
    + reflexivity.
    + intros j Hj. unfold len in Hj. simpl in Hj.
      assert (j = 2) as -> by lia. reflexivity.
Defined.

End PoolMore.

(* ------------------------------------------------------------------ *)
(** ** More on the runner *)
(* ------------------------------------------------------------------ *)

Section RunnerMore.
Import Go collector kvclient config runner.

Lemma ratios_validated (c : BenchmarkConfig) :
  Validate c = None ->
  ReadRatio c + WriteRatio c + DeleteRatio c <= max_int64 ->
  0 <= ReadRatio c /\ 0 <= WriteRatio c /\ 0 <= DeleteRatio c
  /\ ReadRatio c + WriteRatio c + DeleteRatio c = 100.
Proof.
  unfold Validate. intros Hvalid Hsum.
  destruct (String.eqb _ _); [discriminate |].
  destruct (NumConnections c <=? 0); [discriminate |].
  destruct (NumWorkers c <=? 0); [discriminate |].
  destruct (Duration c <=? 0); [discriminate |].
  destruct (KeySpace c <=? 0); [discriminate |].
  destruct (ValueSize c <=? 0); [discriminate |].
  destruct (ReadRatio c <? 0) eqn:Hr; [discriminate |].
  destruct (WriteRatio c <? 0) eqn:Hw; [discriminate |].
  destruct (DeleteRatio c <? 0) eqn:Hd; [discriminate |].
  simpl in Hvalid.
  destruct (add64 (add64 (ReadRatio c) (WriteRatio c)) (DeleteRatio c) =? 100) eqn:Hs;
    [| discriminate].
  apply Z.ltb_ge in Hr, Hw, Hd. apply Z.eqb_eq in Hs.
  unfold add64 in Hs.
  rewrite (wrap64_id (ReadRatio c + WriteRatio c)) in Hs
    by (unfold min_int64, max_int64 in *; lia).
  rewrite wrap64_id in Hs by (unfold min_int64, max_int64 in *; lia).
  lia.
Qed.

Lemma selectOperation_ratios (c : BenchmarkConfig) (draw : Z) :
  Validate c = None ->
  ReadRatio c + WriteRatio c + DeleteRatio c <= max_int64 ->
  0 <= draw < 100 ->
  selectOperation c draw = Some (selected c draw).
Proof.
  intros Hvalid Hsum Hdraw.
  destruct (ratios_validated c Hvalid Hsum) as (Hr & Hw & Hd & H100).
  unfold selected, selectOperation, add64.
  rewrite (wrap64_id (ReadRatio c + WriteRatio c))
    by (unfold min_int64, max_int64 in *; lia).
  rewrite wrap64_id by (unfold min_int64, max_int64 in *; lia).
  rewrite H100. change (100 <? 0) with false. cbv iota.
  unfold len. rewrite !length_app, !length_replicate.
  destruct (_ <=? 0) eqn:Hlen; [apply Z.leb_le in Hlen; lia |].
  unfold Go.index. destruct (draw <? 0) eqn:Hneg; [apply Z.ltb_lt in Hneg; lia |].
  destruct (draw <? ReadRatio c) eqn:Hget.
  - apply Z.ltb_lt in Hget. rewrite lookup_app_l by (rewrite length_replicate; lia).
    apply lookup_replicate_2. lia.
  - apply Z.ltb_ge in Hget. rewrite lookup_app_r by (rewrite length_replicate; lia).
    rewrite length_replicate.
    destruct (draw <? ReadRatio c + WriteRatio c) eqn:Hput.
    + apply Z.ltb_lt in Hput. rewrite lookup_app_l by (rewrite length_replicate; lia).
      apply lookup_replicate_2. lia.
    + apply Z.ltb_ge in Hput. rewrite lookup_app_r by (rewrite length_replicate; lia).
      rewrite length_replicate. apply lookup_replicate_2. lia.
Qed.

(** Under a configuration [Validate] accepts, whose ratios add up without
    overflow, every draw below 100 selects an operation: Get below
    [ReadRatio], Put below [ReadRatio + WriteRatio], Delete from there on. *)
Theorem selectOperation_validated (c : BenchmarkConfig) (draw : Z) :
  Validate c = None ->
  ReadRatio c + WriteRatio c + DeleteRatio c <= max_int64 ->
  0 <= draw < 100 ->
  selectOperation c draw
  = Some (if draw <? ReadRatio c then "Get"%string
          else if draw <? ReadRatio c + WriteRatio c then "Put"%string
          else "Delete"%string).
Proof. apply selectOperation_ratios. Qed.

Lemma selectOperation_validated_witness :
  selectOperation DefaultConfig 69 = Some "Get"%string
  /\ selectOperation DefaultConfig 70 = Some "Put"%string
  /\ selectOperation DefaultConfig 95 = Some "Delete"%string.
Proof.
  split; [| split].
  - apply (selectOperation_validated DefaultConfig 69);
      [reflexivity | vm_compute; discriminate | lia].
  - apply (selectOperation_validated DefaultConfig 70);
      [reflexivity | vm_compute; discriminate | lia].
  - apply (selectOperation_validated DefaultConfig 95);
      [reflexivity | vm_compute; discriminate | lia].
Defined.

End RunnerMore.

(* ------------------------------------------------------------------ *)
(** ** The key generator *)
(* ------------------------------------------------------------------ *)

Section Keys.
Import Go runner.

Lemma string_of_list_ascii_length (l : list Ascii.ascii) :
  String.length (string_of_list_ascii l) = length l.
Proof. induction l as [| a l IH]; simpl; [reflexivity | rewrite IH; reflexivity]. Qed.

Lemma generate_outcome (e : Entropy) (call : nat) (n : Z) (todo : nat) :
  forall (i : Z) (ks : list string),
    0 <= i -> i + Z.of_nat todo = n -> len ks = n -> keys_made ks i ->
    exists out,
      generate e todo i ks (call + Z.to_nat i) = Some out
      /\ match out with
         | inl ks' => len ks' = n /\ keys_made ks' n
         | inr err =>
             exists (k : Z) (cause : string),
               i <= k < n
               /\ read_error e (call + Z.to_nat k) = Some cause
               /\ (forall j, i <= j < k -> read_error e (call + Z.to_nat j) = None)
               /\ err = key_error k cause
         end.
Proof.
  induction todo as [| todo IH]; intros i ks Hi Hn Hlen Hmade.
  - simpl. eexists. split; [reflexivity |].
    assert (n = i) as -> by lia. auto.
  - cbn [generate]. unfold generateRandomBytes.
    rewrite Z.rem_mod_nonneg by lia.
    pose proof (Z.mod_pos_bound i 9 ltac:(lia)) as Hmod.
    unfold add64. rewrite wrap64_id by (unfold min_int64, max_int64; lia).
    destruct (8 + i mod 9 <? 0) eqn:Hneg; [apply Z.ltb_lt in Hneg; lia |].
    destruct (read_error e (call + Z.to_nat i)) as [cause |] eqn:Hread;
      cbn [mbind option_bind].
    + eexists. split; [reflexivity |]. exists i, cause.
      split; [lia |]. split; [exact Hread |]. split; [intros j Hj; lia | reflexivity].
    + destruct ((i <? 0) || (len ks <=? i)) eqn:Hbound.
      { apply orb_true_iff in Hbound as [Hb | Hb];
          [apply Z.ltb_lt in Hb | apply Z.leb_le in Hb]; lia. }
      replace (S (call + Z.to_nat i)) with (call + Z.to_nat (i + 1))%nat by lia.
      destruct (IH (i + 1)
                  (<[Z.to_nat i :=
                       string_of_list_ascii
                         (List.map (read_byte e (call + Z.to_nat i))
                            (seq 0 (Z.to_nat (8 + i mod 9))))]> ks))
        as (out & Hrun & Hout).
      * lia.
      * lia.
      * unfold len in *. rewrite length_insert. exact Hlen.
      * intros j key Hj Hat.
        destruct (decide (j = Z.to_nat i)) as [-> | Hne].
        -- rewrite list_lookup_insert_eq in Hat by (unfold len in *; lia).
           injection Hat as <-.
           rewrite string_of_list_ascii_length, length_map, length_seq.
           unfold key_length. rewrite !Z2Nat.id by lia. reflexivity.
        -- rewrite list_lookup_insert_ne in Hat by congruence.
           apply (Hmade j key); [lia | exact Hat].
      * exists out. split; [exact Hrun |].
        destruct out as [ks' | err]; [exact Hout |].
        destruct Hout as (k & cause & Hk & Hfail & Hbefore & ->).
        exists k, cause. split; [lia |]. split; [exact Hfail |].
        split; [| reflexivity].
        intros j Hj. destruct (Z.eq_dec j i) as [-> | Hne]; [exact Hread |].
        apply Hbefore. lia.
Qed.

(** [NewKeyGenerator] on a key space that is not negative returns.  When
    every read of random bytes succeeds it yields [keySpace] keys, key [i]
    of [8 + i mod 9] bytes, and starts at index 0; otherwise its error
    names the first key whose read failed and wraps the cause. *)
Theorem NewKeyGenerator_keys (e : Entropy) (call : nat) (keySpace : Z) :
  0 <= keySpace ->
  exists out,
    NewKeyGenerator e call keySpace = Some out
    /\ match out with
       | inl kg =>
           len (keys kg) = keySpace
           /\ keyIndex kg = 0
           /\ forall (j : nat) (key : string),
                keys kg !! j = Some key ->
                Z.of_nat (String.length key) = key_length (Z.of_nat j)
                /\ 8 <= Z.of_nat (String.length key) <= 16
       | inr err =>
           exists (k : Z) (cause : string),
             0 <= k < keySpace
             /\ read_error e (call + Z.to_nat k) = Some cause
             /\ (forall j, 0 <= j < k -> read_error e (call + Z.to_nat j) = None)
             /\ err = key_error k cause
       end.
Proof.
  intros Hn. unfold NewKeyGenerator.
  destruct (keySpace <? 0) eqn:Hneg; [apply Z.ltb_lt in Hneg; lia |].
  destruct (generate_outcome e call keySpace (Z.to_nat keySpace) 0
              (replicate (Z.to_nat keySpace) EmptyString))
    as (out & Hrun & Hout).
  - lia.
  - lia.
  - unfold len. rewrite length_replicate. lia.
  - intros j key Hj. lia.
  - change (Z.to_nat 0) with 0%nat in Hrun. rewrite Nat.add_0_r in Hrun.
    rewrite Hrun. cbn [mbind option_bind].
    eexists. split; [reflexivity |].
    destruct out as [ks | err]; [| exact Hout].
    destruct Hout as [Hlen Hmade]. simpl.
    split; [exact Hlen |]. split; [reflexivity |].
    intros j key Hat.
    assert (Hj : Z.of_nat j < keySpace).
    { apply lookup_lt_Some in Hat. unfold len in Hlen. lia. }
    pose proof (Hmade j key Hj Hat) as Hkey.
    split; [exact Hkey |]. rewrite Hkey. unfold key_length.
    pose proof (Z.mod_pos_bound (Z.of_nat j) 9 ltac:(lia)). lia.
Qed.

Lemma NewKeyGenerator_keys_witness :
  (exists out,
     NewKeyGenerator fourth_read_fails 0 5 = Some out
     /\ match out with
        | inl kg =>
            len (keys kg) = 5
            /\ keyIndex kg = 0
            /\ forall (j : nat) (key : string),
                 keys kg !! j = Some key ->
                 Z.of_nat (String.length key) = key_length (Z.of_nat j)
                 /\ 8 <= Z.of_nat (String.length key) <= 16
        | inr err =>
            exists (k : Z) (cause : string),
              0 <= k < 5
              /\ read_error fourth_read_fails (0 + Z.to_nat k) = Some cause
              /\ (forall j, 0 <= j < k ->
                    read_error fourth_read_fails (0 + Z.to_nat j) = None)
              /\ err = key_error k cause
        end)
  /\ NewKeyGenerator fourth_read_fails 0 5 = Some (inr (key_error 3 "EOF")).
Proof.
  split; [| reflexivity].
  apply (NewKeyGenerator_keys fourth_read_fails 0 5). lia.
Defined.

Lemma GetNextKey_next (ks : list string) (i : Z) :
  0 <= i < len ks -> len ks <= max_int64 ->
  GetNextKey {| keys := ks; keyIndex := i |}
  = Some (default EmptyString (ks !! Z.to_nat i),
          {| keys := ks; keyIndex := (i + 1) mod len ks |}).
Proof.
  intros Hi Hmax. unfold GetNextKey, Go.index. simpl.
  destruct (i <? 0) eqn:Hneg; [apply Z.ltb_lt in Hneg; lia |].
  destruct (ks !! Z.to_nat i) as [key |] eqn:Hat.
  2: { apply lookup_ge_None in Hat. unfold len in Hi. lia. }
  simpl. destruct (len ks =? 0) eqn:Hempty; [apply Z.eqb_eq in Hempty; lia |].
  unfold add64. rewrite wrap64_id by (unfold min_int64, max_int64 in *; lia).
  rewrite Z.rem_mod_nonneg by lia. reflexivity.
Qed.

Lemma next_keys_round_robin (ks : list string) (k : nat) :
  forall i : Z,
    0 <= i < len ks -> len ks <= max_int64 ->
    exists handed,
      next_keys k {| keys := ks; keyIndex := i |}
      = Some (handed, {| keys := ks; keyIndex := (i + Z.of_nat k) mod len ks |})
      /\ length handed = k
      /\ forall j : nat, (j < k)%nat ->
           handed !! j = ks !! Z.to_nat ((i + Z.of_nat j) mod len ks).
Proof.
  induction k as [| k IH]; intros i Hi Hmax.
  - simpl. exists []. rewrite Z.add_0_r, Z.mod_small by lia.
    split; [reflexivity |]. split; [reflexivity |]. intros j Hj. lia.
  - cbn [next_keys]. rewrite GetNextKey_next by assumption. cbn [mbind option_bind].
    destruct (IH ((i + 1) mod len ks)) as (handed & Hrun & Hlen & Hat);
      [apply Z.mod_pos_bound; lia | assumption |].
    rewrite Hrun. cbn [mbind option_bind].
    rewrite Zplus_mod_idemp_l.
    replace (i + 1 + Z.of_nat k) with (i + Z.of_nat (S k)) by lia.
    eexists. split; [reflexivity |].
    split; [simpl; rewrite Hlen; reflexivity |].
    intros [| j] Hj.
    + simpl. rewrite Z.add_0_r, Z.mod_small by lia.
      destruct (ks !! Z.to_nat i) eqn:Hat0; [reflexivity |].
      apply lookup_ge_None in Hat0. unfold len in Hi. lia.
    + simpl. rewrite Hat by lia. rewrite Zplus_mod_idemp_l.
      do 3 f_equal. lia.
Qed.

(** The generator stays usable.  With keys in the pool and the index in
    range, any number of calls of [GetNextKey] return the keys in cyclic
    order and keep the pool, and after them [GetRandomKey] still returns a
    key of the pool, also when [rand.Int] fails and it falls back on the
    index. *)
Theorem KeyGenerator_round_robin (kg : KeyGenerator) (k : nat) (drawn : option Z) :
  0 <= keyIndex kg < len (keys kg) ->
  len (keys kg) <= max_int64 ->
  (forall n, drawn = Some n -> 0 <= n < len (keys kg)) ->
  exists handed kg',
    next_keys k kg = Some (handed, kg')
    /\ keys kg' = keys kg
    /\ length handed = k
    /\ (forall j : nat, (j < k)%nat ->
          handed !! j
          = keys kg !! Z.to_nat ((keyIndex kg + Z.of_nat j) mod len (keys kg)))
    /\ exists key, GetRandomKey kg' drawn = Some key /\ key ∈ keys kg.
Proof.
  destruct kg as [ks i]. simpl. intros Hi Hmax Hdrawn.
  destruct (next_keys_round_robin ks k i Hi Hmax) as (handed & Hrun & Hlen & Hat).
  eexists. eexists. split; [exact Hrun |]. simpl.
  split; [reflexivity |]. split; [exact Hlen |]. split; [exact Hat |].
  unfold GetRandomKey. simpl.
  destruct (len ks <=? 0) eqn:Hempty; [apply Z.leb_le in Hempty; lia |].
  assert (Hin : forall n, 0 <= n < len ks ->
                  exists key, Go.index ks n = Some key /\ key ∈ ks).
  { intros n Hn. unfold Go.index.
    destruct (n <? 0) eqn:Hneg; [apply Z.ltb_lt in Hneg; lia |].
    destruct (ks !! Z.to_nat n) as [key |] eqn:Hkey.
    - exists key. split; [reflexivity |]. eapply list_elem_of_lookup_2. exact Hkey.
    - apply lookup_ge_None in Hkey. unfold len in Hn. lia. }
  destruct drawn as [n |].
  - apply Hin. apply Hdrawn. reflexivity.
  - apply Hin. apply Z.mod_pos_bound. lia.
Qed.

Lemma KeyGenerator_round_robin_witness :
  exists handed kg',
    next_keys 4 {| keys := ["k0"; "k1"; "k2"]%string; keyIndex := 1 |}
    = Some (handed, kg')
    /\ keys kg' = ["k0"; "k1"; "k2"]%string
    /\ length handed = 4%nat
    /\ (forall j : nat, (j < 4)%nat ->
          handed !! j
          = ["k0"; "k1"; "k2"]%string
              !! Z.to_nat ((1 + Z.of_nat j) mod len ["k0"; "k1"; "k2"]%string))
    /\ exists key, GetRandomKey kg' None = Some key
                   /\ key ∈ ["k0"; "k1"; "k2"]%string.
Proof.
  apply (KeyGenerator_round_robin
           {| keys := ["k0"; "k1"; "k2"]%string; keyIndex := 1 |} 4 None).
  - vm_compute. split; [discriminate | reflexivity].
  - vm_compute. discriminate.
  - intros n Hn. discriminate.
Defined.

End Keys.

(* ------------------------------------------------------------------ *)
(** ** Constructing the runner *)
(* ------------------------------------------------------------------ *)

Section Construction.
Import Go collector kvclient config runner.

(** [NewKeyGenerator] returns on a key space that is not negative, and
    panics on a negative one. *)
Lemma NewKeyGenerator_returns (e : Entropy) (call : nat) (keySpace : Z) :
  0 <= keySpace ->
  exists out,
    NewKeyGenerator e call keySpace = Some out
    /\ match out with
       | inl kg => len (keys kg) = keySpace /\ keyIndex kg = 0
       | inr _ => True
       end.
Proof.
  intros Hn. unfold NewKeyGenerator.
  destruct (keySpace <? 0) eqn:Hneg; [apply Z.ltb_lt in Hneg; lia |].
  destruct (generate_outcome e call keySpace (Z.to_nat keySpace) 0
              (replicate (Z.to_nat keySpace) EmptyString))
    as (out & Hrun & Hout).
  - lia.
  - lia.
  - unfold len. rewrite length_replicate. lia.
  - intros j key Hj. lia.
  - change (Z.to_nat 0) with 0%nat in Hrun. rewrite Nat.add_0_r in Hrun.
    rewrite Hrun. cbn [mbind option_bind].
    eexists. split; [reflexivity |].
    destruct out as [ks | err]; [| exact I].
    destruct Hout as [Hlen _]. simpl. auto.
Qed.

Lemma NewKeyGenerator_negative (e : Entropy) (call : nat) (keySpace : Z) :
  keySpace < 0 -> NewKeyGenerator e call keySpace = None.
Proof.
  intros Hneg. unfold NewKeyGenerator.
  destruct (keySpace <? 0) eqn:H; [reflexivity | apply Z.ltb_ge in H; lia].
Qed.

(** [NewBenchmarkRunner] and the connections it opens, for a count of
    connections that is not negative.  With a key space that is not
    negative it returns, and when it returns an error, be it from the
    pool, the CSV file or the key generator, as many connections are open
    as before the call; otherwise the runner holds the configuration, a
    pool of [NumConnections] open connections, [KeySpace] keys and the
    time of construction.  With a negative key space it yields no runner:
    it returns the error of the pool or of the CSV file, nothing left
    open, or it panics in [NewKeyGenerator], and then the pool has not
    been closed. *)
Theorem NewBenchmarkRunner_no_leak (c : BenchmarkConfig) (dial : nat -> error)
    (created : error) (e : Entropy) (call : nat) (now : Z) (net : Network) :
  0 <= NumConnections c ->
  (0 <= KeySpace c ->
   exists out net',
     NewBenchmarkRunner c dial created e call now net = Some (out, net')
     /\ match out with
        | inr _ => open_connections net' = open_connections net
        | inl r =>
            cfg r = c
            /\ len (ConnectionPool.clients (pool r)) = NumConnections c
            /\ len (keys (keyGen r)) = KeySpace c
            /\ keyIndex (keyGen r) = 0
            /\ startTime r = now
            /\ Collector.metrics (collector r) = ∅
            /\ open_connections net'
               = (open_connections net + Z.to_nat (NumConnections c))%nat
        end)
  /\ (KeySpace c < 0 ->
      (NewBenchmarkRunner c dial created e call now net = None
       /\ exists p net1 col,
            NewConnectionPool dial (TargetAddress c) (NumConnections c) net
            = Some (inl p, net1)
            /\ Collector.NewCollector (OutputCSV c) created = inl col
            /\ open_connections net1
               = (open_connections net + Z.to_nat (NumConnections c))%nat)
      \/ (exists err net',
            NewBenchmarkRunner c dial created e call now net = Some (inr err, net')
            /\ open_connections net' = open_connections net)).
Proof.
  intros Hn. destruct net as [d old]. unfold NewBenchmarkRunner. split.
  - intros Hkeys.
    destruct (NewConnectionPool_cases dial (TargetAddress c) (NumConnections c) d old Hn)
      as [(err & d' & k & ->) | ->]; cbn [mbind option_bind].
    + eexists. eexists. split; [reflexivity |]. apply open_connections_closed.
    + destruct (Collector.NewCollector (OutputCSV c) created) as [col | err] eqn:Hcol.
      * destruct (NewKeyGenerator_returns e call (KeySpace c) Hkeys)
          as ([kg | err] & -> & Hkg); cbn [mbind option_bind].
        -- destruct Hkg as [Hlen Hidx].
           eexists. eexists. split; [reflexivity |]. simpl.
           split; [reflexivity |].
           split; [unfold len; rewrite clients_at_length by lia; lia |].
           split; [exact Hlen |]. split; [exact Hidx |]. split; [reflexivity |].
           split; [| apply open_connections_opened].
           unfold Collector.NewCollector in Hcol.
           destruct (String.eqb (OutputCSV c) EmptyString);
             [injection Hcol as <-; reflexivity |].
           destruct created; [discriminate | injection Hcol as <-; reflexivity].
        -- rewrite Close_made. cbn [mbind option_bind].
           eexists. eexists. split; [reflexivity |]. apply open_connections_closed.
      * rewrite Close_made. cbn [mbind option_bind].
        eexists. eexists. split; [reflexivity |]. apply open_connections_closed.
  - intros Hneg.
    destruct (NewConnectionPool_cases dial (TargetAddress c) (NumConnections c) d old Hn)
      as [(err & d' & k & ->) | ->]; cbn [mbind option_bind].
    + right. eexists. eexists. split; [reflexivity |]. apply open_connections_closed.
    + destruct (Collector.NewCollector (OutputCSV c) created) as [col | err] eqn:Hcol.
      * left. rewrite (NewKeyGenerator_negative e call _ Hneg). split; [reflexivity |].
        eexists. eexists. eexists. split; [reflexivity |].
        split; [reflexivity |]. apply open_connections_opened.
      * right. rewrite Close_made. cbn [mbind option_bind].
        eexists. eexists. split; [reflexivity |]. apply open_connections_closed.
Qed.

Lemma NewBenchmarkRunner_no_leak_witness :
  (exists out net',
     NewBenchmarkRunner DefaultConfig (fun _ => None) None fourth_read_fails 0 0
       {| dials := 0; conns := [] |} = Some (out, net')
     /\ match out with
        | inr _ => open_connections net' = open_connections {| dials := 0; conns := [] |}
        | inl r =>
            cfg r = DefaultConfig
            /\ len (ConnectionPool.clients (pool r)) = NumConnections DefaultConfig
            /\ len (keys (keyGen r)) = KeySpace DefaultConfig
            /\ keyIndex (keyGen r) = 0
            /\ startTime r = 0
            /\ Collector.metrics (collector r) = ∅
            /\ open_connections net'
               = (open_connections {| dials := 0; conns := [] |}
                  + Z.to_nat (NumConnections DefaultConfig))%nat
        end)
  /\ ((NewBenchmarkRunner negative_key_space (fun _ => None) None sample_entropy 0 0
         {| dials := 0; conns := [] |} = None
       /\ exists p net1 col,
            NewConnectionPool (fun _ => None) (TargetAddress negative_key_space)
              (NumConnections negative_key_space) {| dials := 0; conns := [] |}
            = Some (inl p, net1)
            /\ Collector.NewCollector (OutputCSV negative_key_space) None = inl col
            /\ open_connections net1
               = (open_connections {| dials := 0; conns := [] |}
                  + Z.to_nat (NumConnections negative_key_space))%nat)
      \/ (exists err net',
            NewBenchmarkRunner negative_key_space (fun _ => None) None sample_entropy
              0 0 {| dials := 0; conns := [] |} = Some (inr err, net')
            /\ open_connections net' = open_connections {| dials := 0; conns := [] |})).
Proof.
  split.
  - apply (NewBenchmarkRunner_no_leak DefaultConfig (fun _ => None) None
             fourth_read_fails 0 0 {| dials := 0; conns := [] |});
      vm_compute; discriminate.
  - apply (NewBenchmarkRunner_no_leak negative_key_space (fun _ => None) None
             sample_entropy 0 0 {| dials := 0; conns := [] |});
      [vm_compute; discriminate | vm_compute; reflexivity].
Defined.

(** A key space of zero, which only [Validate] rules out, builds a runner
    that cannot work: construction succeeds with an empty pool of keys,
    and on the runner it returns every call of [performOperation] panics,
    in warm-up and in measurement, whatever the draw and the client. *)
Theorem zero_key_space_panics (c : BenchmarkConfig) (dial : nat -> error)
    (created : error) (e : Entropy) (call : nat) (now : Z) (net net' : Network)
    (r : BenchmarkRunner) (client : option Client.t) (o : Operation)
    (isWarmup : bool) (workerID : Z) :
  KeySpace c = 0 ->
  NewBenchmarkRunner c dial created e call now net = Some (inl r, net') ->
  keys (keyGen r) = []
  /\ performOperation r client o isWarmup workerID = None.
Proof.
  intros Hzero Hnew.
  assert (Hkeys : keys (keyGen r) = []).
  { unfold NewBenchmarkRunner in Hnew. rewrite Hzero in Hnew.
    destruct (NewConnectionPool dial (TargetAddress c) (NumConnections c) net)
      as [[[p | err] net1] |]; cbn [mbind option_bind] in Hnew; try discriminate.
    destruct (Collector.NewCollector (OutputCSV c) created) as [col | err].
    - change (NewKeyGenerator e call 0)
        with (Some (inl {| keys := []; keyIndex := 0 |} : KeyGenerator + string))
        in Hnew.
      cbn [mbind option_bind] in Hnew. injection Hnew as <- _. reflexivity.
    - destruct (ConnectionPool.Close p net1) as [[e' n] |];
        cbn [mbind option_bind] in Hnew; discriminate. }
  split; [exact Hkeys |]. apply performOperation_no_keys. exact Hkeys.
Qed.

Lemma zero_key_space_panics_witness :
  keys (keyGen keyless_runner) = []
  /\ performOperation keyless_runner (Some {| Client.conn := Some 0%nat |})
       (get Second 1500000) true 0 = None.
Proof.
  apply (zero_key_space_panics zero_key_space (fun _ => None) None sample_entropy
           0 0 {| dials := 0; conns := [] |}
           {| dials := 8; conns := replicate 8 true |} keyless_runner).
  - reflexivity.
  - vm_compute. reflexivity.
Defined.

End Construction.

(* ------------------------------------------------------------------ *)
(** ** Ingestion by kind, per-kind statistics and the aggregate *)
(* ------------------------------------------------------------------ *)

Section ByKind.
Import Go collector.

Lemma AddResult_returns (m : Metrics.t) (r : BenchmarkResult.t) :
  0 <= Metrics.maxLatencies m ->
  exists m', Metrics.AddResult m r = Some m'
             /\ Metrics.maxLatencies m' = Metrics.maxLatencies m.
Proof.
  intros Hcap. destruct (failed r) eqn:Hr.
  - destruct (AddResult_failure m r Hr) as (m' & Hrun & _ & _ & _ & _ & Hmax). eauto.
  - destruct (AddResult_success m r Hr Hcap) as (m' & Hrun & _ & _ & _ & _ & Hmax). eauto.
Qed.

Lemma processResults_resume (rs : list BenchmarkResult.t) :
  forall c : Collector.t,
    capacities_ok (Collector.metrics c) ->
    exists c',
      processResults c rs = Some c'
      /\ forall method : string,
           Collector.metrics c' !! method
           = resume (Collector.metrics c !! method) method rs.
Proof.
  induction rs as [| r rs IH]; intros c Hcap.
  - exists c. split; [reflexivity |]. intros method. reflexivity.
  - cbn [processResults]. unfold Collector.processResult.
    set (k := BenchmarkResult.Method r).
    set (m := match Collector.metrics c !! k with
              | Some m => m
              | None => Metrics.NewMetrics k
              end).
    assert (Hm : 0 <= Metrics.maxLatencies m).
    { unfold m. destruct (Collector.metrics c !! k) as [m0 |] eqn:Hk.
      - apply (Hcap k m0 Hk).
      - simpl. lia. }
    destruct (AddResult_returns m r Hm) as (m' & Hrun & Hmax).
    rewrite Hrun. cbn [mbind option_bind].
    destruct (IH (Collector.with_metrics c (<[k := m']> (Collector.metrics c))))
      as (c' & Hrest & Hat).
    { cbn [Collector.metrics Collector.with_metrics].
      apply map_Forall_insert_2; [lia | exact Hcap]. }
    exists c'. split; [exact Hrest |]. intros method. rewrite Hat.
    cbn [Collector.metrics Collector.with_metrics].
    unfold resume, of_kind. cbn [List.filter]. fold k.
    destruct (String.eqb k method) eqn:Hsame.
    + apply String.eqb_eq in Hsame. subst method.
      rewrite lookup_insert_eq. simpl default.
      replace (default (Metrics.NewMetrics k) (Collector.metrics c !! k)) with m
        by (unfold m; destruct (Collector.metrics c !! k); reflexivity).
      rewrite (AddResults_cons m m' r _ Hrun).
      destruct (List.filter _ rs); reflexivity.
    + apply String.eqb_neq in Hsame.
      rewrite lookup_insert_ne by exact Hsame. reflexivity.
Qed.

(** Ingestion sorts the stream by kind.  A collector that starts without
    metrics ingests any stream of results, and afterwards holds a state
    for exactly the kinds that occur in the stream, each the state a new
    [Metrics] of that name reaches by ingesting the results of its kind in
    the order of the stream. *)
Theorem processResults_by_kind (c0 : Collector.t) (rs : list BenchmarkResult.t) :
  Collector.metrics c0 = ∅ ->
  exists c,
    processResults c0 rs = Some c
    /\ forall method : string,
         Collector.metrics c !! method
         = match of_kind method rs with
           | [] => None
           | mine => Metrics.AddResults (Metrics.NewMetrics method) mine
           end.
Proof.
  intros Hempty.
  destruct (processResults_resume rs c0) as (c & Hrun & Hat).
  { rewrite Hempty. apply map_Forall_empty. }
  exists c. split; [exact Hrun |]. intros method.
  rewrite Hat, Hempty, lookup_empty. reflexivity.
Qed.

Lemma processResults_by_kind_witness :
  exists c,
    processResults fresh_collector
      [succeeded "Get" 2; refused "Put" 7; succeeded "Get" 4]%float = Some c
    /\ forall method : string,
         Collector.metrics c !! method
         = match of_kind method [succeeded "Get" 2; refused "Put" 7; succeeded "Get" 4]%float
           with
           | [] => None
           | mine => Metrics.AddResults (Metrics.NewMetrics method) mine
           end.
Proof.
  apply (processResults_by_kind fresh_collector
           [succeeded "Get" 2; refused "Put" 7; succeeded "Get" 4]%float).
  reflexivity.
Defined.

End ByKind.

Section PerKindStats.
Import Go collector.

Lemma get_stats_spec (kinds : list (string * Metrics.t)) :
  forall acc : gmap string Stats.t,
    Forall (fun km => len (Metrics.Latencies km.2) <= sample_limit) kinds ->
    NoDup kinds.*1 ->
    exists stats,
      Collector.get_stats kinds acc = Some stats
      /\ forall k : string,
           stats !! k
           = match (list_to_map kinds : gmap string Metrics.t) !! k with
             | Some m => fst <$> Metrics.GetStats m
             | None => acc !! k
             end.
Proof.
  induction kinds as [| [k0 m0] rest IH]; intros acc Hsmall Hnodup.
  - exists acc. split; [reflexivity |]. intros k. simpl. rewrite lookup_empty. reflexivity.
  - apply Forall_cons in Hsmall as [Hm0 Hrest]. simpl in Hm0.
    rewrite fmap_cons in Hnodup. apply NoDup_cons in Hnodup as [Hfresh Hnodup].
    cbn [fst] in Hfresh.
    destruct (GetStats_returns m0 Hm0) as [s Hs].
    cbn [Collector.get_stats]. rewrite Hs. cbn [mbind option_bind].
    destruct (IH (<[k0 := s]> acc) Hrest Hnodup) as (stats & Hrun & Hat).
    exists stats. split; [exact Hrun |]. intros k. rewrite Hat.
    cbn [list_to_map foldr]. simpl.
    destruct (decide (k = k0)) as [-> | Hne].
    + rewrite (not_elem_of_list_to_map_1 _ _ Hfresh), !lookup_insert_eq, Hs.
      reflexivity.
    + rewrite !lookup_insert_ne by congruence. reflexivity.
Qed.

Lemma entries_iteration (c : Collector.t) (order : list string) :
  Collector.iteration_order c order ->
  Collector.entries c order ≡ₚ map_to_list (Collector.metrics c).
Proof.
  unfold Collector.iteration_order, Collector.entries. intros ->.
  assert (Hall : Forall (fun km => Collector.metrics c !! km.1 = Some km.2)
                   (map_to_list (Collector.metrics c))).
  { apply Forall_forall. intros [k m] Hkm. apply elem_of_map_to_list in Hkm. exact Hkm. }
  assert (Heq : omap (fun method =>
                        m ← Collector.metrics c !! method; Some (method, m))
                  (map_to_list (Collector.metrics c)).*1
                = map_to_list (Collector.metrics c)).
  { set (l := map_to_list (Collector.metrics c)) in *. clearbody l.
    induction Hall as [| [k m] rest Hkm _ IH]; [reflexivity |].
    simpl in *. rewrite Hkm. simpl. f_equal. exact IH. }
  rewrite Heq. reflexivity.
Qed.

(** The per-kind statistics do not depend on the order in which the map
    is walked.  With every sample within [sample_limit], [GetStats] on the
    collector returns a map that holds, for each kind the collector has
    metrics for and for no other name, what [GetStats] returns on the
    metrics of that kind. *)
Theorem Collector_GetStats_per_kind (c : Collector.t) (order : list string) :
  Collector.iteration_order c order ->
  map_Forall (fun _ m => len (Metrics.Latencies m) <= sample_limit)
    (Collector.metrics c) ->
  exists stats,
    Collector.GetStats c order = Some stats
    /\ forall method : string,
         stats !! method
         = (m ← Collector.metrics c !! method; fst <$> Metrics.GetStats m).
Proof.
  intros Horder Hsmall.
  pose proof (entries_iteration c order Horder) as Hperm.
  assert (Hnodup : NoDup (Collector.entries c order).*1).
  { rewrite Hperm. apply NoDup_fst_map_to_list. }
  destruct (get_stats_spec (Collector.entries c order) ∅) as (stats & Hrun & Hat).
  - rewrite Hperm. apply Forall_forall. intros [k m] Hkm.
    apply elem_of_map_to_list in Hkm. apply (Hsmall k m Hkm).
  - exact Hnodup.
  - exists stats. split; [exact Hrun |]. intros method. rewrite Hat.
    rewrite (list_to_map_proper _ _ Hnodup Hperm), list_to_map_to_list.
    destruct (Collector.metrics c !! method); [reflexivity | apply lookup_empty].
Qed.

Lemma Collector_GetStats_per_kind_witness :
  exists stats,
    Collector.GetStats two_kinds_collector ["Get"; "Put"]%string = Some stats
    /\ forall method : string,
         stats !! method
         = (m ← Collector.metrics two_kinds_collector !! method;
            fst <$> Metrics.GetStats m).
Proof.
  apply (Collector_GetStats_per_kind two_kinds_collector ["Get"; "Put"]%string).
  - vm_compute. reflexivity.
  - apply map_Forall_to_list. vm_compute. repeat constructor; discriminate.
Defined.

End PerKindStats.

Section AggregateMore.
Import Go collector.

Lemma total_perm (f : Metrics.t -> Z) (a b : list Metrics.t) :
  a ≡ₚ b -> total f a = total f b.
Proof.
  induction 1 as [| x a b _ IH | x y a | a b c _ IH1 _ IH2]; simpl.
  - reflexivity.
  - rewrite IH. reflexivity.
  - lia.
  - congruence.
Qed.

Lemma total_nonneg (f : Metrics.t -> Z) (ms : list Metrics.t) :
  Forall (fun m => 0 <= f m) ms -> 0 <= total f ms.
Proof. induction 1; simpl; lia. Qed.

(** Replacing or adding the state of one kind. *)
Lemma per_kind_insert (ms : gmap string Metrics.t) (k : string) (m' : Metrics.t) :
  per_kind (<[k := m']> ms) ≡ₚ m' :: per_kind (delete k ms).
Proof.
  unfold per_kind. rewrite <- insert_delete_eq.
  rewrite map_to_list_insert by apply lookup_delete_eq. reflexivity.
Qed.

Lemma per_kind_lookup (ms : gmap string Metrics.t) (k : string) (m : Metrics.t) :
  ms !! k = Some m -> per_kind ms ≡ₚ m :: per_kind (delete k ms).
Proof.
  intros Hm. unfold per_kind. rewrite <- (map_to_list_delete ms k m Hm). reflexivity.
Qed.

Lemma AddResult_sound (m : Metrics.t) (r : BenchmarkResult.t) :
  sound m -> Metrics.Count m < max_int64 ->
  exists m',
    Metrics.AddResult m r = Some m'
    /\ sound m'
    /\ Metrics.Count m' = Metrics.Count m + 1
    /\ Metrics.ErrorCount m'
       = Metrics.ErrorCount m + (if failed r then 1 else 0).
Proof.
  intros (Herr & Hcap & Hkept) Hfit. unfold retained in *.
  destruct (failed r) eqn:Hr.
  - destruct (AddResult_failure m r Hr) as (m' & Hrun & Hc & He & _ & Hl & Hmax).
    unfold add64 in Hc, He.
    rewrite wrap64_id in Hc by (unfold min_int64, max_int64 in *; lia).
    rewrite wrap64_id in He by (unfold min_int64, max_int64 in *; lia).
    exists m'. split; [exact Hrun |]. unfold sound, retained.
    rewrite Hc, He, Hl, Hmax. repeat split; lia.
  - destruct (AddResult_success m r Hr Hcap) as (m' & Hrun & Hc & He & _ & Hl & Hmax).
    unfold add64 in Hc.
    rewrite wrap64_id in Hc by (unfold min_int64, max_int64 in *; lia).
    exists m'. split; [exact Hrun |]. unfold sound, retained.
    rewrite Hc, He, Hl, Hmax.
    assert (len (most_recent (Metrics.maxLatencies m)
                   (Metrics.Latencies m ++ [BenchmarkResult.LatencyMs r]))
            <= len (Metrics.Latencies m) + 1).
    { unfold most_recent, len. rewrite length_drop, length_app. simpl. lia. }
    repeat split; lia.
Qed.

Lemma sound_NewMetrics (method : string) : sound (Metrics.NewMetrics method).
Proof. unfold sound, retained, len. simpl. lia. Qed.

Lemma Forall_sound_counts (ms : list Metrics.t) :
  Forall sound ms ->
  Forall (fun m => 0 <= Metrics.Count m) ms
  /\ Forall (fun m => 0 <= Metrics.ErrorCount m) ms.
Proof.
  intros H. split; eapply Forall_impl; try exact H;
    intros m (? & ? & ?); simpl; unfold retained in *; lia.
Qed.

(** One result more. *)
Lemma processResult_ingested (c : Collector.t) (r : BenchmarkResult.t) (n e : Z) :
  ingested (Collector.metrics c) n e -> n < max_int64 ->
  exists c',
    Collector.processResult c r = Some c'
    /\ ingested (Collector.metrics c') (n + 1) (e + (if failed r then 1 else 0)).
Proof.
  intros (Hall & Hn & He) Hfit. unfold Collector.processResult.
  set (k := BenchmarkResult.Method r).
  set (rest := per_kind (delete k (Collector.metrics c))).
  assert (Hstate : exists m,
             match Collector.metrics c !! k with
             | Some m => m
             | None => Metrics.NewMetrics k
             end = m
             /\ sound m /\ Forall sound rest
             /\ n = Metrics.Count m + total Metrics.Count rest
             /\ e = Metrics.ErrorCount m + total Metrics.ErrorCount rest).
  { destruct (Collector.metrics c !! k) as [m |] eqn:Hm.
    - exists m. split; [reflexivity |].
      pose proof (per_kind_lookup _ _ _ Hm) as Hperm. fold rest in Hperm.
      rewrite (total_perm Metrics.Count _ _ Hperm) in Hn.
      rewrite (total_perm Metrics.ErrorCount _ _ Hperm) in He.
      rewrite Hperm in Hall. apply Forall_cons in Hall as [Hm0 Hrest].
      simpl in Hn, He.
      split; [exact Hm0 | split; [exact Hrest | split; lia]].
    - exists (Metrics.NewMetrics k). split; [reflexivity |].
      split; [apply sound_NewMetrics |].
      unfold rest. rewrite delete_id by exact Hm.
      split; [exact Hall | simpl; split; lia]. }
  destruct Hstate as (m & -> & Hm & Hrest & Hn' & He').
  destruct (Forall_sound_counts rest Hrest) as [Hc0 He0].
  pose proof (total_nonneg _ _ Hc0). pose proof (total_nonneg _ _ He0).
  destruct (AddResult_sound m r Hm) as (m' & -> & Hm' & Hc & Herr); [lia |].
  cbn [mbind option_bind]. eexists. split; [reflexivity |].
  unfold ingested. cbn [Collector.metrics Collector.with_metrics].
  pose proof (per_kind_insert (Collector.metrics c) k m') as Hperm. fold rest in Hperm.
  rewrite (total_perm Metrics.Count _ _ Hperm).
  rewrite (total_perm Metrics.ErrorCount _ _ Hperm).
  split; [rewrite Hperm; constructor; assumption |].
  simpl. lia.
Qed.

Lemma processResults_ingested (rs : list BenchmarkResult.t) :
  forall (c : Collector.t) (n e : Z),
    ingested (Collector.metrics c) n e -> n + len rs <= max_int64 ->
    exists c',
      processResults c rs = Some c'
      /\ ingested (Collector.metrics c') (n + len rs) (e + len (failures rs)).
Proof.
  induction rs as [| r rs IH]; intros c n e Hin Hfit.
  - simpl. exists c. split; [reflexivity |].
    unfold len. simpl. rewrite !Z.add_0_r. exact Hin.
  - unfold len in Hfit. simpl length in Hfit.
    destruct (processResult_ingested c r n e Hin) as (c1 & Hrun & Hin1); [lia |].
    destruct (IH c1 _ _ Hin1) as (c' & Hrun' & Hin'); [unfold len; lia |].
    exists c'. cbn [processResults]. rewrite Hrun. cbn [mbind option_bind].
    split; [exact Hrun' |].
    replace (n + len (r :: rs)) with (n + 1 + len rs)
      by (unfold len; simpl length; lia).
    replace (e + len (failures (r :: rs)))
      with (e + (if failed r then 1 else 0) + len (failures rs)).
    + exact Hin'.
    + unfold failures, len. simpl. destruct (failed r); simpl length; lia.
Qed.

(** The accumulators after the loop over sound states, when the count
    fits the machine integer. *)
Lemma collect_totals (ms : list Metrics.t) :
  forall acc : Collector.totals,
    Forall sound ms ->
    0 <= Collector.totalErrorCount acc <= Collector.totalCount acc ->
    Collector.totalCount acc + total Metrics.Count ms <= max_int64 ->
    let acc' := fold_left Collector.collect ms acc in
    Collector.totalCount acc' = Collector.totalCount acc + total Metrics.Count ms
    /\ Collector.totalErrorCount acc'
       = Collector.totalErrorCount acc + total Metrics.ErrorCount ms
    /\ len (Collector.allLatencies acc')
       = len (Collector.allLatencies acc) + total retained ms.
Proof.
  induction ms as [| m ms IH]; intros acc Hall Hacc Hfit.
  - simpl. lia.
  - inversion Hall as [| ? ? Hm Hrest]; subst.
    destruct (Forall_sound_counts ms Hrest) as [Hc0 He0].
    pose proof (total_nonneg _ _ Hc0). pose proof (total_nonneg _ _ He0).
    destruct Hm as (Herr & Hcap & Hkept). simpl in Hfit.
    cbn [fold_left]. cbv zeta.
    destruct (IH (Collector.collect acc m)) as (Hc & He & Hl).
    + exact Hrest.
    + cbn [Collector.collect Collector.totalCount Collector.totalErrorCount].
      unfold add64. rewrite !wrap64_id by (unfold min_int64, max_int64 in *; lia). lia.
    + cbn [Collector.collect Collector.totalCount]. unfold add64.
      rewrite wrap64_id by (unfold min_int64, max_int64 in *; lia). lia.
    + rewrite Hc, He, Hl.
      cbn [Collector.collect Collector.totalCount Collector.totalErrorCount
           Collector.allLatencies].
      unfold add64. rewrite !wrap64_id by (unfold min_int64, max_int64 in *; lia).
      unfold retained, len. rewrite length_app. simpl. unfold retained, len. lia.
Qed.

(** A loop in an iteration order of the map visits the per-kind states,
    each once. *)
Lemma range_per_kind (c : Collector.t) (order : list string) :
  Collector.iteration_order c order ->
  Collector.range c order ≡ₚ per_kind (Collector.metrics c).
Proof.
  unfold Collector.iteration_order, Collector.range, per_kind. intros ->.
  assert (Hall : Forall (fun km => Collector.metrics c !! km.1 = Some km.2)
                   (map_to_list (Collector.metrics c))).
  { apply Forall_forall. intros [k m] Hkm. apply elem_of_map_to_list in Hkm. exact Hkm. }
  assert (Heq : omap (fun method => Collector.metrics c !! method)
                  (map_to_list (Collector.metrics c)).*1
                = (map_to_list (Collector.metrics c)).*2).
  { set (l := map_to_list (Collector.metrics c)) in *. clearbody l.
    induction Hall as [| [k m] rest Hkm _ IH]; [reflexivity |].
    simpl in *. rewrite Hkm. f_equal. exact IH. }
  rewrite Heq. reflexivity.
Qed.

Lemma total_retained (ms : list Metrics.t) :
  Forall sound ms ->
  total retained ms <= total Metrics.Count ms - total Metrics.ErrorCount ms.
Proof.
  induction 1 as [| m ms (? & ? & ?) _ IH]; simpl; lia.
Qed.

(** The aggregate counts every result.  A collector that starts without
    metrics and ingests any results, up to [sample_limit] of them and of
    whatever kinds, then reports, in whatever order the map is walked, a
    [Count] equal to the number of results and an [ErrorCount] equal to
    the number of failed ones. *)
Theorem GetAggregatedStats_counts_all (c0 : Collector.t)
    (rs : list BenchmarkResult.t) :
  Collector.metrics c0 = ∅ ->
  len rs <= sample_limit ->
  exists c,
    processResults c0 rs = Some c
    /\ forall order : list string,
         Collector.iteration_order c order ->
         exists s,
           Collector.GetAggregatedStats c order = Some s
           /\ Stats.Method s = "AGGREGATED"%string
           /\ Stats.Count s = len rs
           /\ Stats.ErrorCount s = len (failures rs).
Proof.
  intros Hempty Hsmall.
  assert (Hin0 : ingested (Collector.metrics c0) 0 0).
  { rewrite Hempty. unfold ingested, per_kind. rewrite map_to_list_empty.
    simpl. auto. }
  destruct (processResults_ingested rs c0 0 0 Hin0) as (c & Hrun & Hall & Hn & He).
  { unfold sample_limit, max_int64 in *. lia. }
  rewrite Z.add_0_l in Hn, He.
  exists c. split; [exact Hrun |]. intros order Horder.
  pose proof (range_per_kind c order Horder) as Hperm.
  assert (Hsound : Forall sound (Collector.range c order)).
  { rewrite Hperm. exact Hall. }
  destruct (collect_totals (Collector.range c order)
              {| Collector.allLatencies := []; Collector.totalCount := 0;
                 Collector.totalErrorCount := 0;
                 Collector.totalLatency := PrimFloat.zero |} Hsound)
    as (Hc & Herr & Hl).
  { simpl. lia. }
  { simpl. rewrite (total_perm _ _ _ Hperm), Hn.
    unfold sample_limit, max_int64 in *. lia. }
  fold (Collector.collect_all c order) in Hc, Herr, Hl.
  cbn [Collector.totalCount Collector.totalErrorCount Collector.allLatencies] in Hc, Herr, Hl.
  rewrite (total_perm _ _ _ Hperm), Hn in Hc.
  rewrite (total_perm _ _ _ Hperm), He in Herr.
  rewrite (total_perm _ _ _ Hperm) in Hl.
  pose proof (total_retained _ Hall) as Hkept. rewrite Hn, He in Hkept.
  assert (0 <= len (failures rs)) by (unfold len; lia).
  destruct (GetAggregatedStats_returns c order) as [s Hs].
  { rewrite Hl. change (len (@nil float64)) with 0. lia. }
  exists s. split; [exact Hs |].
  destruct (Z.eq_dec (Collector.totalCount (Collector.collect_all c order)) 0)
    as [Hz | Hnz].
  - unfold Collector.GetAggregatedStats in Hs. rewrite Hz in Hs. simpl in Hs.
    injection Hs as <-. simpl.
    assert (len (failures rs) <= len rs).
    { pose proof (successes_failures_len rs). unfold len in *. lia. }
    split; [reflexivity |]. lia.
  - destruct (GetAggregatedStats_fields c order s Hnz Hs) as (Hm & Hcount & Herrs & _).
    rewrite Hcount, Herrs. auto.
Qed.

Lemma GetAggregatedStats_counts_all_witness :
  exists c,
    processResults fresh_collector mixed_results = Some c
    /\ forall order : list string,
         Collector.iteration_order c order ->
         exists s,
           Collector.GetAggregatedStats c order = Some s
           /\ Stats.Method s = "AGGREGATED"%string
           /\ Stats.Count s = len mixed_results
           /\ Stats.ErrorCount s = len (failures mixed_results).
Proof.
  apply (GetAggregatedStats_counts_all fresh_collector mixed_results).
  - reflexivity.
  - vm_compute. discriminate.
Defined.

End AggregateMore.

(* ------------------------------------------------------------------ *)
(** ** A validated configuration at work *)
(* ------------------------------------------------------------------ *)

Section Validated.
Import Go collector kvclient config runner.

Lemma startWorkers_round_robin (cs : list (option Client.t)) (k : nat) :
  forall i : Z,
    0 <= i < len cs -> len cs <= max_int64 ->
    startWorkers k {| ConnectionPool.clients := cs; ConnectionPool.index := i |}
    = Some {| ConnectionPool.clients := cs;
              ConnectionPool.index := (i + Z.of_nat k) mod len cs |}.
Proof.
  induction k as [| k IH]; intros i Hi Hmax.
  - simpl. rewrite Z.add_0_r, Z.mod_small by lia. reflexivity.
  - cbn [startWorkers]. rewrite GetClient_next by assumption.
    cbn [mbind option_bind].
    rewrite IH by (try apply Z.mod_pos_bound; lia).
    rewrite Zplus_mod_idemp_l. do 3 f_equal. lia.
Qed.

Lemma Validate_positive (c : BenchmarkConfig) :
  Validate c = None ->
  0 < NumConnections c /\ 0 < NumWorkers c /\ 0 < KeySpace c /\ 0 < ValueSize c.
Proof.
  unfold Validate. intros Hvalid.
  destruct (String.eqb _ _); [discriminate |].
  destruct (NumConnections c <=? 0) eqn:H1; [discriminate |].
  destruct (NumWorkers c <=? 0) eqn:H2; [discriminate |].
  destruct (Duration c <=? 0); [discriminate |].
  destruct (KeySpace c <=? 0) eqn:H3; [discriminate |].
  destruct (ValueSize c <=? 0) eqn:H4; [discriminate |].
  apply Z.leb_gt in H1, H2, H3, H4. lia.
Qed.

(** Under a configuration [Validate] accepts, every worker gets its
    client.  On the runner construction yields, the [NumWorkers] calls of
    [GetClient] that start a phase all return, leave the clients as they
    are, and leave the index at [NumWorkers mod NumConnections]: the
    workers are dealt round the connections. *)
Theorem startWorkers_validated (c : BenchmarkConfig) (dial : nat -> error)
    (created : error) (e : Entropy) (call : nat) (now : Z)
    (net net' : Network) (r : BenchmarkRunner) :
  Validate c = None ->
  NumConnections c <= max_int64 ->
  NewBenchmarkRunner c dial created e call now net = Some (inl r, net') ->
  exists p',
    startWorkers (Z.to_nat (NumWorkers (cfg r))) (pool r) = Some p'
    /\ ConnectionPool.clients p' = ConnectionPool.clients (pool r)
    /\ len (ConnectionPool.clients p') = NumConnections c
    /\ ConnectionPool.index p' = NumWorkers c mod NumConnections c.
Proof.
  intros Hvalid Hmax Hnew.
  destruct (Validate_positive c Hvalid) as (Hconns & Hworkers & _ & _).
  destruct net as [d old]. unfold NewBenchmarkRunner in Hnew.
  destruct (NewConnectionPool_cases dial (TargetAddress c) (NumConnections c) d old)
    as [(err & d' & k & Hpool) | Hpool]; [lia | |];
    rewrite Hpool in Hnew; cbn [mbind option_bind] in Hnew; [discriminate |].
  assert (Hlen : len (clients_at (length old) (Z.to_nat (NumConnections c))
                        (Z.to_nat (NumConnections c))) = NumConnections c).
  { unfold len. rewrite clients_at_length by lia. lia. }
  assert (Hr : cfg r = c
               /\ pool r = {| ConnectionPool.clients :=
                                clients_at (length old) (Z.to_nat (NumConnections c))
                                  (Z.to_nat (NumConnections c));
                              ConnectionPool.index := 0 |}).
  { destruct (Collector.NewCollector (OutputCSV c) created) as [col | err].
    - destruct (NewKeyGenerator e call (KeySpace c)) as [[kg | err] |];
        cbn [mbind option_bind] in Hnew; [| | discriminate].
      + injection Hnew as <- _. split; reflexivity.
      + rewrite Close_made in Hnew. discriminate.
    - rewrite Close_made in Hnew. discriminate. }
  destruct Hr as [-> ->].
  rewrite startWorkers_round_robin by (rewrite Hlen; lia).
  eexists. split; [reflexivity |]. simpl.
  split; [reflexivity |]. split; [exact Hlen |].
  rewrite Hlen, Z.add_0_l, Z2Nat.id by lia. reflexivity.
Qed.

Lemma startWorkers_validated_witness :
  exists p',
    startWorkers (Z.to_nat (NumWorkers (cfg sample_runner))) (pool sample_runner)
    = Some p'
    /\ ConnectionPool.clients p' = ConnectionPool.clients (pool sample_runner)
    /\ len (ConnectionPool.clients p') = NumConnections sample_config
    /\ ConnectionPool.index p'
       = NumWorkers sample_config mod NumConnections sample_config.
Proof.
  apply (startWorkers_validated sample_config (fun _ => None) None
           sample_entropy 0 0 {| dials := 0; conns := [] |}
           {| dials := 8; conns := replicate 8 true |} sample_runner).
  - reflexivity.
  - vm_compute. discriminate.
  - vm_compute. reflexivity.
Defined.

(** One operation of the measuring phase under a validated configuration.
    With a client that is not [nil], a draw inside the distribution, a key
    draw inside the pool of keys and room in the channel,
    [performOperation] returns and submits exactly one result: the
    operation selected by the draw, with the latency in whole
    milliseconds, the error of the call and the closing timestamp.  The
    metrics are not touched, and an operation that succeeded is logged
    only under [LogRequests]. *)
Theorem performOperation_validated (r : BenchmarkRunner) (client : Client.t)
    (o : Operation) (workerID : Z) :
  Validate (cfg r) = None ->
  ReadRatio (cfg r) + WriteRatio (cfg r) + DeleteRatio (cfg r) <= max_int64 ->
  0 <= draw o < 100 ->
  in_pool (keyGen r) (keyDraw o) ->
  len (Collector.results (collector r)) < results_capacity ->
  exists r' lines,
    performOperation r (Some client) o false workerID = Some (r', lines)
    /\ Collector.results (collector r')
       = Collector.results (collector r)
         ++ [{| BenchmarkResult.Method := selected (cfg r) (draw o);
                BenchmarkResult.LatencyMs :=
                  float64_of_int (Milliseconds (Since (finish o) (start o)));
                BenchmarkResult.Error := outcome (selected (cfg r) (draw o)) o;
                BenchmarkResult.Timestamp := stamp o |}]
    /\ Collector.metrics (collector r') = Collector.metrics (collector r)
    /\ cfg r' = cfg r
    /\ (LogRequests (cfg r) = false ->
        outcome (selected (cfg r) (draw o)) o = None -> lines = []).
Proof.
  intros Hvalid Hsum Hdraw Hkey Hroom.
  destruct (Validate_positive (cfg r) Hvalid) as (_ & _ & _ & Hsize).
  pose proof (selectOperation_ratios (cfg r) (draw o) Hvalid Hsum Hdraw) as Hop.
  fold (selected (cfg r) (draw o)) in Hop.
  unfold performOperation. rewrite Hop.
  destruct (GetRandomKey_in_pool _ _ Hkey) as [key ->].
  cbn [mbind option_bind].
  rewrite value_size_ok by lia.
  assert (Hlt : (len (Collector.results (collector r)) <? results_capacity) = true)
    by (apply Z.ltb_lt; exact Hroom).
  destruct (calls_client (selected (cfg r) (draw o)) o);
    cbn [mbind option_bind negb]; unfold Collector.AddResult; rewrite Hlt.
  all: eexists; eexists; (split; [reflexivity |]).
  all: cbn [collector with_collector cfg Collector.results Collector.metrics
            Collector.with_results].
  all: (split; [reflexivity |]); (split; [reflexivity |]); (split; [reflexivity |]).
  all: intros Hquiet Hok; rewrite Hquiet, Hok; simpl.
  all: destruct (LogErrors (cfg r)); reflexivity.
Qed.

Lemma performOperation_validated_witness :
  exists r' lines,
    performOperation sample_runner (Some {| Client.conn := Some 0%nat |})
      (get 0 2500000) false 0 = Some (r', lines)
    /\ Collector.results (collector r')
       = Collector.results (collector sample_runner)
         ++ [{| BenchmarkResult.Method :=
                  selected (cfg sample_runner) (draw (get 0 2500000));
                BenchmarkResult.LatencyMs :=
                  float64_of_int
                    (Milliseconds
                       (Since (finish (get 0 2500000)) (start (get 0 2500000))));
                BenchmarkResult.Error :=
                  outcome (selected (cfg sample_runner) (draw (get 0 2500000)))
                    (get 0 2500000);
                BenchmarkResult.Timestamp := stamp (get 0 2500000) |}]
    /\ Collector.metrics (collector r') = Collector.metrics (collector sample_runner)
    /\ cfg r' = cfg sample_runner
    /\ (LogRequests (cfg sample_runner) = false ->
        outcome (selected (cfg sample_runner) (draw (get 0 2500000))) (get 0 2500000)
        = None ->
        lines = []).
Proof.
  apply (performOperation_validated sample_runner {| Client.conn := Some 0%nat |}
           (get 0 2500000) 0).
  - reflexivity.
  - vm_compute. discriminate.
  - vm_compute. split; [discriminate | reflexivity].
  - vm_compute. split; [discriminate | reflexivity].
  - vm_compute. reflexivity.
Defined.

End Validated.

(* ------------------------------------------------------------------ *)
(** ** Collector.GetTotalStats *)
(* ------------------------------------------------------------------ *)

Section TotalStats.
Import Go collector.

Lemma Collector_GetStats_lookup (c : Collector.t) (order : list string) :
  Collector.iteration_order c order ->
  map_Forall (fun _ m => len (Metrics.Latencies m) <= sample_limit)
    (Collector.metrics c) ->
  exists stats,
    Collector.GetStats c order = Some stats
    /\ forall method : string,
         stats !! method
         = (m ← Collector.metrics c !! method; fst <$> Metrics.GetStats m).
Proof.
  intros Horder Hsmall.
  pose proof (entries_iteration c order Horder) as Hperm.
  assert (Hnodup : NoDup (Collector.entries c order).*1).
  { rewrite Hperm. apply NoDup_fst_map_to_list. }
  destruct (get_stats_spec (Collector.entries c order) ∅) as (stats & Hrun & Hat).
  - rewrite Hperm. apply Forall_forall. intros [k m] Hkm.
    apply elem_of_map_to_list in Hkm. apply (Hsmall k m Hkm).
  - exact Hnodup.
  - exists stats. split; [exact Hrun |]. intros method. rewrite Hat.
    rewrite (list_to_map_proper _ _ Hnodup Hperm), list_to_map_to_list.
    destruct (Collector.metrics c !! method); [reflexivity | apply lookup_empty].
Qed.

(** After ingestion from nothing every kind is held under its own name
    and has counted at least one result. *)
Lemma processResults_named (c0 c : Collector.t) (rs : list BenchmarkResult.t) :
  Collector.metrics c0 = ∅ ->
  len rs <= max_int64 ->
  processResults c0 rs = Some c ->
  forall (k : string) (m : Metrics.t),
    Collector.metrics c !! k = Some m ->
    Metrics.Method m = k /\ 0 < Metrics.Count m.
Proof.
  intros Hempty Hfit Hrun k m Hm.
  destruct (processResults_resume rs c0) as (c' & Hrun' & Hat).
  { rewrite Hempty. apply map_Forall_empty. }
  rewrite Hrun in Hrun'. injection Hrun' as <-.
  rewrite Hat, Hempty, lookup_empty in Hm. unfold resume in Hm.
  destruct (of_kind k rs) as [| r mine] eqn:Hmine; [discriminate |].
  change (default (Metrics.NewMetrics k) None) with (Metrics.NewMetrics k) in Hm.
  assert (Hlen : len (r :: mine) <= len rs).
  { rewrite <- Hmine. unfold of_kind, len.
    pose proof (List.filter_length_le
                  (fun r => String.eqb (BenchmarkResult.Method r) k) rs). lia. }
  destruct (AddResults_totals (r :: mine) (Metrics.NewMetrics k))
    as (m' & Hm' & Hcount & _).
  { unfold counts_ok. simpl. lia. }
  { simpl. lia. }
  { simpl. lia. }
  rewrite Hm in Hm'. injection Hm' as <-.
  split.
  - apply (AddResults_Method _ _ _ Hm).
  - rewrite Hcount. unfold len. simpl. lia.
Qed.

(** The loop of [GetTotalStats] over the statistics of the kinds [order']
    names, when each reports its kind and the count fits the machine
    integer. *)
Lemma add_stat_totals (c : Collector.t) (stats : gmap string Stats.t)
    (order' : list string) :
  forall acc : Collector.total_acc,
    Forall (fun k => exists m s,
                Collector.metrics c !! k = Some m /\ stats !! k = Some s
                /\ sound m /\ reported c m s) order' ->
    0 <= Stats.ErrorCount (Collector.total acc) <= Stats.Count (Collector.total acc) ->
    Stats.Count (Collector.total acc)
    + total Metrics.Count (Collector.range c order') <= max_int64 ->
    let acc' := fold_left (Collector.add_stat c)
                  (omap (fun method => stats !! method) order') acc in
    Stats.Method (Collector.total acc') = Stats.Method (Collector.total acc)
    /\ Stats.Count (Collector.total acc')
       = Stats.Count (Collector.total acc)
         + total Metrics.Count (Collector.range c order')
    /\ Stats.ErrorCount (Collector.total acc')
       = Stats.ErrorCount (Collector.total acc)
         + total Metrics.ErrorCount (Collector.range c order')
    /\ len (Collector.latencies acc')
       = len (Collector.latencies acc) + total retained (Collector.range c order').
Proof.
  induction order' as [| k order' IH]; intros acc Hall Hacc Hfit.
  - unfold Collector.range. simpl. split; [reflexivity | lia].
  - apply Forall_cons in Hall as [(m & s & Hm & Hs & Hsound & Hc & He & Hback) Hrest].
    unfold Collector.range in *. cbn [omap list_omap] in *.
    rewrite Hm in *. rewrite Hs. cbn [fold_left]. cbv zeta.
    assert (Hsounds : Forall sound (omap (fun method => Collector.metrics c !! method) order')).
    { apply Forall_forall. intros m0 Hm0.
      apply list_elem_of_omap in Hm0 as (k0 & Hk0 & Hlook).
      rewrite Forall_forall in Hrest.
      destruct (Hrest k0 Hk0) as (m1 & _ & Hm1 & _ & Hs1 & _). congruence. }
    destruct (Forall_sound_counts _ Hsounds) as [Hc0 He0].
    pose proof (total_nonneg _ _ Hc0). pose proof (total_nonneg _ _ He0).
    destruct Hsound as (Herr & Hcap & Hkept). simpl in Hfit.
    destruct (IH (Collector.add_stat c acc s)) as (Hname & Hcount & Herrs & Hl).
    + exact Hrest.
    + cbn [Collector.add_stat Collector.total Stats.Count Stats.ErrorCount].
      rewrite Hc, He. unfold add64.
      rewrite !wrap64_id by (unfold min_int64, max_int64 in *; lia). lia.
    + cbn [Collector.add_stat Collector.total Stats.Count]. rewrite Hc. unfold add64.
      rewrite wrap64_id by (unfold min_int64, max_int64 in *; lia). lia.
    + rewrite Hname, Hcount, Herrs, Hl.
      cbn [Collector.add_stat Collector.total Collector.latencies
           Stats.Method Stats.Count Stats.ErrorCount].
      rewrite Hc, He, Hback. unfold add64.
      rewrite !wrap64_id by (unfold min_int64, max_int64 in *; lia).
      unfold retained, len. rewrite length_app. simpl. unfold retained, len.
      split; [reflexivity |]. lia.
Qed.

(** [GetTotalStats] counts every result.  A collector that starts without
    metrics and ingests any results, up to [sample_limit] of them, then
    reports through [GetTotalStats], whatever the orders in which the two
    maps are walked, statistics named "TOTAL" with a [Count] equal to the
    number of results and an [ErrorCount] equal to the number of failed
    ones. *)
Theorem GetTotalStats_counts_all (c0 : Collector.t) (rs : list BenchmarkResult.t) :
  Collector.metrics c0 = ∅ ->
  len rs <= sample_limit ->
  exists c,
    processResults c0 rs = Some c
    /\ forall order order' : list string,
         Collector.iteration_order c order ->
         Collector.iteration_order c order' ->
         exists s,
           Collector.GetTotalStats c order order' = Some s
           /\ Stats.Method s = "TOTAL"%string
           /\ Stats.Count s = len rs
           /\ Stats.ErrorCount s = len (failures rs).
Proof.
  intros Hempty Hsmall.
  assert (Hin0 : ingested (Collector.metrics c0) 0 0).
  { rewrite Hempty. unfold ingested, per_kind. rewrite map_to_list_empty.
    simpl. auto. }
  destruct (processResults_ingested rs c0 0 0 Hin0) as (c & Hrun & Hall & Hn & He).
  { unfold sample_limit, max_int64 in *. lia. }
  rewrite Z.add_0_l in Hn, He.
  exists c. split; [exact Hrun |]. intros order order' Horder Horder'.
  assert (Hnamed := processResults_named c0 c rs Hempty
                      ltac:(unfold sample_limit, max_int64 in *; lia) Hrun).
  pose proof (total_retained _ Hall) as Hkept. rewrite Hn, He in Hkept.
  assert (Hfail : 0 <= len (failures rs)) by (unfold len; lia).
  destruct (Forall_sound_counts _ Hall) as [Hc0 He0].
  (* each kind is sound and keeps a small sample *)
  assert (Hkind : forall k m, Collector.metrics c !! k = Some m ->
                    sound m /\ len (Metrics.Latencies m) <= sample_limit).
  { intros k m Hm.
    pose proof (per_kind_lookup _ _ _ Hm) as Hperm.
    pose proof Hall as Hall'. rewrite Hperm in Hall'.
    apply Forall_cons in Hall' as [Hsound Hrest].
    split; [exact Hsound |].
    pose proof (total_retained _ Hrest) as Hk.
    destruct (Forall_sound_counts _ Hrest) as [Hc1 He1].
    assert (Hr0 : 0 <= total retained (per_kind (delete k (Collector.metrics c)))).
    { apply total_nonneg. apply Forall_forall. intros; unfold retained, len; lia. }
    pose proof (total_perm retained _ _ Hperm) as Hsum. simpl in Hsum.
    pose proof (total_retained _ Hall) as Hall2. rewrite Hn, He in Hall2.
    change (retained m) with (len (Metrics.Latencies m)) in Hsum. lia. }
  destruct (Collector_GetStats_lookup c order Horder) as (stats & Hstats & Hat).
  { intros k m Hm. apply (Hkind k m Hm). }
  pose proof (range_per_kind c order' Horder') as Hperm.
  assert (Hvisit : Forall (fun k => exists m s,
                      Collector.metrics c !! k = Some m /\ stats !! k = Some s
                      /\ sound m /\ reported c m s) order').
  { apply Forall_forall. intros k Hk.
    unfold Collector.iteration_order in Horder'. rewrite Horder' in Hk.
    apply list_elem_of_fmap in Hk as [[k' m] [-> Hkm]].
    apply elem_of_map_to_list in Hkm. simpl.
    destruct (Hkind k' m Hkm) as [Hsound Hlen].
    destruct (Hnamed k' m Hkm) as [Hname Hpos].
    destruct (GetStats_returns m Hlen) as [s Hs].
    destruct (GetStats_counted m s Hs ltac:(lia)) as (Hc & Hm & Herr).
    exists m, s. split; [exact Hkm |].
    split; [rewrite Hat, Hkm; simpl; rewrite Hs; reflexivity |].
    split; [exact Hsound |].
    unfold reported. rewrite Hc, Herr, Hm, Hname. auto. }
  destruct (add_stat_totals c stats order'
              {| Collector.total := Stats.named "TOTAL";
                 Collector.latencies := [];
                 Collector.totalSuccessCount := 0 |} Hvisit)
    as (Hname & Hcount & Herrs & Hl).
  { simpl. lia. }
  { simpl. rewrite (total_perm _ _ _ Hperm), Hn.
    unfold sample_limit, max_int64 in *. lia. }
  cbn [Collector.total Collector.latencies Stats.named Stats.Method Stats.Count
       Stats.ErrorCount] in Hname, Hcount, Herrs, Hl.
  rewrite (total_perm _ _ _ Hperm), Hn in Hcount.
  rewrite (total_perm _ _ _ Hperm), He in Herrs.
  rewrite (total_perm _ _ _ Hperm) in Hl.
  change (len (@nil float64)) with 0 in Hl.
  unfold Collector.GetTotalStats. rewrite Hstats. cbn [mbind option_bind].
  set (acc := fold_left (Collector.add_stat c)
                (omap (fun method => stats !! method) order') _) in *.
  destruct (0 <? Stats.Count (Collector.total acc)) eqn:Hpos.
  - destruct (0 <? len (Collector.latencies acc)) eqn:Hany.
    + apply Z.ltb_lt in Hany.
      set (sorted := Float64s (Collector.latencies acc)).
      assert (Hlen : len sorted = len (Collector.latencies acc)).
      { unfold len, sorted. rewrite Float64s_length. reflexivity. }
      destruct (index_in_range sorted 0) as [mn ->]; [lia |].
      destruct (index_in_range sorted (len sorted - 1)) as [mx ->]; [lia |].
      destruct (percentiles_return sorted) as (p50 & p95 & p99 & -> & -> & ->); [lia |].
      cbn [mbind option_bind]. eexists. split; [reflexivity |]. simpl.
      rewrite Hname, Hcount, Herrs. simpl. auto.
    + cbn [mbind option_bind]. eexists. split; [reflexivity |]. simpl.
      rewrite Hname, Hcount, Herrs. simpl. auto.
  - eexists. split; [reflexivity |].
    rewrite Hname, Hcount, Herrs. simpl. auto.
Qed.

Lemma GetTotalStats_counts_all_witness :
  exists c,
    processResults fresh_collector mixed_results = Some c
    /\ forall order order' : list string,
         Collector.iteration_order c order ->
         Collector.iteration_order c order' ->
         exists s,
           Collector.GetTotalStats c order order' = Some s
           /\ Stats.Method s = "TOTAL"%string
           /\ Stats.Count s = len mixed_results
           /\ Stats.ErrorCount s = len (failures mixed_results).
Proof.
  apply (GetTotalStats_counts_all fresh_collector mixed_results).
  - reflexivity.
  - vm_compute. discriminate.
Defined.

End TotalStats.
